(** * GITHUB_HELPER: the GitHub query tools, the chat endpoint and the CLI loop

    A shallow embedding of [src/app.py], [src/github_agent.py] and
    [src/cli.py], and the properties the specification states about them.

    Conventions of the embedding.
    - A Python [str] is a Rocq [string]; a character outside ASCII stands
      as its UTF-8 bytes.  The text operations of the tools (a regular
      expression whose literals and classes are ASCII, substring tests
      with ASCII needles, concatenation, [join]) act the same way on the
      bytes as on the code points.  The operations that work character
      by character ([strip], the iteration over a [str]) read the bytes
      of a whole character at a time.
    - A raised exception is the [Raise] outcome of a computation.
    - The HTTP client is an oracle from requests to responses; a tool
      runs against it and logs every request it issues.
    - The hosted model (the agent's [run]) is an oracle as well. *)

From Stdlib Require Import String Ascii List ZArith Bool Lia.
Import ListNotations.
Local Open Scope list_scope.
Local Open Scope string_scope.

(** ** Python values and built-in operations *)

Module Py.

Inductive exn : Type :=
| KeyError (key : string)
| TypeError
| AttributeError
| OverflowError
| JSONDecodeError
| DecodeError            (* binascii.Error, UnicodeDecodeError *)
| EOFError
| TransportError         (* httpx.HTTPError and its subclasses *)
| AgentError (msg : string).

Inductive outcome (A : Type) : Type :=
| Ret (a : A)
| Raise (e : exn).
Arguments Ret {A} a.
Arguments Raise {A} e.

Definition obind {A B} (c : outcome A) (k : A -> outcome B) : outcome B :=
  match c with
  | Ret a => k a
  | Raise e => Raise e
  end.

(** *** Strings *)

Fixpoint startswith (p s : string) : bool :=
  match p, s with
  | EmptyString, _ => true
  | String a p', String b s' => Ascii.eqb a b && startswith p' s'
  | String _ _, EmptyString => false
  end.

(** [needle in hay] on two strings. *)
Fixpoint contains (needle hay : string) : bool :=
  startswith needle hay ||
  match hay with
  | EmptyString => false
  | String _ hay' => contains needle hay'
  end.

Definition nl : string := String "010"%char EmptyString.

(** [sep.join(l)] *)
Fixpoint join (sep : string) (l : list string) : string :=
  match l with
  | [] => EmptyString
  | [x] => x
  | x :: l' => x ++ sep ++ join sep l'
  end.

(** [s.split("\n")] *)
Fixpoint split_nl (s : string) : list string :=
  match s with
  | EmptyString => [EmptyString]
  | String a s' =>
      if Ascii.eqb a "010"%char then EmptyString :: split_nl s'
      else
        match split_nl s' with
        | [] => [String a EmptyString]
        | line :: lines => String a line :: lines
        end
  end.

(** A byte that continues a character of several bytes (0x80 to 0xBF). *)
Definition is_continuation (a : ascii) : bool :=
  let n := N_of_ascii a in ((128 <=? n) && (n <=? 191))%N.

(** [s] goes on inside a character. *)
Definition continues (s : string) : bool :=
  match s with
  | String b _ => is_continuation b
  | EmptyString => false
  end.

(** The characters of [s], each with all its bytes: what iterating a
    [str] yields. *)
Fixpoint chars (s : string) : list string :=
  match s with
  | EmptyString => []
  | String a s' =>
      match chars s' with
      | c :: cs =>
          if continues s' then String a c :: cs
          else String a EmptyString :: c :: cs
      | [] => [String a EmptyString]
      end
  end.

Fixpoint memb (a : ascii) (cs : string) : bool :=
  match cs with
  | EmptyString => false
  | String c cs' => Ascii.eqb a c || memb a cs'
  end.

(** The rest of [s] after its beginning [p]. *)
Fixpoint after (p s : string) : option string :=
  match p, s with
  | EmptyString, _ => Some s
  | String a p', String b s' => if Ascii.eqb a b then after p' s' else None
  | String _ _, EmptyString => None
  end.

(** The characters [str.strip()] removes, each as its UTF-8 text: the
    white space of Unicode, U+0009 to U+000D, U+001C to U+0020, U+0085,
    U+00A0, U+1680, U+2000 to U+200A, U+2028, U+2029, U+202F, U+205F and
    U+3000.  No text of the table begins another one. *)
Definition spaces : list string :=
  map (fun bytes => string_of_list_ascii (map ascii_of_nat bytes))
    [[9]; [10]; [11]; [12]; [13]; [28]; [29]; [30]; [31]; [32];
     [194; 133]; [194; 160]; [225; 154; 128];
     [226; 128; 128]; [226; 128; 129]; [226; 128; 130]; [226; 128; 131];
     [226; 128; 132]; [226; 128; 133]; [226; 128; 134]; [226; 128; 135];
     [226; 128; 136]; [226; 128; 137]; [226; 128; 138];
     [226; 128; 168]; [226; 128; 169]; [226; 128; 175]; [226; 129; 159];
     [227; 128; 128]]%nat.

Fixpoint after_first (ps : list string) (s : string) : option string :=
  match ps with
  | [] => None
  | p :: ps' =>
      match after p s with
      | Some rest => Some rest
      | None => after_first ps' s
      end
  end.

(** [s] without the white-space character it begins with, if any. *)
Definition after_space (s : string) : option string := after_first spaces s.

(** Every removed character takes a byte at least, so the length of the
    text bounds the number of steps. *)
Fixpoint lstrip_from (fuel : nat) (s : string) : string :=
  match fuel with
  | O => s
  | S fuel' =>
      match after_space s with
      | Some rest => lstrip_from fuel' rest
      | None => s
      end
  end.

Definition lstrip (s : string) : string := lstrip_from (String.length s) s.

Fixpoint all_space_from (fuel : nat) (s : string) : bool :=
  match s with
  | EmptyString => true
  | String _ _ =>
      match fuel with
      | O => false
      | S fuel' =>
          match after_space s with
          | Some rest => all_space_from fuel' rest
          | None => false
          end
      end
  end.

(** [s] is made of white space only. *)
Definition all_space (s : string) : bool := all_space_from (String.length s) s.

(** What is left of [s] before its white-space end.  A byte inside a
    character of several bytes begins no white-space character, so the
    cut falls between two characters. *)
Fixpoint rstrip (s : string) : string :=
  if all_space s then EmptyString
  else
    match s with
    | EmptyString => EmptyString
    | String a s' => String a (rstrip s')
    end.

(** [str.strip()] *)
Definition strip (s : string) : string := rstrip (lstrip s).

Definition lower_char (a : ascii) : ascii :=
  let n := N_of_ascii a in
  if ((65 <=? n) && (n <=? 90))%N then ascii_of_N (n + 32) else a.

(** [str.lower()] as far as the loop needs it: the ASCII letters are
    lowered and the other characters stay.  The loop only compares the
    result with "quit", and no character outside ASCII has a lower case
    made of the letters of "quit", so the comparison is the one of
    Python for every text. *)
Fixpoint lower (s : string) : string :=
  match s with
  | EmptyString => EmptyString
  | String a s' => String (lower_char a) (lower s')
  end.

(** *** Integers as text *)

Definition digit (d : Z) : ascii := ascii_of_N (48 + Z.to_N d).

Fixpoint decimal_pos (fuel : nat) (n : Z) (acc : string) : string :=
  match fuel with
  | O => acc
  | S fuel' =>
      let acc' := String (digit (n mod 10)) acc in
      if n <? 10 then acc' else decimal_pos fuel' (n / 10) acc'
  end%Z.

(** [str(n)] of a non-negative integer: a number has no more decimal
    digits than binary ones, which bounds the recursion. *)
Definition decimal_nat (n : Z) : string :=
  decimal_pos (S (Z.to_nat (Z.log2_up (n + 1)))) n EmptyString.

Definition str_int (n : Z) : string :=
  (if n <? 0 then "-" ++ decimal_nat (- n) else decimal_nat n)%Z.

(** *** Decoded JSON *)

(** What [response.json()] yields.  Numbers are the integers: the
    payload fields the tools read ([size], the counters, [number]) are
    integers in GitHub's documents.  A dict is the list of its items,
    with distinct keys. *)
#[warnings="-register-all"] Inductive json : Type :=
| JNull
| JBool (b : bool)
| JNum (n : Z)
| JStr (s : string)
| JArr (items : list json)
| JObj (fields : list (string * json)).

Fixpoint lookup (k : string) (fields : list (string * json)) : option json :=
  match fields with
  | [] => None
  | (k', v) :: rest => if String.eqb k k' then Some v else lookup k rest
  end.

(** [v[k]] with a string key. *)
Definition subscript (v : json) (k : string) : outcome json :=
  match v with
  | JObj fields =>
      match lookup k fields with
      | Some x => Ret x
      | None => Raise (KeyError k)
      end
  | _ => Raise TypeError
  end.

(** [v.get(k, default)]: only a dict has the method. *)
Definition get (v : json) (k : string) (default : json) : outcome json :=
  match v with
  | JObj fields =>
      match lookup k fields with
      | Some x => Ret x
      | None => Ret default
      end
  | _ => Raise AttributeError
  end.

Definition is_str (s : string) (v : json) : bool :=
  match v with
  | JStr t => String.eqb s t
  | _ => false
  end.

(** [s in v] for a string [s]: a key of a dict, an element of a list,
    a substring of a string; the other values are not containers. *)
Definition str_in (s : string) (v : json) : outcome bool :=
  match v with
  | JObj fields =>
      Ret (match lookup s fields with Some _ => true | None => false end)
  | JArr items => Ret (existsb (is_str s) items)
  | JStr t => Ret (contains s t)
  | _ => Raise TypeError
  end.

(** Truth value of [v] in a condition. *)
Definition truthy (v : json) : bool :=
  match v with
  | JNull => false
  | JBool b => b
  | JNum n => negb (n =? 0)%Z
  | JStr s => negb (String.eqb s EmptyString)
  | JArr items => match items with [] => false | _ => true end
  | JObj fields => match fields with [] => false | _ => true end
  end.

(** The items a [for] loop sees: the elements of a list, the keys of a
    dict, the characters of a string. *)
Definition iter (v : json) : outcome (list json) :=
  match v with
  | JArr items => Ret items
  | JObj fields => Ret (map (fun kv => JStr (fst kv)) fields)
  | JStr s => Ret (map JStr (chars s))
  | _ => Raise TypeError
  end.

(** [sep.join(v)]: every item must be a string. *)
Fixpoint all_str (l : list json) : outcome (list string) :=
  match l with
  | [] => Ret []
  | JStr s :: l' => obind (all_str l') (fun r => Ret (s :: r))
  | _ :: _ => Raise TypeError
  end.

Definition join_json (sep : string) (v : json) : outcome string :=
  obind (iter v) (fun items =>
  obind (all_str items) (fun strs => Ret (join sep strs))).

(** *** [n / 1024] and its [.1f] format

    The quotient is the binary64 number nearest to the exact one (ties
    to even), and [.1f] prints the decimal with one digit nearest to
    that number (ties to even).  Both are computed exactly. *)

Definition round_half_even (num den : Z) : Z :=
  let q := (num / den)%Z in
  let r := (num mod den)%Z in
  if (2 * r >? den)%Z then (q + 1)%Z
  else if (2 * r =? den)%Z then (if Z.even q then q else q + 1)%Z
  else q.

(** The float [a / 1024] for [a >= 0], as the fraction [num / den]: [a]
    itself over 1024 when [a] has at most 53 bits, [a] rounded to 53
    bits otherwise; [None] when the quotient exceeds the binary64
    range. *)
Definition truediv_1024 (a : Z) : option (Z * Z) :=
  let bits := if (a =? 0)%Z then 0%Z else (Z.log2 a + 1)%Z in
  if (bits <=? 53)%Z then Some (a, 1024%Z)
  else
    let shift := (bits - 53)%Z in
    let m := round_half_even a (2 ^ shift) in
    let num := (m * 2 ^ shift)%Z in
    if (2 ^ 1034 <=? num)%Z then None else Some (num, 1024%Z).

Definition format_1f (negative : bool) (num den : Z) : string :=
  let tenths := round_half_even (num * 10) den in
  (if negative then "-" else EmptyString) ++
  decimal_nat (tenths / 10) ++ "." ++ decimal_nat (tenths mod 10).

(** A number as an operand of [/]: [bool] is a subclass of [int]. *)
Definition as_int (v : json) : outcome Z :=
  match v with
  | JNum n => Ret n
  | JBool b => Ret (if b then 1%Z else 0%Z)
  | _ => Raise TypeError
  end.

(** [size_mb = v / 1024], kept as the text [f"{size_mb:.1f}"]. *)
Definition size_mb_1f (v : json) : outcome string :=
  obind (as_int v) (fun n =>
  match truediv_1024 (Z.abs n) with
  | Some (num, den) => Ret (format_1f (n <? 0)%Z num den)
  | None => Raise OverflowError
  end).

End Py.

(** ** The regular expression of the tools *)

Module Re.

Inductive cls : Type :=
| OneOf (cs : string)       (* [cs]  *)
| NoneOf (cs : string).     (* [^cs] *)

(** The fragment of [re] syntax the pattern uses.  Repetition is on a
    character class; groups are numbered in the order they close, and
    the pattern nests none. *)
Inductive re : Type :=
| Lit (s : string)
| Chr (c : cls)
| Plus (c : cls)            (* c+    greedy *)
| PlusLazy (c : cls)        (* c+?   lazy   *)
| Opt (r : re)              (* (?:r)?       *)
| Group (r : re)            (* (r)          *)
| Cat (r1 r2 : re)
| Dollar.                   (* $            *)

Definition in_cls (c : cls) (a : ascii) : bool :=
  match c with
  | OneOf cs => Py.memb a cs
  | NoneOf cs => negb (Py.memb a cs)
  end.

Fixpoint drop_prefix (p s : string) : option string :=
  match p, s with
  | EmptyString, _ => Some s
  | String a p', String b s' =>
      if Ascii.eqb a b then drop_prefix p' s' else None
  | String _ _, EmptyString => None
  end.

(** Without MULTILINE, [$] holds at the end of the text and before a
    newline that ends it. *)
Definition at_end (s : string) : bool :=
  match s with
  | EmptyString => true
  | String a EmptyString => Ascii.eqb a "010"%char
  | _ => false
  end.

Section Backtracking.
Context {A : Type}.

(** One or more characters of the class, the longest run first. *)
Fixpoint plus_greedy (c : cls) (s : string) (k : string -> option A)
  : option A :=
  match s with
  | EmptyString => None
  | String a s' =>
      if in_cls c a then
        match plus_greedy c s' k with
        | Some x => Some x
        | None => k s'
        end
      else None
  end.

(** One or more characters of the class, the shortest run first. *)
Fixpoint plus_lazy (c : cls) (s : string) (k : string -> option A)
  : option A :=
  match s with
  | EmptyString => None
  | String a s' =>
      if in_cls c a then
        match k s' with
        | Some x => Some x
        | None => plus_lazy c s' k
        end
      else None
  end.
End Backtracking.

(** The text between two positions, given the suffixes that start there. *)
Definition consumed (s s' : string) : string :=
  substring 0 (String.length s - String.length s') s.

(** Backtracking match at the start of [s]: [k] is the rest of the
    pattern; the first success in the order of the alternatives wins. *)
Fixpoint run (r : re) (s : string) (caps : list string)
    (k : string -> list string -> option (list string))
    : option (list string) :=
  match r with
  | Lit l =>
      match drop_prefix l s with
      | Some s' => k s' caps
      | None => None
      end
  | Chr c =>
      match s with
      | String a s' => if in_cls c a then k s' caps else None
      | EmptyString => None
      end
  | Plus c => plus_greedy c s (fun s' => k s' caps)
  | PlusLazy c => plus_lazy c s (fun s' => k s' caps)
  | Opt r1 =>
      match run r1 s caps k with
      | Some x => Some x
      | None => k s caps
      end
  | Group r1 => run r1 s caps (fun s' caps' => k s' (caps' ++ [consumed s s'])%list)
  | Cat r1 r2 => run r1 s caps (fun s' caps' => run r2 s' caps' k)
  | Dollar => if at_end s then k s caps else None
  end.

(** [re.search(r, s).groups()]: the leftmost start that matches. *)
Fixpoint search (r : re) (s : string) : option (list string) :=
  match run r s [] (fun _ caps => Some caps) with
  | Some caps => Some caps
  | None =>
      match s with
      | EmptyString => None
      | String _ s' => search r s'
      end
  end.

(** r'github\.com[:/]([^/]+)/([^/]+?)(?:\.git)?$' *)
Definition github_url_re : re :=
  Cat (Lit "github.com")
 (Cat (Chr (OneOf ":/"))
 (Cat (Group (Plus (NoneOf "/")))
 (Cat (Lit "/")
 (Cat (Group (PlusLazy (NoneOf "/")))
 (Cat (Opt (Lit ".git"))
      Dollar))))).

(** [match = re.search(...)] followed by [owner, repo = match.groups()]. *)
Definition parse_github_url (github_url : string) : option (string * string) :=
  match search github_url_re github_url with
  | Some [owner; repo] => Some (owner, repo)
  | _ => None
  end.

(** *** What a match is

    The words the pattern denotes, apart from the order in which the
    matcher tries them: [matches r s s' caps] when [r] matches a prefix
    of [s], [s'] is what follows it, and [caps] are the texts of the
    groups. *)

Fixpoint all_in (c : cls) (w : string) : bool :=
  match w with
  | EmptyString => true
  | String a w' => in_cls c a && all_in c w'
  end.

Inductive matches : re -> string -> string -> list string -> Prop :=
| MLit (l s : string) : matches (Lit l) (l ++ s) s []
| MChr (c : cls) (a : ascii) (s : string) :
    in_cls c a = true -> matches (Chr c) (String a s) s []
| MPlus (c : cls) (w s : string) :
    w <> EmptyString -> all_in c w = true -> matches (Plus c) (w ++ s) s []
| MPlusLazy (c : cls) (w s : string) :
    w <> EmptyString -> all_in c w = true -> matches (PlusLazy c) (w ++ s) s []
| MOptSome (r : re) (s s' : string) (caps : list string) :
    matches r s s' caps -> matches (Opt r) s s' caps
| MOptNone (r : re) (s : string) : matches (Opt r) s s []
| MGroup (r : re) (s s' : string) (caps : list string) :
    matches r s s' caps -> matches (Group r) s s' (caps ++ [consumed s s'])%list
| MCat (r1 r2 : re) (s s1 s2 : string) (caps1 caps2 : list string) :
    matches r1 s s1 caps1 -> matches r2 s1 s2 caps2 ->
    matches (Cat r1 r2) s s2 (caps1 ++ caps2)%list
| MDollar (s : string) : at_end s = true -> matches Dollar s s [].

(** A URL the pattern accepts, piece by piece: anything, then
    [github.com], a colon or a slash, an owner and a repository name
    without slash, an optional [.git], and the end of the text or a last
    newline. *)
Definition github_url_shape (github_url owner repo : string) : Prop :=
  exists (before : string) (sep : ascii) (git tail : string),
    github_url = before ++ "github.com" ++ String sep (owner ++ "/" ++ repo ++ git ++ tail)
    /\ in_cls (OneOf ":/") sep = true
    /\ owner <> EmptyString /\ all_in (NoneOf "/") owner = true
    /\ repo <> EmptyString /\ all_in (NoneOf "/") repo = true
    /\ (git = EmptyString \/ git = ".git")
    /\ at_end tail = true.

(** *** Reading a given URL

    Helpers to say which reading the matcher settles on. *)

(** A character of [p] differs from the one of [s] at its place. *)
Fixpoint mismatch (p s : string) : bool :=
  match p, s with
  | String a p', String b s' => negb (Ascii.eqb a b) || mismatch p' s'
  | _, _ => false
  end.

(** No position inside [before] starts an occurrence of [github.com]
    when [github.com] follows [before]. *)
Fixpoint no_earlier_start (before : string) : bool :=
  match before with
  | EmptyString => true
  | String _ before' =>
      mismatch "github.com" (before ++ "github.com") && no_earlier_start before'
  end.

(** The rest of the pattern after the name, [(?:\.git)?$], accepts [s]. *)
Definition stops (s : string) : bool :=
  match drop_prefix ".git" s with
  | Some s' => at_end s' || at_end s
  | None => at_end s
  end.

(** A proper, non-empty prefix of [name] is followed by a text that the
    rest of the pattern accepts: the lazy group ends there. *)
Fixpoint early_stop (name : string) : bool :=
  match name with
  | EmptyString => false
  | String _ rest =>
      match rest with
      | EmptyString => false
      | String _ _ => stops rest || early_stop rest
      end
  end.

End Re.

(** ** The HTTP client and the tool monad *)

Module Http.
Import Py.

Record Request : Type := mkRequest {
  url : string;
  headers : list (string * string)
}.

(** [body_json] is what [response.json()] returns, [None] when the body
    is not a JSON document and the call raises. *)
Record Response : Type := mkResponse {
  status_code : Z;
  text : string;
  body_json : option json
}.

(** [client.get]: a response, or the exception of a failed transport. *)
Definition Client : Type := Request -> outcome Response.

(** A tool reads the client and appends to the log of issued requests. *)
Definition Tool (A : Type) : Type :=
  Client -> list Request -> outcome A * list Request.

Definition ret {A} (a : A) : Tool A := fun _ log => (Ret a, log).

Definition bind {A B} (c : Tool A) (k : A -> Tool B) : Tool B :=
  fun client log =>
    match c client log with
    | (Ret a, log') => k a client log'
    | (Raise e, log') => (Raise e, log')
    end.

Definition lift {A} (c : outcome A) : Tool A := fun _ log => (c, log).

Definition client_get (u : string) (h : list (string * string)) : Tool Response :=
  fun client log =>
    let request := mkRequest u h in
    (client request, (log ++ [request])%list).

Definition response_json (r : Response) : outcome json :=
  match body_json r with
  | Some j => Ret j
  | None => Raise JSONDecodeError
  end.

(** One invocation of a tool: its outcome and the requests it issued. *)
Definition invoke {A} (t : Tool A) (client : Client) : outcome A * list Request :=
  t client [].

Definition result {A} (t : Tool A) (client : Client) : outcome A :=
  fst (invoke t client).

Definition requests {A} (t : Tool A) (client : Client) : list Request :=
  snd (invoke t client).

(** A tool that issues no request: it leaves the log as it found it. *)
Definition silent {A} (t : Tool A) : Prop :=
  forall client log, snd (t client log) = log.

End Http.

Declare Scope tool_scope.
Delimit Scope tool_scope with tool.
Notation "x <- c ;; k" := (Http.bind c (fun x => k))
  (at level 61, c at next level, right associativity) : tool_scope.
Notation "x <~ c ;; k" := (Http.bind (Http.lift c) (fun x => k))
  (at level 61, c at next level, right associativity) : tool_scope.

(** ** What the Python runtime supplies *)

(** Two library functions are taken as given: the text Python prints for
    a list or a dict inside an f-string, and
    [base64.b64decode(v).decode('utf-8')]. *)
Record Runtime : Type := mkRuntime {
  repr_container : Py.json -> string;
  b64decode_utf8 : Py.json -> Py.outcome string
}.

(** ** The tools of [app.py] *)

Module App.
Import Py Http.
Local Open Scope tool_scope.

Record GitHubDeps : Type := mkDeps {
  github_token : option string
}.

Section Tools.
Variable rt : Runtime.

(** [f"{v}"] *)
Definition fmt (v : json) : string :=
  match v with
  | JNull => "None"
  | JBool true => "True"
  | JBool false => "False"
  | JNum n => str_int n
  | JStr s => s
  | JArr _ | JObj _ => repr_container rt v
  end.

(** [{'Authorization': f'token {token}'} if token else {}] *)
Definition auth_headers (deps : GitHubDeps) : list (string * string) :=
  match github_token deps with
  | Some token =>
      if String.eqb token EmptyString then [] else [("Authorization", "token " ++ token)]
  | None => []
  end.

Definition get_repo_info (deps : GitHubDeps) (github_url : string) : Tool string :=
  match Re.parse_github_url github_url with
  | None => ret "Invalid GitHub URL format."
  | Some (owner, repo) =>
      let headers := auth_headers deps in
      response <- client_get ("https://api.github.com/repos/" ++ owner ++ "/" ++ repo)
                    headers ;;
      if negb (status_code response =? 200)%Z then
        ret ("Failed to get repository info: " ++ text response)
      else
        data <~ response_json response ;;
        size <~ subscript data "size" ;;
        size_mb <~ size_mb_1f size ;;
        owner_obj <~ subscript data "owner" ;;
        owner_name <~ subscript owner_obj "login" ;;
        forks_count <~ subscript data "forks_count" ;;
        open_issues_count <~ subscript data "open_issues_count" ;;
        let pull_requests_url := "https://github.com/" ++ owner ++ "/" ++ repo ++ "/pulls" in
        default_branch <~ subscript data "default_branch" ;;
        visibility <~ subscript data "visibility" ;;
        has_topics <~ str_in "topics" data ;;
        topics <~ (if has_topics : bool
                   then obind (get data "topics" (JArr [])) (join_json ", ")
                   else Ret "No topics") ;;
        license_info <~ get data "license" JNull ;;
        license_info <~ (if truthy license_info
                         then get license_info "name" (JStr "No license available")
                         else Ret (JStr "No license available")) ;;
        full_name <~ subscript data "full_name" ;;
        description <~ subscript data "description" ;;
        stargazers_count <~ subscript data "stargazers_count" ;;
        language <~ subscript data "language" ;;
        created_at <~ subscript data "created_at" ;;
        updated_at <~ subscript data "updated_at" ;;
        ret ("Repository: " ++ fmt full_name ++ nl ++
             "Owner: " ++ fmt owner_name ++ nl ++
             "Description: " ++ fmt description ++ nl ++
             "Size: " ++ size_mb ++ "MB" ++ nl ++
             "Stars: " ++ fmt stargazers_count ++ nl ++
             "Forks: " ++ fmt forks_count ++ nl ++
             "Open Issues: " ++ fmt open_issues_count ++ nl ++
             "Pull Requests: " ++ pull_requests_url ++ nl ++
             "Language: " ++ fmt language ++ nl ++
             "Created: " ++ fmt created_at ++ nl ++
             "Last Updated: " ++ fmt updated_at ++ nl ++
             "Default Branch: " ++ fmt default_branch ++ nl ++
             "Visibility: " ++ fmt visibility ++ nl ++
             "Topics: " ++ topics ++ nl ++
             "License: " ++ fmt license_info)
  end.

(** The paths a listing leaves out contain one of these. *)
Definition excluded_parts : list string := [".git/"; "node_modules/"; "__pycache__/"].

(** [any(excluded in path for excluded in parts)], left to right. *)
Fixpoint any_in (parts : list string) (path : json) : outcome bool :=
  match parts with
  | [] => Ret false
  | excluded :: parts' =>
      obind (str_in excluded path) (fun b =>
      if b : bool then Ret true else any_in parts' path)
  end.

(** The body of the loop over [tree]: the entries appended so far are
    [structure]. *)
Fixpoint build_structure (dir_icon file_icon : string) (tree : list json)
    (structure : list string) : outcome (list string) :=
  match tree with
  | [] => Ret structure
  | item :: tree' =>
      obind (subscript item "path") (fun path =>
      obind (any_in excluded_parts path) (fun skip =>
      if skip : bool then build_structure dir_icon file_icon tree' structure
      else
        obind (subscript item "type") (fun type =>
        obind (subscript item "path") (fun path =>
        let entry := (if is_str "tree" type then dir_icon else file_icon) ++ fmt path in
        build_structure dir_icon file_icon tree' (structure ++ [entry])%list))))
  end.

(** The function is written three times, in [app.py], [github_agent.py]
    and [cli.py]; the copies differ in the two icon literals only. *)
Definition get_repo_structure_with (dir_icon file_icon : string)
    (deps : GitHubDeps) (github_url : string) : Tool string :=
  match Re.parse_github_url github_url with
  | None => ret "Invalid GitHub URL format"
  | Some (owner, repo) =>
      let headers := auth_headers deps in
      let listing (response : Response) : Tool string :=
        data <~ response_json response ;;
        tree <~ subscript data "tree" ;;
        items <~ iter tree ;;
        structure <~ build_structure dir_icon file_icon items [] ;;
        ret (join nl structure) in
      response <- client_get ("https://api.github.com/repos/" ++ owner ++ "/" ++ repo
                              ++ "/git/trees/main?recursive=1") headers ;;
      if negb (status_code response =? 200)%Z then
        (* Try with master branch if main fails *)
        response <- client_get ("https://api.github.com/repos/" ++ owner ++ "/" ++ repo
                                ++ "/git/trees/master?recursive=1") headers ;;
        if negb (status_code response =? 200)%Z then
          ret ("Failed to get repository structure: " ++ text response)
        else listing response
      else listing response
  end.

(** U+1F4C1 and U+1F4C4, each followed by a space. *)
Definition dir_icon : string :=
  string_of_list_ascii (map ascii_of_nat [240; 159; 147; 129; 32]).
Definition file_icon : string :=
  string_of_list_ascii (map ascii_of_nat [240; 159; 147; 132; 32]).

Definition get_repo_structure : GitHubDeps -> string -> Tool string :=
  get_repo_structure_with dir_icon file_icon.

Definition get_file_content (deps : GitHubDeps) (github_url file_path : string)
    : Tool string :=
  match Re.parse_github_url github_url with
  | None => ret "Invalid GitHub URL format"
  | Some (owner, repo) =>
      let headers := auth_headers deps in
      response <- client_get ("https://api.github.com/repos/" ++ owner ++ "/" ++ repo
                              ++ "/contents/" ++ file_path) headers ;;
      if negb (status_code response =? 200)%Z then
        ret ("Failed to get file content: " ++ text response)
      else
        data <~ response_json response ;;
        type <~ get data "type" JNull ;;
        if negb (is_str "file" type) then ret "The path does not point to a file"
        else
          encoded <~ subscript data "content" ;;
          content <~ b64decode_utf8 rt encoded ;;
          ret ("File: " ++ file_path ++ nl ++ nl ++ content)
  end.

(** One block of an issue or of a pull request. *)
Definition summary_block (item : json) : outcome string :=
  obind (subscript item "number") (fun number =>
  obind (subscript item "title") (fun title =>
  obind (subscript item "state") (fun state =>
  obind (subscript item "created_at") (fun created_at =>
  obind (subscript item "html_url") (fun html_url =>
  Ret ("#" ++ fmt number ++ " - " ++ fmt title ++ nl ++
       "State: " ++ fmt state ++ nl ++
       "Created: " ++ fmt created_at ++ nl ++
       "URL: " ++ fmt html_url ++ nl)))))).

(** The loop of [get_issues]: an item with a [pull_request] key is
    skipped. *)
Fixpoint collect_issues (issues : list json) (result : list string)
    : outcome (list string) :=
  match issues with
  | [] => Ret result
  | issue :: issues' =>
      obind (str_in "pull_request" issue) (fun is_pr =>
      if is_pr : bool then collect_issues issues' result
      else
        obind (summary_block issue) (fun block =>
        collect_issues issues' (result ++ [block])%list))
  end.

Definition get_issues (deps : GitHubDeps) (github_url state : string) : Tool string :=
  match Re.parse_github_url github_url with
  | None => ret "Invalid GitHub URL format"
  | Some (owner, repo) =>
      let headers := auth_headers deps in
      response <- client_get ("https://api.github.com/repos/" ++ owner ++ "/" ++ repo
                              ++ "/issues?state=" ++ state ++ "&per_page=10") headers ;;
      if negb (status_code response =? 200)%Z then
        ret ("Failed to get issues: " ++ text response)
      else
        issues <~ response_json response ;;
        if negb (truthy issues) then ret ("No " ++ state ++ " issues found.")
        else
          items <~ iter issues ;;
          result <~ collect_issues items [] ;;
          ret (match result with
               | [] => "No " ++ state ++ " issues found (excluding PRs)."
               | _ => join nl result
               end)
  end.

(** The loop of [get_pull_requests]. *)
Fixpoint collect_prs (prs : list json) (result : list string)
    : outcome (list string) :=
  match prs with
  | [] => Ret result
  | pr :: prs' =>
      obind (summary_block pr) (fun block =>
      collect_prs prs' (result ++ [block])%list)
  end.

Definition get_pull_requests (deps : GitHubDeps) (github_url state : string)
    : Tool string :=
  match Re.parse_github_url github_url with
  | None => ret "Invalid GitHub URL format"
  | Some (owner, repo) =>
      let headers := auth_headers deps in
      response <- client_get ("https://api.github.com/repos/" ++ owner ++ "/" ++ repo
                              ++ "/pulls?state=" ++ state ++ "&per_page=10") headers ;;
      if negb (status_code response =? 200)%Z then
        ret ("Failed to get pull requests: " ++ text response)
      else
        prs <~ response_json response ;;
        if negb (truthy prs) then ret ("No " ++ state ++ " pull requests found.")
        else
          items <~ iter prs ;;
          result <~ collect_prs items [] ;;
          ret (join nl result)
  end.

(** *** The documents of the GitHub API, as the tools read them *)

(** [path] contains one of the excluded parts. *)
Definition excluded (path : string) : bool :=
  existsb (fun part => contains part path) excluded_parts.

(** An item of a tree document: an object with a string [path] and a
    [type]. *)
Definition tree_item (item : json) (entry : string * json) : Prop :=
  subscript item "path" = Ret (JStr (fst entry))
  /\ subscript item "type" = Ret (snd entry).

(** The line of a listing for an item. *)
Definition listed (dir_icon file_icon : string) (entry : string * json) : string :=
  (if is_str "tree" (snd entry) then dir_icon else file_icon) ++ fst entry.

Definition kept (entry : string * json) : bool := negb (excluded (fst entry)).

(** [response] is the 200 answer [get_repo_structure] reads its tree
    from: the answer for [main], or the answer for [master] after an
    answer for [main] that is not a 200. *)
Definition tree_answer (client : Client) (deps : GitHubDeps) (owner repo : string)
    (response : Response) : Prop :=
  let main := mkRequest ("https://api.github.com/repos/" ++ owner ++ "/" ++ repo
                         ++ "/git/trees/main?recursive=1") (auth_headers deps) in
  let master := mkRequest ("https://api.github.com/repos/" ++ owner ++ "/" ++ repo
                           ++ "/git/trees/master?recursive=1") (auth_headers deps) in
  status_code response = 200%Z
  /\ (client main = Ret response
      \/ exists first, client main = Ret first /\ status_code first <> 200%Z
                       /\ client master = Ret response).

(** [k in item] for an item that is an object. *)
Definition has_key (k : string) (item : json) : bool :=
  match item with
  | JObj fields => match lookup k fields with Some _ => true | None => false end
  | _ => false
  end.

Definition is_object (item : json) : Prop := exists fields, item = JObj fields.

Definition present (k : string) (fields : list (string * json)) : Prop :=
  exists v, lookup k fields = Some v.

(** A repository document: the fields [get_repo_info] reads, an integer
    [size], an [owner] with a [login], [topics] absent or a list of
    strings, [license] absent, null or an object. *)
Definition repo_document (data : json) : Prop :=
  exists fields,
    data = JObj fields
    /\ (exists n, lookup "size" fields = Some (JNum n) /\ (Z.abs n < 2 ^ 1033)%Z)
    /\ (exists o, lookup "owner" fields = Some (JObj o) /\ present "login" o)
    /\ Forall (fun k => present k fields)
         ["forks_count"; "open_issues_count"; "default_branch"; "visibility";
          "full_name"; "description"; "stargazers_count"; "language";
          "created_at"; "updated_at"]
    /\ (lookup "topics" fields = None
        \/ exists names, lookup "topics" fields = Some (JArr (map JStr names)))
    /\ (lookup "license" fields = None
        \/ lookup "license" fields = Some JNull
        \/ exists l, lookup "license" fields = Some (JObj l)).

(** An item of an issues or pulls document. *)
Definition issue_document (item : json) : Prop :=
  exists fields,
    item = JObj fields
    /\ Forall (fun k => present k fields)
         ["number"; "title"; "state"; "created_at"; "html_url"].

End Tools.
End App.

(** ** The copies in [github_agent.py] *)

Module GithubAgent.

Definition get_repo_info := App.get_repo_info.

Definition get_repo_structure (rt : Runtime) :=
  App.get_repo_structure_with rt App.dir_icon App.file_icon.

End GithubAgent.

(** ** Messages and the agent *)

Module Agent.
Import Py.

(** A message part: its [part_kind], its text, and the [tool_call]
    attribute (name and arguments) when the part has one. *)
Record Part : Type := mkPart {
  part_kind : string;
  content : string;
  tool_call : option (string * string)
}.

Definition UserPromptPart (c : string) : Part := mkPart "user-prompt" c None.
Definition TextPart (c : string) : Part := mkPart "text" c None.

Inductive ModelMessage : Type :=
| ModelRequest (parts : list Part)
| ModelResponse (parts : list Part).

Definition parts (m : ModelMessage) : list Part :=
  match m with
  | ModelRequest ps => ps
  | ModelResponse ps => ps
  end.

(** What [run] returns: [new_messages()] and [data]. *)
Record RunResult : Type := mkRunResult {
  new_messages : list ModelMessage;
  data : string
}.

(** [agent.run(user_prompt, deps=deps, message_history=history)]: the
    hosted model decides the result.  [run] works on a copy of the
    history and leaves the caller's list as it is. *)
Definition Agent : Type :=
  string -> App.GitHubDeps -> list ModelMessage -> outcome RunResult.

End Agent.

(** ** The chat endpoint of [app.py] *)

Module Api.
Import Py Agent.

(** A history entry, [Dict[str, str]]. *)
Definition Entry : Type := list (string * string).

Fixpoint entry_get (k : string) (e : Entry) : outcome string :=
  match e with
  | [] => Raise (KeyError k)
  | (k', v) :: e' => if String.eqb k k' then Ret v else entry_get k e'
  end.

(** [history] is [None] when the body gives [null] for it. *)
Record ChatRequest : Type := mkChatRequest {
  message : string;
  github_token : option string;
  groq_token : string;
  history : option (list Entry)
}.

Record ChatResponse : Type := mkChatResponse {
  response : string;
  tool_calls : list (string * string)
}.

(** How a request ends: the response model, an [HTTPException], the 422
    of a body that is not a [ChatRequest], or an exception nobody
    catches, which the server turns into a 500. *)
Inductive HttpResult : Type :=
| Success (r : ChatResponse)
| HTTPException (status_code : Z) (detail : string)
| RequestValidationError
| Unhandled (e : exn).

Definition http_status (r : HttpResult) : Z :=
  match r with
  | Success _ => 200
  | HTTPException code _ => code
  | RequestValidationError => 422
  | Unhandled _ => 500
  end.

(** *** Validation of the body against [ChatRequest] *)

Definition required_str (k : string) (fields : list (string * json)) : option string :=
  match lookup k fields with
  | Some (JStr s) => Some s
  | _ => None
  end.

(** [Optional[str] = None] *)
Definition optional_str (k : string) (fields : list (string * json))
    : option (option string) :=
  match lookup k fields with
  | None | Some JNull => Some None
  | Some (JStr s) => Some (Some s)
  | Some _ => None
  end.

Fixpoint entry_of (fields : list (string * json)) : option Entry :=
  match fields with
  | [] => Some []
  | (k, JStr v) :: fields' =>
      match entry_of fields' with
      | Some e => Some ((k, v) :: e)
      | None => None
      end
  | _ :: _ => None
  end.

Fixpoint entries_of (items : list json) : option (list Entry) :=
  match items with
  | [] => Some []
  | JObj fields :: items' =>
      match entry_of fields, entries_of items' with
      | Some e, Some es => Some (e :: es)
      | _, _ => None
      end
  | _ :: _ => None
  end.

(** [Optional[List[Dict[str, str]]] = []] *)
Definition optional_history (fields : list (string * json))
    : option (option (list Entry)) :=
  match lookup "history" fields with
  | None => Some (Some [])
  | Some JNull => Some None
  | Some (JArr items) =>
      match entries_of items with
      | Some es => Some (Some es)
      | None => None
      end
  | Some _ => None
  end.

Definition validate (body : json) : option ChatRequest :=
  match body with
  | JObj fields =>
      match required_str "message" fields, optional_str "github_token" fields,
            required_str "groq_token" fields, optional_history fields with
      | Some m, Some gh, Some groq, Some h => Some (mkChatRequest m gh groq h)
      | _, _, _, _ => None
      end
  | _ => None
  end.

(** *** The handler *)

(** The loop that converts [request.history]; [message_history] holds
    what was appended so far. *)
Fixpoint convert_history (history : list Entry) (message_history : list ModelMessage)
    : outcome (list ModelMessage) :=
  match history with
  | [] => Ret message_history
  | msg :: history' =>
      obind (entry_get "role" msg) (fun role =>
      if String.eqb role "user" then
        obind (entry_get "content" msg) (fun c =>
        convert_history history'
          (message_history ++ [ModelRequest [UserPromptPart c]])%list)
      else if String.eqb role "assistant" then
        obind (entry_get "content" msg) (fun c =>
        convert_history history'
          (message_history ++ [ModelResponse [TextPart c]])%list)
      else convert_history history' message_history)
  end.

(** [for msg in request.history] raises on [None]. *)
Definition message_history_of (h : option (list Entry)) : outcome (list ModelMessage) :=
  match h with
  | Some entries => convert_history entries []
  | None => Raise TypeError
  end.

Definition extract_tool_calls (msgs : list ModelMessage) : list (string * string) :=
  flat_map (fun msg =>
    flat_map (fun part =>
      match tool_call part with
      | Some call => [call]
      | None => []
      end) (parts msg)) msgs.

(** The order the specification asks for, entry by entry: the message a
    role-tagged entry stands for, and the messages of a history in the
    order of its entries.  An entry with another role stands for none. *)
Definition role_tagged (msg : Entry) : list ModelMessage :=
  match entry_get "role" msg, entry_get "content" msg with
  | Ret role, Ret c =>
      if String.eqb role "user" then [ModelRequest [UserPromptPart c]]
      else if String.eqb role "assistant" then [ModelResponse [TextPart c]]
      else []
  | _, _ => []
  end.

Definition in_order (history : list Entry) : list ModelMessage :=
  flat_map role_tagged history.

Section Handler.
(** [get_github_agent(api_key)] and [str(e)]. *)
Variable get_github_agent : string -> Agent.
Variable str_exn : exn -> string.

Definition chat (request : ChatRequest) : HttpResult :=
  if String.eqb (groq_token request) EmptyString then
    HTTPException 400 "Groq API token is required"
  else
    let github_agent := get_github_agent (groq_token request) in
    match message_history_of (history request) with
    | Raise e => Unhandled e
    | Ret message_history =>
        let deps := App.mkDeps (github_token request) in
        match github_agent (message request) deps message_history with
        | Ret result =>
            Success (mkChatResponse (data result)
                       (extract_tool_calls (new_messages result)))
        | Raise e => HTTPException 500 (str_exn e)
        end
    end.

(** POST /api/chat: the framework builds the [ChatRequest] from the body
    and calls the handler, or answers 422. *)
Definition post_api_chat (body : json) : HttpResult :=
  match validate body with
  | Some request => chat request
  | None => RequestValidationError
  end.

End Handler.
End Api.

(** ** The chat loop of [cli.py] *)

Module Cli.
Import Py Agent.

(** The icon literals of this copy: U+011F U+0178 U+201C (U+201E) and a
    space. *)
Definition dir_icon : string :=
  string_of_list_ascii (map ascii_of_nat [196; 159; 197; 184; 226; 128; 156; 32]).
Definition file_icon : string :=
  string_of_list_ascii
    (map ascii_of_nat [196; 159; 197; 184; 226; 128; 156; 226; 128; 158; 32]).

Definition get_repo_info := App.get_repo_info.

Definition get_repo_structure (rt : Runtime) :=
  App.get_repo_structure_with rt dir_icon file_icon.

(** The object and what the terminal has seen: [messages] is
    [self.messages], [printed] the values given to [print], [calls] the
    arguments of every [github_agent.run]. *)
Record CLI : Type := mkCLI {
  messages : list ModelMessage;
  printed : list string;
  calls : list (string * list ModelMessage)
}.

(** How [chat] leaves its loop: [break], or an exception ([EOFError]
    when the input has no more lines). *)
Inductive Exit : Type :=
| Break
| Raised (e : exn).

Definition is_quit (user_input : string) : bool :=
  String.eqb (lower user_input) "quit".

(** [msg] stays out of the stored intermediate messages when one of its
    parts is a user prompt or a text. *)
Definition is_prompt_or_text (msg : ModelMessage) : bool :=
  existsb (fun part => String.eqb (part_kind part) "user-prompt"
                       || String.eqb (part_kind part) "text") (parts msg).

Section Loop.
Variable github_agent : Agent.
Variable deps : App.GitHubDeps.

(** [while True], over the lines the input still holds.  Returns the
    object, the lines not read and the way out. *)
Fixpoint chat_loop (stdin : list string) (self : CLI) : CLI * list string * Exit :=
  match stdin with
  | [] => (self, [], Raised EOFError)
  | line :: stdin' =>
      let user_input := strip line in
      if is_quit user_input then (self, stdin', Break)
      else
        let self := mkCLI (messages self) (printed self)
                      (calls self ++ [(user_input, messages self)])%list in
        match github_agent user_input deps (messages self) with
        | Raise e => (self, stdin', Raised e)
        | Ret result =>
            let messages1 :=
              (messages self ++ [ModelRequest [UserPromptPart user_input]])%list in
            let filtered_messages :=
              filter (fun msg => negb (is_prompt_or_text msg)) (new_messages result) in
            let messages2 := (messages1 ++ filtered_messages)%list in
            let printed1 := (printed self ++ [data result])%list in
            let messages3 :=
              (messages2 ++ [ModelResponse [TextPart (data result)]])%list in
            chat_loop stdin' (mkCLI messages3 printed1 (calls self))
        end
  end.

Definition chat (stdin : list string) : CLI * list string * Exit :=
  chat_loop stdin
    (mkCLI [] ["GitHub Agent CLI (type 'quit' to exit)"; "Enter your message:"] []).

(** What the turn of a call adds to [self.messages], by the answer of
    the agent to the prompt and the history of the call: the user
    message, the intermediate messages kept and the final response; or
    nothing, when the agent raises. *)
Definition stored_by (call : string * list ModelMessage) : list ModelMessage :=
  match github_agent (fst call) deps (snd call) with
  | Ret result =>
      ([ModelRequest [UserPromptPart (fst call)]]
       ++ filter (fun msg => negb (is_prompt_or_text msg)) (new_messages result)
       ++ [ModelResponse [TextPart (data result)]])%list
  | Raise _ => []
  end.

End Loop.
End Cli.

(** ** Sample data *)

Module Sample.
Import Py Http.

Definition rt : Runtime :=
  mkRuntime (fun _ => "[...]") (fun _ => Raise DecodeError).

(** A runtime whose decoder gives back a fixed text. *)
Definition rt_text : Runtime :=
  mkRuntime (fun _ => "[...]") (fun _ => Ret "print(1)").

Definition deps : App.GitHubDeps := App.mkDeps (Some "t0ken").

Definition github_url : string := "https://github.com/Zoyaaaaaaa/DealDetective".

Definition dq : string := String (ascii_of_nat 34) EmptyString.

(** The text of a document whose strings need no escape. *)
Fixpoint dumps (j : json) : string :=
  match j with
  | JNull => "null"
  | JBool true => "true"
  | JBool false => "false"
  | JNum n => str_int n
  | JStr s => dq ++ s ++ dq
  | JArr items => "[" ++ join ", " (map dumps items) ++ "]"
  | JObj fields =>
      "{" ++ join ", " (map (fun '(k, v) => dq ++ k ++ dq ++ ": " ++ dumps v) fields)
      ++ "}"
  end.

Definition respond (status : Z) (document : json) : Response :=
  mkResponse status (dumps document) (Some document).

Definition not_found : Response :=
  respond 404 (JObj [("message", JStr "Not Found"); ("status", JStr "404")]).

(** No connection at all. *)
Definition offline : Client := fun _ => Raise TransportError.

(** Every request is answered with 404. *)
Definition all_404 : Client := fun _ => Ret not_found.

Definition readme_item : json :=
  JObj [("path", JStr "README.md"); ("mode", JStr "100644"); ("type", JStr "blob")].

Definition src_item : json :=
  JObj [("path", JStr "src"); ("mode", JStr "040000"); ("type", JStr "tree")].

Definition cache_item : json :=
  JObj [("path", JStr "src/__pycache__/app.pyc"); ("mode", JStr "100644");
        ("type", JStr "blob")].

Definition tree_document (items : list json) : json :=
  JObj [("sha", JStr "9fb037999f264ba9a7fc6274d15fa3ae2ab98312");
        ("tree", JArr items); ("truncated", JBool false)].

Definition main_url : string :=
  "https://api.github.com/repos/Zoyaaaaaaa/DealDetective/git/trees/main?recursive=1".

Definition master_url : string :=
  "https://api.github.com/repos/Zoyaaaaaaa/DealDetective/git/trees/master?recursive=1".

(** The tree of [main] is missing, the tree of [master] is there. *)
Definition master_tree : Response := respond 200 (tree_document [readme_item]).

Definition only_master : Client :=
  fun request =>
    if String.eqb (url request) main_url then Ret not_found else Ret master_tree.

(** A tree of three items, one of them under [__pycache__/]. *)
Definition full_tree : Response :=
  respond 200 (tree_document [readme_item; src_item; cache_item]).

Definition with_full_tree : Client := fun _ => Ret full_tree.

(** The tree of a commit that holds no file. *)
Definition empty_tree : Response := respond 200 (tree_document []).

Definition with_empty_tree : Client := fun _ => Ret empty_tree.

(** A file whose name holds a newline, which Git allows.  In the text
    of the answer the newline is escaped. *)
Definition newline_path : string := "notes" ++ nl ++ "2024.md".

Definition newline_item : json :=
  JObj [("path", JStr newline_path); ("mode", JStr "100644"); ("type", JStr "blob")].

(** The item as the text of an answer spells it. *)
Definition newline_item_text : json :=
  JObj [("path", JStr "notes\n2024.md"); ("mode", JStr "100644");
        ("type", JStr "blob")].

Definition newline_tree : Response :=
  mkResponse 200 (dumps (tree_document [newline_item_text]))
    (Some (tree_document [newline_item])).

Definition with_newline_tree : Client := fun _ => Ret newline_tree.

(** A tree with [node_modules] at its top. *)
Definition modules_item : json :=
  JObj [("path", JStr "node_modules"); ("mode", JStr "040000"); ("type", JStr "tree")].

Definition left_pad_item : json :=
  JObj [("path", JStr "node_modules/left-pad/index.js"); ("mode", JStr "100644");
        ("type", JStr "blob")].

Definition modules_tree : Response :=
  mkResponse 200
    (dumps (tree_document [newline_item_text; modules_item; left_pad_item]))
    (Some (tree_document [newline_item; modules_item; left_pad_item])).

Definition with_modules_tree : Client := fun _ => Ret modules_tree.

(** The contents answer for a directory: a list of its entries. *)
Definition directory : Response :=
  respond 200
    (JArr [JObj [("name", JStr "app.py"); ("path", JStr "src/app.py");
                 ("type", JStr "file")];
           JObj [("name", JStr "cli.py"); ("path", JStr "src/cli.py");
                 ("type", JStr "file")]]).

Definition with_directory : Client := fun _ => Ret directory.

(** The contents answer for a submodule, and for a file. *)
Definition submodule : Response :=
  respond 200
    (JObj [("name", JStr "vendor"); ("path", JStr "vendor");
           ("type", JStr "submodule")]).

Definition file : Response :=
  respond 200
    (JObj [("name", JStr "app.py"); ("path", JStr "src/app.py");
           ("type", JStr "file"); ("encoding", JStr "base64");
           ("content", JStr "cHJpbnQoMSk=")]).

Definition issue (number : Z) (title : string) : list (string * json) :=
  [("number", JNum number); ("title", JStr title); ("state", JStr "open");
   ("created_at", JStr "2025-01-05T10:00:00Z");
   ("html_url", JStr "https://github.com/Zoyaaaaaaa/DealDetective/issues")].

(** The issues answer lists pull requests too, marked by a key. *)
Definition pull (number : Z) (title : string) : list (string * json) :=
  issue number title ++ [("pull_request", JObj [("url", JStr "https://api.github.com")])].

Definition only_pulls : Response :=
  respond 200 (JArr [JObj (pull 7 "Add tests"); JObj (pull 9 "Fix typo")]).

Definition with_only_pulls : Client := fun _ => Ret only_pulls.

Definition mixed_issues : Response :=
  respond 200 (JArr [JObj (pull 7 "Add tests"); JObj (issue 8 "Crash on start")]).

Definition with_mixed_issues : Client := fun _ => Ret mixed_issues.

Definition repository : json :=
  JObj [("full_name", JStr "Zoyaaaaaaa/DealDetective");
        ("owner", JObj [("login", JStr "Zoyaaaaaaa")]);
        ("description", JNull);
        ("size", JNum 1536);
        ("stargazers_count", JNum 3);
        ("forks_count", JNum 1);
        ("open_issues_count", JNum 0);
        ("language", JStr "Python");
        ("created_at", JStr "2025-01-05T10:00:00Z");
        ("updated_at", JStr "2025-02-01T08:30:00Z");
        ("default_branch", JStr "main");
        ("visibility", JStr "public");
        ("topics", JArr [JStr "fastapi"; JStr "agents"]);
        ("license", JObj [("key", JStr "mit"); ("name", JStr "MIT License")])].

Definition with_repository : Client := fun _ => Ret (respond 200 repository).

(** An agent that answers with the prompt and records one tool call;
    it fails on the prompt [boom]. *)
Definition echo : Agent.Agent :=
  fun user_prompt _ history =>
    if String.eqb user_prompt "boom" then Raise (AgentError "boom")
    else Ret (Agent.mkRunResult
                [Agent.ModelRequest [Agent.UserPromptPart user_prompt];
                 Agent.ModelResponse
                   [Agent.mkPart "tool-call" "get_repo_info"
                      (Some ("get_repo_info", "{}"))];
                 Agent.ModelRequest [Agent.mkPart "tool-return" "Repository: a/b" None];
                 Agent.ModelResponse [Agent.TextPart ("You said " ++ user_prompt)]]
                ("You said " ++ user_prompt)).

(** An agent whose answer tells how many messages it was given. *)
Definition counting : Agent.Agent :=
  fun user_prompt _ history =>
    if String.eqb user_prompt "boom" then Raise (AgentError "boom")
    else Ret (Agent.mkRunResult
                [Agent.ModelRequest [Agent.UserPromptPart user_prompt];
                 Agent.ModelResponse
                   [Agent.TextPart (str_int (Z.of_nat (length history)))]]
                (str_int (Z.of_nat (length history)))).

(** A run of the loop with this agent: two answered turns, then a
    failure. *)
Definition counting_run : Cli.CLI * list string * Cli.Exit :=
  Cli.chat counting deps ["hi "; "more"; "boom"; "late"].

(** U+00A0, the no-break space, and U+3000, the ideographic space, which
    [strip] removes; U+200B, the zero width space, which it keeps. *)
Definition nbsp : string := string_of_list_ascii (map ascii_of_nat [194; 160]).
Definition wide_space : string :=
  string_of_list_ascii (map ascii_of_nat [227; 128; 128]).
Definition zero_width_space : string :=
  string_of_list_ascii (map ascii_of_nat [226; 128; 139]).

Definition exn_text (e : exn) : string :=
  match e with
  | AgentError msg => msg
  | _ => "error"
  end.

Definition history : list Api.Entry :=
  [[("role", "user"); ("content", "What is this repository about?")];
   [("role", "assistant"); ("content", "A price tracker.")];
   [("role", "system"); ("content", "ignored")];
   [("role", "user"); ("content", "Who owns it?")]].

(** A body with no [groq_token] field. *)
Definition body_without_token : json :=
  JObj [("message", JStr "hello"); ("history", JArr [])].

Definition body_empty_token : json :=
  JObj [("message", JStr "hello"); ("groq_token", JStr EmptyString)].

End Sample.

(** * Properties *)

(** ** The URL pattern *)

Module ReFacts.
Import Re.

Lemma plus_greedy_sound {A} (c : cls) (k : string -> option A) (s : string) (x : A) :
  plus_greedy c s k = Some x ->
  exists w s', s = w ++ s' /\ w <> EmptyString /\ all_in c w = true /\ k s' = Some x.
Proof.
  induction s as [ | a s IH]; simpl; [discriminate | ].
  destruct (in_cls c a) eqn:Ha; [ | discriminate].
  destruct (plus_greedy c s k) as [y | ] eqn:Hrec.
  - intros [= <-]. destruct (IH eq_refl) as [w [s' [-> [Hw [Hall Hk]]]]].
    exists (String a w), s'. simpl. rewrite Ha, Hall. repeat split; congruence.
  - intros Hk. exists (String a EmptyString), s. simpl. rewrite Ha.
    repeat split; congruence.
Qed.

Lemma plus_lazy_sound {A} (c : cls) (k : string -> option A) (s : string) (x : A) :
  plus_lazy c s k = Some x ->
  exists w s', s = w ++ s' /\ w <> EmptyString /\ all_in c w = true /\ k s' = Some x.
Proof.
  induction s as [ | a s IH]; simpl; [discriminate | ].
  destruct (in_cls c a) eqn:Ha; [ | discriminate].
  destruct (k s) as [y | ] eqn:Hk.
  - intros [= <-]. exists (String a EmptyString), s. simpl. rewrite Ha.
    repeat split; congruence.
  - intros Hrec. destruct (IH Hrec) as [w [s' [-> [Hw [Hall Hk']]]]].
    exists (String a w), s'. simpl. rewrite Ha, Hall. repeat split; congruence.
Qed.

Lemma plus_greedy_complete {A} (c : cls) (k : string -> option A) (w s' : string) (x : A) :
  w <> EmptyString -> all_in c w = true -> k s' = Some x ->
  exists y, plus_greedy c (w ++ s') k = Some y.
Proof.
  induction w as [ | a w IH]; [contradiction | ].
  intros _ Hall Hk. simpl in Hall. apply andb_prop in Hall as [Ha Hall].
  simpl. rewrite Ha.
  destruct w as [ | b w].
  - simpl. destruct (plus_greedy c s' k); eauto.
  - destruct (IH ltac:(discriminate) Hall Hk) as [y ->]. eauto.
Qed.

Lemma plus_lazy_complete {A} (c : cls) (k : string -> option A) (w s' : string) (x : A) :
  w <> EmptyString -> all_in c w = true -> k s' = Some x ->
  exists y, plus_lazy c (w ++ s') k = Some y.
Proof.
  induction w as [ | a w IH]; [contradiction | ].
  intros _ Hall Hk. simpl in Hall. apply andb_prop in Hall as [Ha Hall].
  simpl. rewrite Ha.
  destruct (k (w ++ s')) eqn:Hhere; [eauto | ].
  destruct w as [ | b w].
  - simpl in Hhere. congruence.
  - apply IH; [discriminate | assumption | assumption].
Qed.

Lemma drop_prefix_sound (p s s' : string) :
  drop_prefix p s = Some s' -> s = p ++ s'.
Proof.
  revert s. induction p as [ | a p IH]; intros s; simpl.
  - now intros [= ->].
  - destruct s as [ | b s]; [discriminate | ].
    destruct (Ascii.eqb_spec a b) as [<- | ]; [ | discriminate].
    intros H. now rewrite (IH s H).
Qed.

Lemma drop_prefix_complete (p s : string) : drop_prefix p (p ++ s) = Some s.
Proof.
  induction p as [ | a p IH]; simpl; [reflexivity | ].
  now rewrite Ascii.eqb_refl.
Qed.

(** Whatever the matcher returns was handed to it by its continuation,
    at a position and with captures the pattern allows. *)
Lemma run_sound (r : re) :
  forall s caps k res,
  run r s caps k = Some res ->
  exists s' new, matches r s s' new /\ k s' (caps ++ new)%list = Some res.
Proof.
  induction r as [l | c | c | c | r IH | r IH | r1 IH1 r2 IH2 | ];
    intros s caps k res Hrun; simpl in Hrun.
  - destruct (drop_prefix l s) as [s' | ] eqn:Hl; [ | discriminate].
    apply drop_prefix_sound in Hl as ->.
    exists s', []. rewrite app_nil_r. split; [constructor | assumption].
  - destruct s as [ | a s]; [discriminate | ].
    destruct (in_cls c a) eqn:Ha; [ | discriminate].
    exists s, []. rewrite app_nil_r. split; [now constructor | assumption].
  - apply plus_greedy_sound in Hrun as [w [s' [-> [Hw [Hall Hk]]]]].
    exists s', []. rewrite app_nil_r. split; [now constructor | assumption].
  - apply plus_lazy_sound in Hrun as [w [s' [-> [Hw [Hall Hk]]]]].
    exists s', []. rewrite app_nil_r. split; [now constructor | assumption].
  - destruct (run r s caps k) as [x | ] eqn:Hr.
    + injection Hrun as <-.
      destruct (IH _ _ _ _ Hr) as [s' [new [Hm Hk]]].
      exists s', new. split; [now apply MOptSome | assumption].
    + exists s, []. rewrite app_nil_r. split; [apply MOptNone | assumption].
  - destruct (IH _ _ _ _ Hrun) as [s' [new [Hm Hk]]].
    exists s', (new ++ [consumed s s'])%list.
    split; [now constructor | now rewrite app_assoc].
  - destruct (IH1 _ _ _ _ Hrun) as [s1 [new1 [Hm1 Hk1]]].
    destruct (IH2 _ _ _ _ Hk1) as [s2 [new2 [Hm2 Hk2]]].
    exists s2, (new1 ++ new2)%list.
    split; [econstructor; eassumption | now rewrite app_assoc].
  - destruct (at_end s) eqn:Hend; [ | discriminate].
    exists s, []. rewrite app_nil_r. split; [now constructor | assumption].
Qed.

(** When the pattern allows a match that the continuation accepts, the
    matcher finds one (that one, or one it tries earlier). *)
Lemma run_complete (r : re) (s s' : string) (new : list string) :
  matches r s s' new ->
  forall caps k res,
  k s' (caps ++ new)%list = Some res ->
  exists res', run r s caps k = Some res'.
Proof.
  induction 1 as [l s | c a s Ha | c w s Hw Hall | c w s Hw Hall
                  | r s s' new _ IH | r s | r s s' new _ IH
                  | r1 r2 s s1 s2 new1 new2 _ IH1 _ IH2 | s Hend];
    intros caps k res Hk; simpl; try rewrite app_nil_r in Hk.
  - rewrite drop_prefix_complete. eauto.
  - rewrite Ha. eauto.
  - apply (plus_greedy_complete c _ w s res Hw Hall Hk).
  - apply (plus_lazy_complete c _ w s res Hw Hall Hk).
  - destruct (IH _ _ _ Hk) as [res' ->]. eauto.
  - destruct (run r s caps k); eauto.
  - apply (IH caps (fun s0 caps' => k s0 (caps' ++ [consumed s s0])%list) res).
    now rewrite <- app_assoc.
  - rewrite app_assoc in Hk.
    destruct (IH2 _ _ _ Hk) as [res2 Hres2].
    apply (IH1 caps (fun s0 caps' => run r2 s0 caps' k) res2 Hres2).
  - rewrite Hend. eauto.
Qed.

Lemma search_sound (r : re) (s : string) (caps : list string) :
  search r s = Some caps ->
  exists before rest s', s = before ++ rest /\ matches r rest s' caps.
Proof.
  induction s as [ | a s IH]; simpl.
  - destruct (run r EmptyString [] (fun _ caps0 => Some caps0)) as [x | ] eqn:Hrun;
      [ | discriminate].
    intros [= <-]. apply run_sound in Hrun as [s' [new [Hm [= <-]]]].
    exists EmptyString, EmptyString, s'. split; [reflexivity | exact Hm].
  - destruct (run r (String a s) [] (fun _ caps0 => Some caps0)) as [x | ] eqn:Hrun.
    + intros [= <-]. apply run_sound in Hrun as [s' [new [Hm [= <-]]]].
      exists EmptyString, (String a s), s'. split; [reflexivity | exact Hm].
    + intros Hrec. destruct (IH Hrec) as [before [rest [s' [-> Hm]]]].
      exists (String a before), rest, s'. split; [reflexivity | exact Hm].
Qed.

Lemma search_complete (r : re) (before rest s' : string) (caps : list string) :
  matches r rest s' caps ->
  exists caps', search r (before ++ rest) = Some caps'.
Proof.
  intros Hm.
  assert (Hhere : exists caps', run r rest [] (fun _ caps0 => Some caps0) = Some caps').
  { apply (run_complete r rest s' caps Hm [] _ caps). reflexivity. }
  induction before as [ | a before IH].
  - destruct Hhere as [caps' Hhere]. exists caps'.
    destruct rest; simpl in *; now rewrite Hhere.
  - simpl.
    destruct (run r (String a (before ++ rest)) [] (fun _ caps0 => Some caps0)); eauto.
Qed.

Lemma length_append (w s : string) :
  String.length (w ++ s) = (String.length w + String.length s)%nat.
Proof. induction w as [ | a w IH]; simpl; [reflexivity | now rewrite IH]. Qed.

Lemma substring_prefix (w s : string) : substring 0 (String.length w) (w ++ s) = w.
Proof.
  induction w as [ | a w IH]; simpl.
  - destruct s; reflexivity.
  - now rewrite IH.
Qed.

(** The text of a group is the matched prefix. *)
Lemma consumed_prefix (w s : string) : consumed (w ++ s) s = w.
Proof.
  unfold consumed. rewrite length_append.
  replace (String.length w + String.length s - String.length s)%nat
    with (String.length w) by lia.
  apply substring_prefix.
Qed.

Ltac inv H := inversion H; subst; clear H.

(** The matches of the pattern at a given start. *)
Lemma matches_github_url_re (rest s' : string) (caps : list string) :
  matches github_url_re rest s' caps ->
  exists (sep : ascii) (owner repo git : string),
    rest = "github.com" ++ String sep (owner ++ "/" ++ repo ++ git ++ s')
    /\ in_cls (OneOf ":/") sep = true
    /\ owner <> EmptyString /\ all_in (NoneOf "/") owner = true
    /\ repo <> EmptyString /\ all_in (NoneOf "/") repo = true
    /\ (git = EmptyString \/ git = ".git")
    /\ at_end s' = true
    /\ caps = [owner; repo].
Proof.
  unfold github_url_re. intros H.
  inv H.
  match goal with H : matches (Lit _) _ _ _ |- _ => inv H end.
  match goal with H : matches (Cat _ _) _ _ _ |- _ => inv H end.
  match goal with H : matches (Chr _) _ _ _ |- _ => inv H end.
  match goal with H : matches (Cat _ _) _ _ _ |- _ => inv H end.
  match goal with H : matches (Group _) _ _ _ |- _ => inv H end.
  match goal with H : matches (Plus _) _ _ _ |- _ => inv H end.
  match goal with H : matches (Cat _ _) _ _ _ |- _ => inv H end.
  match goal with H : matches (Lit _) _ _ _ |- _ => inv H end.
  match goal with H : matches (Cat _ _) _ _ _ |- _ => inv H end.
  match goal with H : matches (Group _) _ _ _ |- _ => inv H end.
  match goal with H : matches (PlusLazy _) _ _ _ |- _ => inv H end.
  match goal with H : matches (Cat _ _) _ _ _ |- _ => inv H end.
  match goal with H : matches Dollar _ _ _ |- _ => inv H end.
  rewrite !consumed_prefix.
  match goal with H : matches (Opt _) _ _ _ |- _ => inv H end.
  - match goal with H : matches (Lit _) _ _ _ |- _ => inv H end.
    exists a, w, w0, ".git". simpl. repeat split; auto.
  - exists a, w, w0, EmptyString. simpl. repeat split; auto.
Qed.

Lemma group_plus (c : cls) (w s : string) :
  w <> EmptyString -> all_in c w = true ->
  matches (Group (Plus c)) (w ++ s) s [w].
Proof.
  intros Hw Hall. assert (H := MGroup _ _ _ _ (MPlus c w s Hw Hall)).
  now rewrite consumed_prefix in H.
Qed.

Lemma group_plus_lazy (c : cls) (w s : string) :
  w <> EmptyString -> all_in c w = true ->
  matches (Group (PlusLazy c)) (w ++ s) s [w].
Proof.
  intros Hw Hall. assert (H := MGroup _ _ _ _ (MPlusLazy c w s Hw Hall)).
  now rewrite consumed_prefix in H.
Qed.

Lemma github_url_re_matches (sep : ascii) (owner repo git tail : string) :
  in_cls (OneOf ":/") sep = true ->
  owner <> EmptyString -> all_in (NoneOf "/") owner = true ->
  repo <> EmptyString -> all_in (NoneOf "/") repo = true ->
  git = EmptyString \/ git = ".git" ->
  at_end tail = true ->
  matches github_url_re
    ("github.com" ++ String sep (owner ++ "/" ++ repo ++ git ++ tail)) tail
    [owner; repo].
Proof.
  intros Hsep Ho Hoall Hr Hrall Hgit Hend. unfold github_url_re.
  change [owner; repo] with ([] ++ [] ++ ([] ++ [owner]) ++ [] ++ ([] ++ [repo]) ++ [] ++ [])%list.
  apply MCat with (s1 := String sep (owner ++ "/" ++ repo ++ git ++ tail));
    [apply MLit | ].
  apply MCat with (s1 := owner ++ "/" ++ repo ++ git ++ tail);
    [now apply MChr | ].
  apply MCat with (s1 := "/" ++ repo ++ git ++ tail).
  { now apply group_plus. }
  apply MCat with (s1 := repo ++ git ++ tail); [apply MLit | ].
  apply MCat with (s1 := git ++ tail).
  { now apply group_plus_lazy. }
  apply MCat with (s1 := tail); [ | now apply MDollar].
  destruct Hgit as [-> | ->]; [apply MOptNone | apply MOptSome, MLit].
Qed.

(** A successful search has the two groups of the pattern. *)
Lemma search_github_url_re (github_url : string) (caps : list string) :
  search github_url_re github_url = Some caps ->
  exists owner repo, caps = [owner; repo] /\ github_url_shape github_url owner repo.
Proof.
  intros Hs. apply search_sound in Hs as [before [rest [s' [-> Hm]]]].
  apply matches_github_url_re in Hm
    as [sep [owner [repo [git [-> [Hsep [Ho [Hoall [Hr [Hrall [Hgit [Hend ->]]]]]]]]]]]].
  exists owner, repo. split; [reflexivity | ].
  exists before, sep, git, s'. repeat split; assumption.
Qed.

(** [parse_github_url] is [None] exactly when the search fails. *)
Lemma parse_none_search_none (github_url : string) :
  parse_github_url github_url = None <-> search github_url_re github_url = None.
Proof.
  unfold parse_github_url.
  destruct (search github_url_re github_url) as [caps | ] eqn:Hs.
  - destruct (search_github_url_re _ _ Hs) as [owner [repo [-> _]]].
    split; discriminate.
  - split; reflexivity.
Qed.

(** What the tools call a well-formed URL: an accepted URL has the
    shape, with the owner and the name the tools go on with. *)
Lemma parse_github_url_shape (github_url owner repo : string) :
  parse_github_url github_url = Some (owner, repo) ->
  github_url_shape github_url owner repo.
Proof.
  unfold parse_github_url.
  destruct (search github_url_re github_url) as [caps | ] eqn:Hs; [ | discriminate].
  destruct (search_github_url_re _ _ Hs) as [o [r [-> Hshape]]].
  now intros [= <- <-].
Qed.

(** Every URL of the shape is accepted, with some reading of it. *)
Lemma parse_github_url_accepts (github_url owner repo : string) :
  github_url_shape github_url owner repo ->
  exists owner' repo', parse_github_url github_url = Some (owner', repo').
Proof.
  intros [before [sep [git [tail [-> [Hsep [Ho [Hoall [Hr [Hrall [Hgit Hend]]]]]]]]]]].
  destruct (search_complete github_url_re before _ tail [owner; repo]
              (github_url_re_matches sep owner repo git tail
                 Hsep Ho Hoall Hr Hrall Hgit Hend)) as [caps Hs].
  unfold parse_github_url. rewrite Hs.
  destruct (search_github_url_re _ _ Hs) as [o [r [-> _]]]. eauto.
Qed.

(** A URL is rejected exactly when it has the shape for no owner and
    name. *)
Lemma parse_github_url_none (github_url : string) :
  parse_github_url github_url = None <->
  ~ exists owner repo, github_url_shape github_url owner repo.
Proof.
  split.
  - intros Hnone [owner [repo Hshape]].
    destruct (parse_github_url_accepts _ _ _ Hshape) as [o [r Hsome]]. congruence.
  - intros Hno. destruct (parse_github_url github_url) as [[owner repo] | ] eqn:Hp;
      [ | reflexivity].
    exfalso. apply Hno. exists owner, repo. now apply parse_github_url_shape.
Qed.

(** *** The reading of a given URL *)

Lemma mismatch_no_prefix (p u v : string) :
  mismatch p u = true -> drop_prefix p (u ++ v) = None.
Proof.
  revert u. induction p as [ | a p IH]; intros u; [discriminate | ].
  destruct u as [ | b u]; [discriminate | ]. cbn [mismatch append drop_prefix].
  destruct (Ascii.eqb a b); cbn [negb orb]; [apply IH | reflexivity].
Qed.

(** The search skips a prefix in which the pattern cannot start. *)
Lemma search_skip (before tail : string) :
  no_earlier_start before = true ->
  search github_url_re (before ++ "github.com" ++ tail)
  = search github_url_re ("github.com" ++ tail).
Proof.
  induction before as [ | a before IH]; [reflexivity | ].
  cbn [no_earlier_start]. intros H. apply andb_prop in H as [Hhere Hrest].
  rewrite <- (IH Hrest).
  assert (Hnone : drop_prefix "github.com"
                    (String a before ++ "github.com" ++ tail) = None).
  { change ("github.com" ++ tail) with ("github.com" ++ tail).
    replace (String a before ++ "github.com" ++ tail)
      with ((String a before ++ "github.com") ++ tail).
    - now apply mismatch_no_prefix.
    - clear. induction (String a before) as [ | c u IHu]; [reflexivity | ].
      cbn [append]. now rewrite IHu. }
  cbn [append] in *. cbn [search]. unfold github_url_re at 1. cbn [run].
  rewrite Hnone. reflexivity.
Qed.

(** The greedy group runs up to the first character outside its class
    when the rest of the pattern accepts what follows. *)
Lemma plus_greedy_whole {A} (c : cls) (k : string -> option A)
    (w : string) (b : ascii) (s : string) (x : A) :
  w <> EmptyString -> all_in c w = true -> in_cls c b = false ->
  k (String b s) = Some x ->
  plus_greedy c (w ++ String b s) k = Some x.
Proof.
  intros Hw Hall Hb Hk. induction w as [ | a w IH]; [contradiction | ].
  cbn [all_in] in Hall. apply andb_prop in Hall as [Ha Hall].
  cbn [append plus_greedy]. rewrite Ha.
  destruct w as [ | a' w].
  - cbn [append plus_greedy]. rewrite Hb. exact Hk.
  - rewrite IH; [reflexivity | discriminate | exact Hall].
Qed.

(** The lazy group ends at the first place where the rest accepts. *)
Lemma plus_lazy_first {A} (c : cls) (k : string -> option A) (p q : string) (x : A) :
  p <> EmptyString -> all_in c p = true ->
  k q = Some x ->
  (forall p1 p2, p = p1 ++ p2 -> p1 <> EmptyString -> p2 <> EmptyString ->
                 k (p2 ++ q) = None) ->
  plus_lazy c (p ++ q) k = Some x.
Proof.
  intros Hp Hall Hk. induction p as [ | a p IH]; [contradiction | ].
  intros Hearly.
  cbn [all_in] in Hall. apply andb_prop in Hall as [Ha Hall].
  cbn [append plus_lazy]. rewrite Ha.
  destruct p as [ | a' p].
  - cbn [append]. now rewrite Hk.
  - rewrite (Hearly (String a EmptyString) (String a' p) eq_refl)
      by discriminate.
    apply IH; [discriminate | exact Hall | ].
    intros p1 p2 Heq Hp1 Hp2.
    apply (Hearly (String a p1) p2); [ | discriminate | exact Hp2].
    cbn [append]. now rewrite Heq.
Qed.

(** What the rest of the pattern after the name does. *)
Lemma run_suffix (s : string) (caps : list string) :
  run (Cat (Opt (Lit ".git")) Dollar) s caps (fun _ caps0 => Some caps0)
  = if stops s then Some caps else None.
Proof.
  unfold stops. cbn [run].
  destruct (drop_prefix ".git" s) as [s' | ]; [ | now destruct (at_end s)].
  destruct (at_end s'); [reflexivity | ]. now destruct (at_end s).
Qed.

Lemma at_end_length (s : string) : at_end s = true -> (String.length s <= 1)%nat.
Proof.
  destruct s as [ | a [ | b s]]; cbn; intros; first [lia | discriminate].
Qed.

Lemma stops_before_git (p2 : string) :
  p2 <> EmptyString -> stops (p2 ++ ".git") = false.
Proof.
  intros Hp2. unfold stops.
  assert (Hlen : (5 <= String.length (p2 ++ ".git"))%nat).
  { rewrite length_append. destruct p2; [contradiction | simpl; lia]. }
  assert (Hend : at_end (p2 ++ ".git") = false).
  { destruct (at_end (p2 ++ ".git")) eqn:H; [ | reflexivity].
    apply at_end_length in H. lia. }
  rewrite Hend.
  destruct (drop_prefix ".git" (p2 ++ ".git")) as [s' | ] eqn:Hdrop; [ | reflexivity].
  apply drop_prefix_sound in Hdrop.
  destruct (at_end s') eqn:Hs'; [ | reflexivity].
  exfalso.
  destruct s' as [ | a [ | b s']]; try discriminate Hs'.
  - apply (f_equal String.length) in Hdrop. rewrite length_append in Hdrop.
    simpl in Hdrop. destruct p2; [contradiction | simpl in Hdrop; lia].
  - apply (f_equal String.length) in Hdrop as Hl. rewrite length_append in Hl.
    simpl in Hl. destruct p2 as [ | c [ | d p2]]; [contradiction | | simpl in Hl; lia].
    simpl in Hdrop. discriminate Hdrop.
Qed.

Lemma early_stop_split (p1 p2 : string) :
  early_stop (p1 ++ p2) = false -> p1 <> EmptyString -> p2 <> EmptyString ->
  stops p2 = false.
Proof.
  induction p1 as [ | a p1 IH]; [contradiction | ].
  intros Hearly _ Hp2. cbn [append early_stop] in Hearly.
  destruct (p1 ++ p2) as [ | b t] eqn:Hrest.
  - destruct p1; [simpl in Hrest; contradiction | discriminate Hrest].
  - apply orb_false_elim in Hearly as [Hstop Hnext].
    destruct p1 as [ | a' p1].
    + simpl in Hrest. now subst p2.
    + apply IH; [exact Hnext | discriminate | exact Hp2].
Qed.

(** The match at a start where the URL has its shape and the name ends
    where the rest first accepts. *)
Lemma run_github_url_re (sep : ascii) (owner repo rest : string) :
  in_cls (OneOf ":/") sep = true ->
  owner <> EmptyString -> all_in (NoneOf "/") owner = true ->
  repo <> EmptyString -> all_in (NoneOf "/") repo = true ->
  stops rest = true ->
  (forall p1 p2, repo = p1 ++ p2 -> p1 <> EmptyString -> p2 <> EmptyString ->
                 stops (p2 ++ rest) = false) ->
  search github_url_re ("github.com" ++ String sep (owner ++ "/" ++ repo ++ rest))
  = Some [owner; repo].
Proof.
  intros Hsep Ho Hoall Hr Hrall Hstop Hearly.
  assert (Hrun : run github_url_re
                   ("github.com" ++ String sep (owner ++ "/" ++ repo ++ rest)) []
                   (fun _ caps0 => Some caps0) = Some [owner; repo]).
  { unfold github_url_re.
    remember (Cat (Opt (Lit ".git")) Dollar) as r_tail eqn:Htail.
    cbn [run].
    rewrite drop_prefix_complete, Hsep.
    change (owner ++ "/" ++ repo ++ rest)
      with (owner ++ String "/"%char (repo ++ rest)).
    apply plus_greedy_whole; [exact Ho | exact Hoall | reflexivity | ].
    rewrite consumed_prefix.
    change (drop_prefix "/" (String "/"%char (repo ++ rest)))
      with (Some (repo ++ rest)). cbv iota beta.
    apply plus_lazy_first; [exact Hr | exact Hrall | | ].
    - rewrite consumed_prefix. subst r_tail.
      rewrite (run_suffix rest), Hstop. reflexivity.
    - intros p1 p2 Heq Hp1 Hp2. subst r_tail.
      rewrite (run_suffix (p2 ++ rest)), (Hearly p1 p2 Heq Hp1 Hp2). reflexivity. }
  cbn [append] in *. cbn [search]. now rewrite Hrun.
Qed.

End ReFacts.

(** ** Running a tool *)

Module ToolFacts.
Import Py Http.

Lemma silent_ret {A} (a : A) : silent (ret a).
Proof. intros client log. reflexivity. Qed.

Lemma silent_lift {A} (c : outcome A) : silent (lift c).
Proof. intros client log. reflexivity. Qed.

Lemma silent_bind {A B} (c : Tool A) (k : A -> Tool B) :
  silent c -> (forall a, silent (k a)) -> silent (bind c k).
Proof.
  intros Hc Hk client log. unfold bind.
  specialize (Hc client log).
  destruct (c client log) as [[a | e] log']; simpl in Hc; subst log'.
  - apply Hk.
  - reflexivity.
Qed.

Lemma silent_if {A} (b : bool) (t1 t2 : Tool A) :
  silent t1 -> silent t2 -> silent (if b then t1 else t2).
Proof. destruct b; auto. Qed.

(** A tool that starts with a GET: the request is logged, and the rest
    runs on the response. *)
Lemma invoke_get {A} (u : string) (h : list (string * string))
    (k : Response -> Tool A) (client : Client) :
  invoke (bind (client_get u h) k) client =
  match client (mkRequest u h) with
  | Ret response => k response client [mkRequest u h]
  | Raise e => (Raise e, [mkRequest u h])
  end.
Proof. reflexivity. Qed.

(** After a GET, a silent rest leaves that request alone in the log. *)
Lemma requests_get_silent {A} (u : string) (h : list (string * string))
    (k : Response -> Tool A) (client : Client) :
  (forall response, silent (k response)) ->
  requests (bind (client_get u h) k) client = [mkRequest u h].
Proof.
  intros Hk. unfold requests. rewrite invoke_get.
  destruct (client (mkRequest u h)) as [response | e]; [apply Hk | reflexivity].
Qed.

Lemma result_lift {A} (c : outcome A) (client : Client) (log : list Request) :
  lift c client log = (c, log).
Proof. reflexivity. Qed.

End ToolFacts.

Import Py Http ToolFacts.

(** ** Malformed URLs *)

(** C1.  When [github_url] does not match the pattern, that is when
    [re.search] returns [None], which happens exactly for the texts that
    do not end in [github.com], a colon or slash, an owner, a slash, a
    name and an optional [.git], each of the five tools of [app.py], and
    each copy in [github_agent.py] and [cli.py], returns the "Invalid
    GitHub URL format" string (with a final dot in [get_repo_info]),
    raises nothing, and issues no HTTP request, whatever the client
    would answer. *)
Theorem C1_malformed_url_error_string
    (rt : Runtime) (deps : App.GitHubDeps)
    (github_url file_path state : string) (client : Client) :
  Re.parse_github_url github_url = None ->
  Re.search Re.github_url_re github_url = None
  /\ ~ (exists owner repo, Re.github_url_shape github_url owner repo)
  /\ invoke (App.get_repo_info rt deps github_url) client
    = (Ret "Invalid GitHub URL format.", [])
  /\ invoke (App.get_repo_structure rt deps github_url) client
    = (Ret "Invalid GitHub URL format", [])
  /\ invoke (App.get_file_content rt deps github_url file_path) client
    = (Ret "Invalid GitHub URL format", [])
  /\ invoke (App.get_issues rt deps github_url state) client
    = (Ret "Invalid GitHub URL format", [])
  /\ invoke (App.get_pull_requests rt deps github_url state) client
    = (Ret "Invalid GitHub URL format", [])
  /\ invoke (GithubAgent.get_repo_info rt deps github_url) client
    = (Ret "Invalid GitHub URL format.", [])
  /\ invoke (GithubAgent.get_repo_structure rt deps github_url) client
    = (Ret "Invalid GitHub URL format", [])
  /\ invoke (Cli.get_repo_info rt deps github_url) client
    = (Ret "Invalid GitHub URL format.", [])
  /\ invoke (Cli.get_repo_structure rt deps github_url) client
    = (Ret "Invalid GitHub URL format", []).
Proof.
  intros Hno.
  split; [now apply ReFacts.parse_none_search_none | ].
  split; [now apply ReFacts.parse_github_url_none | ].
  unfold GithubAgent.get_repo_info, GithubAgent.get_repo_structure,
    Cli.get_repo_info, Cli.get_repo_structure, App.get_repo_structure,
    App.get_repo_info, App.get_repo_structure_with, App.get_file_content,
    App.get_issues, App.get_pull_requests.
  rewrite Hno.
  repeat split.
Qed.

Lemma C1_witness :
  Re.parse_github_url "ftp://example.org/a/b" = None
  /\ invoke (App.get_issues Sample.rt Sample.deps "ftp://example.org/a/b" "open")
       Sample.offline
     = (Ret "Invalid GitHub URL format", []).
Proof.
  split.
  - vm_compute. reflexivity.
  - apply (C1_malformed_url_error_string Sample.rt Sample.deps
             "ftp://example.org/a/b" "README.md" "open" Sample.offline).
    vm_compute. reflexivity.
Defined.

(** ** Requests per invocation *)

Ltac silent_tail :=
  repeat first
    [ apply silent_ret
    | apply silent_lift
    | apply silent_if
    | apply silent_bind; [ | intro ]
    | match goal with
      | |- silent (match ?x with _ => _ end) => destruct x
      end ].

Lemma listing_silent (rt : Runtime) (dir_icon file_icon : string)
    (response : Response) :
  silent (Http.bind (lift (response_json response)) (fun data =>
          Http.bind (lift (subscript data "tree")) (fun tree =>
          Http.bind (lift (iter tree)) (fun items =>
          Http.bind (lift (App.build_structure rt dir_icon file_icon items []))
            (fun structure => ret (join nl structure)))))).
Proof. silent_tail. Qed.

(** What [get_repo_structure] sends: the trees of [main], and those of
    [master] when the first answer is not a 200. *)
Lemma get_repo_structure_requests (rt : Runtime) (dir_icon file_icon : string)
    (deps : App.GitHubDeps) (github_url owner repo : string) (client : Client) :
  Re.parse_github_url github_url = Some (owner, repo) ->
  let main := mkRequest ("https://api.github.com/repos/" ++ owner ++ "/" ++ repo
                         ++ "/git/trees/main?recursive=1") (App.auth_headers deps) in
  let master := mkRequest ("https://api.github.com/repos/" ++ owner ++ "/" ++ repo
                           ++ "/git/trees/master?recursive=1") (App.auth_headers deps) in
  requests (App.get_repo_structure_with rt dir_icon file_icon deps github_url) client =
  match client main with
  | Ret response =>
      if (status_code response =? 200)%Z then [main] else [main; master]
  | Raise _ => [main]
  end.
Proof.
  intros Hurl main master.
  unfold App.get_repo_structure_with. rewrite Hurl.
  unfold requests. rewrite invoke_get. fold main.
  destruct (client main) as [r1 | e]; [ | reflexivity].
  destruct (status_code r1 =? 200)%Z; cbn [negb]; cbv iota.
  - apply listing_silent.
  - unfold Http.bind at 1, client_get at 1. fold master. simpl app.
    destruct (client master) as [r2 | e]; [ | reflexivity].
    destruct (negb (status_code r2 =? 200)%Z).
    + reflexivity.
    + apply listing_silent.
Qed.

(** C5, as the code has it.  For a well-formed URL, [get_repo_info],
    [get_file_content], [get_issues] and [get_pull_requests] issue
    exactly one GET, to their endpoint, whatever the answer.
    [get_repo_structure] issues one GET for the tree of [main], and a
    second one, for the tree of [master], exactly when the first answer
    has a status other than 200. *)
Theorem C5_requests_issued
    (rt : Runtime) (deps : App.GitHubDeps)
    (github_url owner repo file_path state : string) (client : Client) :
  Re.parse_github_url github_url = Some (owner, repo) ->
  let h := App.auth_headers deps in
  let main := mkRequest ("https://api.github.com/repos/" ++ owner ++ "/" ++ repo
                         ++ "/git/trees/main?recursive=1") h in
  let master := mkRequest ("https://api.github.com/repos/" ++ owner ++ "/" ++ repo
                           ++ "/git/trees/master?recursive=1") h in
  requests (App.get_repo_info rt deps github_url) client
    = [mkRequest ("https://api.github.com/repos/" ++ owner ++ "/" ++ repo) h]
  /\ requests (App.get_file_content rt deps github_url file_path) client
    = [mkRequest ("https://api.github.com/repos/" ++ owner ++ "/" ++ repo
                  ++ "/contents/" ++ file_path) h]
  /\ requests (App.get_issues rt deps github_url state) client
    = [mkRequest ("https://api.github.com/repos/" ++ owner ++ "/" ++ repo
                  ++ "/issues?state=" ++ state ++ "&per_page=10") h]
  /\ requests (App.get_pull_requests rt deps github_url state) client
    = [mkRequest ("https://api.github.com/repos/" ++ owner ++ "/" ++ repo
                  ++ "/pulls?state=" ++ state ++ "&per_page=10") h]
  /\ requests (App.get_repo_structure rt deps github_url) client
    = match client main with
      | Ret response =>
          if (status_code response =? 200)%Z then [main] else [main; master]
      | Raise _ => [main]
      end
  /\ requests (GithubAgent.get_repo_structure rt deps github_url) client
    = requests (App.get_repo_structure rt deps github_url) client
  /\ requests (Cli.get_repo_structure rt deps github_url) client
    = requests (App.get_repo_structure rt deps github_url) client.
Proof.
  intros Hurl h main master.
  repeat apply conj.
  - unfold App.get_repo_info. rewrite Hurl.
    apply requests_get_silent. intro response. silent_tail.
  - unfold App.get_file_content. rewrite Hurl.
    apply requests_get_silent. intro response. silent_tail.
  - unfold App.get_issues. rewrite Hurl.
    apply requests_get_silent. intro response. silent_tail.
  - unfold App.get_pull_requests. rewrite Hurl.
    apply requests_get_silent. intro response. silent_tail.
  - apply (get_repo_structure_requests rt _ _ deps github_url owner repo client Hurl).
  - reflexivity.
  - unfold Cli.get_repo_structure, App.get_repo_structure.
    rewrite !(get_repo_structure_requests rt _ _ deps github_url owner repo client Hurl).
    reflexivity.
Qed.

Lemma C5_witness :
  Re.parse_github_url Sample.github_url = Some ("Zoyaaaaaaa", "DealDetective")
  /\ requests (App.get_repo_info Sample.rt Sample.deps Sample.github_url) Sample.offline
     = [mkRequest "https://api.github.com/repos/Zoyaaaaaaa/DealDetective"
          [("Authorization", "token t0ken")]].
Proof.
  assert (Hurl : Re.parse_github_url Sample.github_url
                 = Some ("Zoyaaaaaaa", "DealDetective")) by (vm_compute; reflexivity).
  split.
  - exact Hurl.
  - exact (proj1 (C5_requests_issued Sample.rt Sample.deps Sample.github_url
                    "Zoyaaaaaaa" "DealDetective" "README.md" "open"
                    Sample.offline Hurl)).
Defined.

(** C5 as the specification words it fails: with a well-formed URL and a
    404 for the tree of [main], one invocation of [get_repo_structure]
    issues two GET requests. *)
Lemma C5_counterexample :
  Re.parse_github_url Sample.github_url = Some ("Zoyaaaaaaa", "DealDetective")
  /\ requests (App.get_repo_structure Sample.rt Sample.deps Sample.github_url)
       Sample.all_404
     = [mkRequest Sample.main_url [("Authorization", "token t0ken")];
        mkRequest Sample.master_url [("Authorization", "token t0ken")]]
  /\ ~ (exists request,
          requests (App.get_repo_structure Sample.rt Sample.deps Sample.github_url)
            Sample.all_404 = [request]).
Proof.
  assert (Hreq : requests (App.get_repo_structure Sample.rt Sample.deps Sample.github_url)
                   Sample.all_404
                 = [mkRequest Sample.main_url [("Authorization", "token t0ken")];
                    mkRequest Sample.master_url [("Authorization", "token t0ken")]])
    by (vm_compute; reflexivity).
  split; [vm_compute; reflexivity | split; [exact Hreq | ]].
  intros [request Hone]. rewrite Hreq in Hone. discriminate Hone.
Qed.

(** ** Answers other than 200 *)

Lemma not_200 (response : Response) :
  status_code response <> 200%Z ->
  negb (status_code response =? 200)%Z = true.
Proof. intros H. apply Z.eqb_neq in H. rewrite H. reflexivity. Qed.

(** C2, as the code has it.  For a well-formed URL, [get_repo_info],
    [get_file_content], [get_issues] and [get_pull_requests] return
    "Failed to get ...: " followed by the body of the response whenever
    the answer to their request has a status other than 200.
    [get_repo_structure] returns its "Failed to get" string, with the
    body of the second response, when the answers for the tree of [main]
    and for the tree of [master] both have a status other than 200.  In
    each case the tool returns: nothing is raised. *)
Theorem C2_failed_status_string
    (rt : Runtime) (deps : App.GitHubDeps)
    (github_url owner repo file_path state : string) (client : Client) :
  Re.parse_github_url github_url = Some (owner, repo) ->
  let h := App.auth_headers deps in
  let api := fun rest => mkRequest ("https://api.github.com/repos/" ++ owner ++ "/"
                                    ++ repo ++ rest) h in
  (forall r, client (mkRequest ("https://api.github.com/repos/" ++ owner ++ "/" ++ repo) h)
             = Ret r ->
     status_code r <> 200%Z ->
     result (App.get_repo_info rt deps github_url) client
     = Ret ("Failed to get repository info: " ++ text r))
  /\ (forall r, client (api ("/contents/" ++ file_path)) = Ret r ->
     status_code r <> 200%Z ->
     result (App.get_file_content rt deps github_url file_path) client
     = Ret ("Failed to get file content: " ++ text r))
  /\ (forall r, client (api ("/issues?state=" ++ state ++ "&per_page=10")) = Ret r ->
     status_code r <> 200%Z ->
     result (App.get_issues rt deps github_url state) client
     = Ret ("Failed to get issues: " ++ text r))
  /\ (forall r, client (api ("/pulls?state=" ++ state ++ "&per_page=10")) = Ret r ->
     status_code r <> 200%Z ->
     result (App.get_pull_requests rt deps github_url state) client
     = Ret ("Failed to get pull requests: " ++ text r))
  /\ (forall r1 r2,
     client (api "/git/trees/main?recursive=1") = Ret r1 ->
     status_code r1 <> 200%Z ->
     client (api "/git/trees/master?recursive=1") = Ret r2 ->
     status_code r2 <> 200%Z ->
     result (App.get_repo_structure rt deps github_url) client
     = Ret ("Failed to get repository structure: " ++ text r2)).
Proof.
  intros Hurl h api.
  repeat apply conj.
  - intros r Hr Hs. unfold App.get_repo_info, result. rewrite Hurl, invoke_get.
    fold h. rewrite Hr, (not_200 r Hs). reflexivity.
  - intros r Hr Hs. unfold App.get_file_content, result. rewrite Hurl, invoke_get.
    fold h. unfold api in Hr. rewrite Hr, (not_200 r Hs). reflexivity.
  - intros r Hr Hs. unfold App.get_issues, result. rewrite Hurl, invoke_get.
    fold h. unfold api in Hr. rewrite Hr, (not_200 r Hs). reflexivity.
  - intros r Hr Hs. unfold App.get_pull_requests, result. rewrite Hurl, invoke_get.
    fold h. unfold api in Hr. rewrite Hr, (not_200 r Hs). reflexivity.
  - intros r1 r2 Hr1 Hs1 Hr2 Hs2.
    unfold App.get_repo_structure, App.get_repo_structure_with, result.
    rewrite Hurl, invoke_get. fold h. unfold api in Hr1, Hr2.
    rewrite Hr1, (not_200 r1 Hs1).
    unfold Http.bind at 1, client_get at 1. rewrite Hr2, (not_200 r2 Hs2).
    reflexivity.
Qed.

Lemma C2_witness :
  Re.parse_github_url Sample.github_url = Some ("Zoyaaaaaaa", "DealDetective")
  /\ result (App.get_repo_structure Sample.rt Sample.deps Sample.github_url)
       Sample.all_404
     = Ret ("Failed to get repository structure: " ++ text Sample.not_found).
Proof.
  assert (Hurl : Re.parse_github_url Sample.github_url
                 = Some ("Zoyaaaaaaa", "DealDetective")) by (vm_compute; reflexivity).
  split.
  - exact Hurl.
  - apply (proj2 (proj2 (proj2 (proj2
             (C2_failed_status_string Sample.rt Sample.deps Sample.github_url
                "Zoyaaaaaaa" "DealDetective" "README.md" "open"
                Sample.all_404 Hurl))))
           Sample.not_found Sample.not_found);
      first [reflexivity | discriminate].
Defined.

(** C2 as the specification words it fails: the API answers the request
    for the tree of [main] with a 404, and [get_repo_structure] still
    returns a listing, taken from the tree of [master], not a "Failed to
    get" string. *)
Lemma C2_counterexample :
  Re.parse_github_url Sample.github_url = Some ("Zoyaaaaaaa", "DealDetective")
  /\ Sample.only_master (mkRequest Sample.main_url (App.auth_headers Sample.deps))
     = Ret Sample.not_found
  /\ status_code Sample.not_found <> 200%Z
  /\ invoke (App.get_repo_structure Sample.rt Sample.deps Sample.github_url)
       Sample.only_master
     = (Ret (App.file_icon ++ "README.md"),
        [mkRequest Sample.main_url (App.auth_headers Sample.deps);
         mkRequest Sample.master_url (App.auth_headers Sample.deps)])
  /\ startswith "Failed to get" (App.file_icon ++ "README.md") = false.
Proof.
  repeat apply conj; try (vm_compute; reflexivity).
  vm_compute. discriminate.
Qed.

(** ** The chat endpoint *)

(** C3, as the code has it.  A request whose body is a [ChatRequest] and
    whose [groq_token] is the empty string is answered with the
    [HTTPException] of status 400, before any agent is built or run.  A
    body that has no [groq_token] field is not a [ChatRequest]: it is
    answered 422 and the handler does not run. *)
Theorem C3_token_guard
    (get_github_agent : string -> Agent.Agent) (str_exn : exn -> string)
    (body : json) (request : Api.ChatRequest) (fields : list (string * json)) :
  Api.validate body = Some request ->
  Api.groq_token request = EmptyString ->
  lookup "groq_token" fields = None ->
  Api.post_api_chat get_github_agent str_exn body
    = Api.HTTPException 400 "Groq API token is required"
  /\ Api.http_status (Api.post_api_chat get_github_agent str_exn body) = 400%Z
  /\ Api.post_api_chat get_github_agent str_exn (JObj fields)
    = Api.RequestValidationError
  /\ Api.http_status (Api.post_api_chat get_github_agent str_exn (JObj fields)) = 422%Z.
Proof.
  intros Hbody Hempty Hfields.
  assert (H400 : Api.post_api_chat get_github_agent str_exn body
                 = Api.HTTPException 400 "Groq API token is required").
  { unfold Api.post_api_chat, Api.chat. rewrite Hbody, Hempty. reflexivity. }
  assert (H422 : Api.post_api_chat get_github_agent str_exn (JObj fields)
                 = Api.RequestValidationError).
  { unfold Api.post_api_chat, Api.validate, Api.required_str at 2.
    rewrite Hfields.
    destruct (Api.required_str "message" fields); [ | reflexivity].
    destruct (Api.optional_str "github_token" fields); reflexivity. }
  rewrite H400, H422. repeat apply conj; reflexivity.
Qed.

Lemma C3_witness :
  Api.validate Sample.body_empty_token
    = Some (Api.mkChatRequest "hello" None EmptyString (Some []))
  /\ Api.http_status
       (Api.post_api_chat (fun _ => Sample.echo) Sample.exn_text
          Sample.body_empty_token) = 400%Z.
Proof.
  split.
  - reflexivity.
  - exact (proj1 (proj2
      (C3_token_guard (fun _ => Sample.echo) Sample.exn_text
         Sample.body_empty_token
         (Api.mkChatRequest "hello" None EmptyString (Some []))
         [("message", JStr "hello"); ("history", JArr [])]
         eq_refl eq_refl eq_refl))).
Defined.

(** C3 as the specification words it fails: a request in which the
    token is absent from the body is answered 422, not 400. *)
Lemma C3_counterexample :
  lookup "groq_token" [("message", JStr "hello"); ("history", JArr [])] = None
  /\ Api.http_status
       (Api.post_api_chat (fun _ => Sample.echo) Sample.exn_text
          Sample.body_without_token) = 422%Z
  /\ Api.http_status
       (Api.post_api_chat (fun _ => Sample.echo) Sample.exn_text
          Sample.body_without_token) <> 400%Z.
Proof.
  repeat apply conj; try reflexivity.
  vm_compute. discriminate.
Qed.

(** ** White space and the sentinel *)

(** Every white-space character is removed at both ends, alone or in a
    row with others. *)
Example strip_every_space :
  forallb (fun w => String.eqb (strip (w ++ " " ++ w ++ "quit" ++ w ++ nl ++ w)) "quit")
    spaces = true.
Proof. vm_compute. reflexivity. Qed.

(** White space inside the text stays, and so do the characters that
    are no white space: U+200B, U+2060, U+FEFF, U+0084, U+00A1, U+1681 and
    U+3001, whose bytes begin like those of a white-space character. *)
Example strip_keeps_the_rest :
  strip (Sample.nbsp ++ "quit" ++ Sample.nbsp ++ "it" ++ Sample.wide_space)
  = "quit" ++ Sample.nbsp ++ "it"
  /\ forallb (fun bytes =>
                let c := string_of_list_ascii (map ascii_of_nat bytes) in
                String.eqb (strip (c ++ " quit " ++ c)) (c ++ " quit " ++ c))
       [[226; 128; 139]; [226; 129; 160]; [239; 187; 191]; [194; 132];
        [194; 161]; [225; 154; 129]; [227; 128; 129]; [195; 169]]%nat = true.
Proof. vm_compute. split; reflexivity. Qed.

(** The characters of a text, over one, two, three and four bytes. *)
Example chars_sample :
  chars ("a" ++ Sample.nbsp ++ Sample.wide_space ++ App.dir_icon)
  = ["a"; Sample.nbsp; Sample.wide_space;
     string_of_list_ascii (map ascii_of_nat [240; 159; 147; 129]); " "].
Proof. vm_compute. reflexivity. Qed.

Lemma lower_char_letter (a : ascii) (small capital : ascii) :
  In (small, capital)
    [("q", "Q"); ("u", "U"); ("i", "I"); ("t", "T")]%char ->
  lower_char a = small -> a = small \/ a = capital.
Proof.
  intros Hin Hlower.
  destruct a as [[] [] [] [] [] [] [] []];
    vm_compute in Hlower;
    repeat (destruct Hin as [Hin | Hin];
            [injection Hin as <- <-;
             first [discriminate Hlower | now left | now right] | ]);
    contradiction.
Qed.

(** The texts whose lower case is "quit" are its sixteen spellings. *)
Lemma is_quit_spellings (s : string) :
  Cli.is_quit s = true <->
  exists q u i t : ascii,
    s = String q (String u (String i (String t EmptyString)))
    /\ (q = "q" \/ q = "Q")%char /\ (u = "u" \/ u = "U")%char
    /\ (i = "i" \/ i = "I")%char /\ (t = "t" \/ t = "T")%char.
Proof.
  unfold Cli.is_quit. rewrite String.eqb_eq. split.
  - destruct s as [ | q [ | u [ | i [ | t [ | ? ?]]]]]; try discriminate.
    cbn [lower]. intros H. injection H as Hq Hu Hi Ht.
    exists q, u, i, t. split; [reflexivity | ].
    repeat apply conj;
      (eapply lower_char_letter; [ | eassumption]); cbn; tauto.
  - intros [q [u [i [t [-> [Hq [Hu [Hi Ht]]]]]]]].
    destruct Hq as [-> | ->], Hu as [-> | ->], Hi as [-> | ->], Ht as [-> | ->];
      reflexivity.
Qed.

(** ** The CLI loop *)

Section CliLoop.
Variable github_agent : Agent.Agent.
Variable deps : App.GitHubDeps.

Local Abbreviation chat_loop := (Cli.chat_loop github_agent deps).

(** Reading the sentinel: the loop breaks at once, with the object as it
    was and the rest of the input unread. *)
Lemma chat_loop_quit (q : string) (post : list string) (self : Cli.CLI) :
  Cli.is_quit (strip q) = true ->
  chat_loop (q :: post) self = (self, post, Cli.Break).
Proof. intros Hq. simpl. rewrite Hq. reflexivity. Qed.

(** One turn that the agent completes. *)
Lemma chat_loop_turn (line : string) (rest : list string) (self : Cli.CLI)
    (result : Agent.RunResult) :
  Cli.is_quit (strip line) = false ->
  github_agent (strip line) deps (Cli.messages self) = Ret result ->
  chat_loop (line :: rest) self =
  chat_loop rest
    (Cli.mkCLI
       (Cli.messages self
        ++ [Agent.ModelRequest [Agent.UserPromptPart (strip line)]]
        ++ filter (fun msg => negb (Cli.is_prompt_or_text msg))
             (Agent.new_messages result)
        ++ [Agent.ModelResponse [Agent.TextPart (Agent.data result)]])
       (Cli.printed self ++ [Agent.data result])
       (Cli.calls self ++ [(strip line, Cli.messages self)]))%list.
Proof.
  intros Hline Hrun. simpl. rewrite Hline. simpl. rewrite Hrun.
  rewrite <- !app_assoc. reflexivity.
Qed.

(** One turn in which the agent raises. *)
Lemma chat_loop_raise (line : string) (rest : list string) (self : Cli.CLI)
    (e : exn) :
  Cli.is_quit (strip line) = false ->
  github_agent (strip line) deps (Cli.messages self) = Raise e ->
  chat_loop (line :: rest) self =
  (Cli.mkCLI (Cli.messages self) (Cli.printed self)
     (Cli.calls self ++ [(strip line, Cli.messages self)])%list,
   rest, Cli.Raised e).
Proof.
  intros Hline Hrun. simpl. rewrite Hline. simpl. rewrite Hrun. reflexivity.
Qed.

(** The stored history only grows at its end. *)
Lemma chat_loop_extends (stdin : list string) :
  forall self : Cli.CLI,
  exists suffix,
    Cli.messages (fst (fst (chat_loop stdin self)))
    = (Cli.messages self ++ suffix)%list.
Proof.
  induction stdin as [ | line rest IH]; intros self.
  - exists []. simpl. now rewrite app_nil_r.
  - destruct (Cli.is_quit (strip line)) eqn:Hline.
    + rewrite chat_loop_quit by assumption. exists []. simpl. now rewrite app_nil_r.
    + destruct (github_agent (strip line) deps (Cli.messages self))
        as [result | e] eqn:Hrun.
      * rewrite (chat_loop_turn line rest self result Hline Hrun).
        match goal with
        | |- context [chat_loop rest ?s] => destruct (IH s) as [suffix Hs]
        end.
        rewrite Hs. simpl Cli.messages. rewrite <- app_assoc.
        eexists. reflexivity.
      * rewrite (chat_loop_raise line rest self e Hline Hrun).
        exists []. simpl. now rewrite app_nil_r.
Qed.

(** The lines before the first sentinel: either every one of them gets
    its agent call and the loop breaks at the sentinel, or the agent
    raises at one of them and the loop is left there. *)
Lemma chat_loop_until_quit (q : string) (post : list string) :
  Cli.is_quit (strip q) = true ->
  forall (pre : list string) (self : Cli.CLI),
  Forall (fun line => Cli.is_quit (strip line) = false) pre ->
  (exists self',
     chat_loop (pre ++ q :: post) self = (self', post, Cli.Break)
     /\ map fst (Cli.calls self')
        = (map fst (Cli.calls self) ++ map strip pre)%list)
  \/ (exists self' e n,
     (n < length pre)%nat
     /\ chat_loop (pre ++ q :: post) self
        = (self', (skipn (S n) pre ++ q :: post)%list, Cli.Raised e)
     /\ map fst (Cli.calls self')
        = (map fst (Cli.calls self) ++ map strip (firstn (S n) pre))%list).
Proof.
  intros Hq pre.
  induction pre as [ | line pre IH]; intros self Hpre.
  - left. exists self. simpl app. rewrite chat_loop_quit by assumption.
    split; [reflexivity | ]. simpl. now rewrite app_nil_r.
  - inversion Hpre as [ | ? ? Hline Hrest]; subst.
    rewrite <- app_comm_cons.
    destruct (github_agent (strip line) deps (Cli.messages self))
      as [result | e] eqn:Hrun.
    + rewrite (chat_loop_turn line _ self result Hline Hrun).
      match goal with
      | |- context [chat_loop _ ?s] => destruct (IH s Hrest) as
            [[self' [Hrun' Hcalls]] | [self' [e [n [Hn [Hrun' Hcalls]]]]]]
      end.
      * left. exists self'. split; [exact Hrun' | ].
        rewrite Hcalls. simpl Cli.calls. rewrite map_app, <- app_assoc.
        reflexivity.
      * right. exists self', e, (S n). split; [simpl; lia | ].
        split; [exact Hrun' | ].
        rewrite Hcalls. simpl Cli.calls. rewrite map_app, <- app_assoc.
        reflexivity.
    + right.
      exists (Cli.mkCLI (Cli.messages self) (Cli.printed self)
                (Cli.calls self ++ [(strip line, Cli.messages self)])%list), e, 0%nat.
      split; [simpl; lia | ].
      split; [apply chat_loop_raise; assumption | ].
      simpl. rewrite map_app. reflexivity.
Qed.

End CliLoop.

(** C6.  Let [q] be the first line of the input whose stripped,
    lowercased form is "quit".  Reading [q] ends the loop on the spot:
    the object is left as it was, so no agent call is made for [q], and
    the lines after [q] stay unread.  On the whole input, the loop either
    breaks at [q] after one agent call for each earlier line, or is left
    earlier by an exception of the agent; in both cases the agent calls
    are for lines before [q] only.  The loop is a total function of the
    input lines. *)
Theorem C6_quit_sentinel_ends_loop
    (github_agent : Agent.Agent) (deps : App.GitHubDeps)
    (pre : list string) (q : string) (post : list string) (self : Cli.CLI) :
  Cli.is_quit (strip q) = true ->
  Forall (fun line => Cli.is_quit (strip line) = false) pre ->
  (forall self0, Cli.chat_loop github_agent deps (q :: post) self0
                 = (self0, post, Cli.Break))
  /\ ((exists self',
         Cli.chat_loop github_agent deps (pre ++ q :: post) self
         = (self', post, Cli.Break)
         /\ map fst (Cli.calls self')
            = (map fst (Cli.calls self) ++ map strip pre)%list)
      \/ (exists self' e n,
         (n < length pre)%nat
         /\ Cli.chat_loop github_agent deps (pre ++ q :: post) self
            = (self', (skipn (S n) pre ++ q :: post)%list, Cli.Raised e)
         /\ map fst (Cli.calls self')
            = (map fst (Cli.calls self) ++ map strip (firstn (S n) pre))%list)).
Proof.
  intros Hq Hpre. split.
  - intros self0. apply chat_loop_quit. exact Hq.
  - apply chat_loop_until_quit; assumption.
Qed.

(** A sentinel between a no-break space, a tabulation and an ideographic
    space, after three lines that are none: the last of them holds a
    character that is not white space. *)
Lemma C6_witness :
  Cli.is_quit (strip (Sample.nbsp ++ "  QUIT" ++ Sample.wide_space)) = true
  /\ Forall (fun line => Cli.is_quit (strip line) = false)
       ["hello"; " quit it "; Sample.zero_width_space ++ "quit"]
  /\ Cli.chat_loop Sample.echo Sample.deps
       [Sample.nbsp ++ "  QUIT" ++ Sample.wide_space; "never read"]
       (Cli.mkCLI [] [] [])
     = (Cli.mkCLI [] [] [], ["never read"], Cli.Break).
Proof.
  assert (Hq : Cli.is_quit (strip (Sample.nbsp ++ "  QUIT" ++ Sample.wide_space))
               = true) by reflexivity.
  assert (Hpre : Forall (fun line => Cli.is_quit (strip line) = false)
                   ["hello"; " quit it "; Sample.zero_width_space ++ "quit"])
    by (repeat constructor).
  split; [exact Hq | split; [exact Hpre | ]].
  exact (proj1 (C6_quit_sentinel_ends_loop Sample.echo Sample.deps
                  ["hello"; " quit it "; Sample.zero_width_space ++ "quit"]
                  (Sample.nbsp ++ "  QUIT" ++ Sample.wide_space) ["never read"]
                  (Cli.mkCLI [] [] []) Hq Hpre) (Cli.mkCLI [] [] [])).
Defined.

(** A run of the loop on three lines and the sentinel: two turns are
    stored, the agent's failure on the third line leaves the loop. *)
Example chat_run_sample :
  let '(self, unread, exit) :=
    Cli.chat Sample.echo Sample.deps ["hi "; "quit?"; "boom"; "quit"; "late"] in
  map fst (Cli.calls self) = ["hi"; "quit?"; "boom"]
  /\ unread = ["quit"; "late"]
  /\ exit = Cli.Raised (AgentError "boom")
  /\ length (Cli.messages self) = 8%nat.
Proof. vm_compute. repeat split. Qed.

(** ** The order of the history *)

(** The conversion loop appends, entry by entry, what the entries stand
    for: the messages already there stay in front. *)
Lemma convert_history_in_order (entries : list Api.Entry) :
  forall acc out,
  Api.convert_history entries acc = Ret out ->
  out = (acc ++ Api.in_order entries)%list.
Proof.
  induction entries as [ | msg entries IH]; intros acc out Hrun; simpl in Hrun.
  - injection Hrun as <-. simpl. now rewrite app_nil_r.
  - unfold Api.in_order. simpl flat_map. fold (Api.in_order entries).
    unfold Api.role_tagged.
    destruct (Api.entry_get "role" msg) as [role | e]; simpl in Hrun;
      [ | discriminate Hrun].
    destruct (String.eqb role "user").
    + destruct (Api.entry_get "content" msg) as [c | e]; simpl in Hrun;
        [ | discriminate Hrun].
      apply IH in Hrun. rewrite Hrun, <- app_assoc. reflexivity.
    + destruct (String.eqb role "assistant").
      * destruct (Api.entry_get "content" msg) as [c | e]; simpl in Hrun;
          [ | discriminate Hrun].
        apply IH in Hrun. rewrite Hrun, <- app_assoc. reflexivity.
      * apply IH in Hrun. rewrite Hrun.
        destruct (Api.entry_get "content" msg); reflexivity.
Qed.

(** The conversion returns when every entry has its two keys. *)
Lemma convert_history_returns (entries : list Api.Entry) :
  Forall (fun msg => exists role c, Api.entry_get "role" msg = Ret role
                                    /\ Api.entry_get "content" msg = Ret c) entries ->
  forall acc, exists out, Api.convert_history entries acc = Ret out.
Proof.
  induction 1 as [ | msg entries [role [c [Hrole Hc]]] _ IH]; intros acc; simpl.
  - eexists. reflexivity.
  - rewrite Hrole, Hc. simpl.
    destruct (String.eqb role "user"); [apply IH | ].
    destruct (String.eqb role "assistant"); apply IH.
Qed.

(** C7.  The handler of /api/chat gives the agent the messages of
    [request.history] in the order of the entries: every entry tagged
    [user] or [assistant] becomes one message, at its place, and nothing
    else is added.  A completed turn of the CLI stores the earlier
    history, then the user message, then the intermediate messages in
    the order the agent produced them, then the final response; over a
    whole run the stored history at the start is a prefix of the one at
    the end. *)
Theorem C7_history_order_preserved
    (get_github_agent : string -> Agent.Agent) (str_exn : exn -> string)
    (github_agent : Agent.Agent) (deps : App.GitHubDeps)
    (request : Api.ChatRequest) (entries : list Api.Entry)
    (out : list Agent.ModelMessage)
    (line : string) (rest stdin : list string) (self : Cli.CLI)
    (result : Agent.RunResult) :
  Api.history request = Some entries ->
  Api.convert_history entries [] = Ret out ->
  Api.groq_token request <> EmptyString ->
  Cli.is_quit (strip line) = false ->
  github_agent (strip line) deps (Cli.messages self) = Ret result ->
  out = Api.in_order entries
  /\ Api.chat get_github_agent str_exn request
     = match get_github_agent (Api.groq_token request) (Api.message request)
               (App.mkDeps (Api.github_token request)) (Api.in_order entries) with
       | Ret r => Api.Success (Api.mkChatResponse (Agent.data r)
                                 (Api.extract_tool_calls (Agent.new_messages r)))
       | Raise e => Api.HTTPException 500 (str_exn e)
       end
  /\ Cli.chat_loop github_agent deps (line :: rest) self
     = Cli.chat_loop github_agent deps rest
         (Cli.mkCLI
            (Cli.messages self
             ++ [Agent.ModelRequest [Agent.UserPromptPart (strip line)]]
             ++ filter (fun msg => negb (Cli.is_prompt_or_text msg))
                  (Agent.new_messages result)
             ++ [Agent.ModelResponse [Agent.TextPart (Agent.data result)]])
            (Cli.printed self ++ [Agent.data result])
            (Cli.calls self ++ [(strip line, Cli.messages self)]))%list
  /\ exists suffix,
       Cli.messages (fst (fst (Cli.chat_loop github_agent deps stdin self)))
       = (Cli.messages self ++ suffix)%list.
Proof.
  intros Hhist Hconv Htoken Hline Hrun.
  assert (Hout : out = Api.in_order entries)
    by (apply (convert_history_in_order entries [] out Hconv)).
  repeat apply conj.
  - exact Hout.
  - unfold Api.chat.
    apply String.eqb_neq in Htoken. rewrite Htoken.
    rewrite Hhist. unfold Api.message_history_of. rewrite Hconv, <- Hout.
    reflexivity.
  - apply chat_loop_turn; assumption.
  - apply chat_loop_extends.
Qed.

Lemma C7_witness :
  Api.convert_history Sample.history []
  = Ret [Agent.ModelRequest [Agent.UserPromptPart "What is this repository about?"];
         Agent.ModelResponse [Agent.TextPart "A price tracker."];
         Agent.ModelRequest [Agent.UserPromptPart "Who owns it?"]]
  /\ Api.in_order Sample.history
     = [Agent.ModelRequest [Agent.UserPromptPart "What is this repository about?"];
        Agent.ModelResponse [Agent.TextPart "A price tracker."];
        Agent.ModelRequest [Agent.UserPromptPart "Who owns it?"]].
Proof.
  split.
  - reflexivity.
  - symmetry.
    exact (proj1 (C7_history_order_preserved (fun _ => Sample.echo) Sample.exn_text
                    Sample.echo Sample.deps
                    (Api.mkChatRequest "And the license?" None "gsk_123"
                       (Some Sample.history))
                    Sample.history _ " hi " ["quit"] ["hi"; "quit"]
                    (Cli.mkCLI [] [] [])
                    (Agent.mkRunResult
                       [Agent.ModelRequest [Agent.UserPromptPart "hi"];
                        Agent.ModelResponse
                          [Agent.mkPart "tool-call" "get_repo_info"
                             (Some ("get_repo_info", "{}"))];
                        Agent.ModelRequest
                          [Agent.mkPart "tool-return" "Repository: a/b" None];
                        Agent.ModelResponse [Agent.TextPart "You said hi"]]
                       "You said hi")
                    eq_refl eq_refl
                    ltac:(discriminate) eq_refl eq_refl)).
Defined.

(** ** The listing of [get_repo_structure] *)

Lemma bind_lift_ret {A B} (c : outcome A) (a : A) (k : A -> Tool B)
    (client : Client) (log : list Request) :
  c = Ret a -> Http.bind (lift c) k client log = k a client log.
Proof. intros ->. reflexivity. Qed.

Lemma bind_lift_raise {A B} (c : outcome A) (e : exn) (k : A -> Tool B)
    (client : Client) (log : list Request) :
  c = Raise e -> Http.bind (lift c) k client log = (Raise e, log).
Proof. intros ->. reflexivity. Qed.

Lemma any_in_excluded (path : string) :
  App.any_in App.excluded_parts (JStr path) = Ret (App.excluded path).
Proof.
  unfold App.excluded, App.excluded_parts. simpl.
  destruct (contains ".git/" path); [reflexivity | ].
  destruct (contains "node_modules/" path); [reflexivity | ].
  destruct (contains "__pycache__/" path); reflexivity.
Qed.

Section Listing.
Variable rt : Runtime.
Variables dir_icon file_icon : string.

(** The loop appends one line for each kept item, in the order of the
    tree, and nothing for the others. *)
Lemma build_structure_listing (items : list json) (entries : list (string * json)) :
  Forall2 App.tree_item items entries ->
  forall structure,
  App.build_structure rt dir_icon file_icon items structure
  = Ret (structure
         ++ map (App.listed dir_icon file_icon) (filter App.kept entries))%list.
Proof.
  induction 1 as [ | item entry items entries [Hpath Htype] _ IH];
    intros structure; cbn [App.build_structure].
  - simpl. now rewrite app_nil_r.
  - rewrite Hpath. cbn [obind]. rewrite any_in_excluded. cbn [obind].
    cbn [filter]. unfold App.kept at 1.
    destruct (App.excluded (fst entry)); cbn [negb].
    + apply IH.
    + rewrite Htype. cbn [obind App.fmt]. rewrite IH, <- app_assoc. reflexivity.
Qed.

(** The tool on the 200 answer it reads. *)
Lemma get_repo_structure_on_answer (deps : App.GitHubDeps)
    (github_url owner repo : string) (client : Client) (response : Response)
    (k : outcome string) :
  Re.parse_github_url github_url = Some (owner, repo) ->
  App.tree_answer client deps owner repo response ->
  (forall log,
     fst (Http.bind (lift (response_json response)) (fun data =>
          Http.bind (lift (subscript data "tree")) (fun tree =>
          Http.bind (lift (iter tree)) (fun items =>
          Http.bind (lift (App.build_structure rt dir_icon file_icon items []))
            (fun structure => ret (join nl structure))))) client log) = k) ->
  result (App.get_repo_structure_with rt dir_icon file_icon deps github_url) client = k.
Proof.
  intros Hurl [H200 Hanswer] Hk.
  unfold App.get_repo_structure_with, result. rewrite Hurl, invoke_get.
  destruct Hanswer as [Hmain | [first [Hmain [Hfirst Hmaster]]]]; rewrite Hmain.
  - rewrite H200. simpl negb. cbv iota. apply Hk.
  - rewrite (not_200 first Hfirst).
    unfold Http.bind at 1, client_get at 1. rewrite Hmaster, H200.
    simpl negb. cbv iota. apply Hk.
Qed.

Lemma get_repo_structure_listing (deps : App.GitHubDeps)
    (github_url owner repo : string) (client : Client) (response : Response)
    (data : json) (items : list json) (entries : list (string * json)) :
  Re.parse_github_url github_url = Some (owner, repo) ->
  App.tree_answer client deps owner repo response ->
  body_json response = Some data ->
  subscript data "tree" = Ret (JArr items) ->
  Forall2 App.tree_item items entries ->
  result (App.get_repo_structure_with rt dir_icon file_icon deps github_url) client
  = Ret (join nl (map (App.listed dir_icon file_icon) (filter App.kept entries))).
Proof.
  intros Hurl Hanswer Hbody Htree Hitems.
  apply (get_repo_structure_on_answer deps github_url owner repo client response _
           Hurl Hanswer).
  intros log.
  rewrite (bind_lift_ret _ data) by (unfold response_json; now rewrite Hbody).
  rewrite (bind_lift_ret _ _ _ _ _ Htree).
  rewrite (bind_lift_ret _ items) by reflexivity.
  rewrite (bind_lift_ret _ _ _ _ _ (build_structure_listing items entries Hitems [])).
  reflexivity.
Qed.

End Listing.

(** *** The lines of a listing *)

Lemma contains_nl_cons (a : ascii) (w : string) :
  contains nl (String a w) = Ascii.eqb a "010"%char || contains nl w.
Proof.
  cbn [contains nl startswith]. rewrite Ascii.eqb_sym.
  destruct (Ascii.eqb a "010"%char); reflexivity.
Qed.

Lemma contains_nl_append (u w : string) :
  contains nl u = false -> contains nl w = false -> contains nl (u ++ w) = false.
Proof.
  intros Hu Hw. induction u as [ | a u IH]; [exact Hw | ].
  rewrite contains_nl_cons in Hu. apply orb_false_elim in Hu as [Ha Hu].
  cbn [append]. rewrite contains_nl_cons, Ha. now apply IH.
Qed.

Lemma split_nl_line (w : string) : contains nl w = false -> split_nl w = [w].
Proof.
  induction w as [ | a w IH]; [reflexivity | ].
  rewrite contains_nl_cons. intros H. apply orb_false_elim in H as [Ha Hw].
  cbn [split_nl]. rewrite Ha, (IH Hw). reflexivity.
Qed.

Lemma split_nl_append (w s : string) :
  contains nl w = false -> split_nl (w ++ nl ++ s) = w :: split_nl s.
Proof.
  induction w as [ | a w IH]; [reflexivity | ].
  rewrite contains_nl_cons. intros H. apply orb_false_elim in H as [Ha Hw].
  cbn [append split_nl]. rewrite Ha.
  change (w ++ String "010"%char s) with (w ++ nl ++ s).
  rewrite (IH Hw). reflexivity.
Qed.

(** Splitting a joined text at the newlines gives the lines back, when
    there is a line and no line holds a newline. *)
Lemma split_nl_join (l : list string) :
  forall x, Forall (fun w => contains nl w = false) (x :: l) ->
  split_nl (join nl (x :: l)) = x :: l.
Proof.
  induction l as [ | y l IH]; intros x Hall; inversion Hall as [ | ? ? Hx Hrest]; subst.
  - now apply split_nl_line.
  - change (join nl (x :: y :: l)) with (x ++ nl ++ join nl (y :: l)).
    rewrite (split_nl_append x _ Hx), (IH y Hrest). reflexivity.
Qed.

(** [split("\n")] never returns the empty list. *)
Lemma split_nl_not_nil (s : string) : split_nl s <> [].
Proof.
  destruct s as [ | a s]; cbn [split_nl]; [discriminate | ].
  destruct (Ascii.eqb a "010"%char); [discriminate | ].
  destruct (split_nl s); discriminate.
Qed.

(** The lines of two texts joined by a newline are the lines of the
    first, then the lines of the second. *)
Lemma split_nl_app (u v : string) :
  split_nl (u ++ nl ++ v) = (split_nl u ++ split_nl v)%list.
Proof.
  induction u as [ | a u IH]; [reflexivity | ].
  cbn [append split_nl] in *. rewrite IH.
  destruct (Ascii.eqb a "010"%char); [reflexivity | ].
  destruct (split_nl u) as [ | line lines] eqn:Hu; [ | reflexivity].
  now apply split_nl_not_nil in Hu.
Qed.

(** A text without newline that was joined is one of the lines of the
    joined text, whatever the other texts hold. *)
Lemma split_nl_join_in (x : string) (l : list string) :
  In x l -> contains nl x = false -> In x (split_nl (join nl l)).
Proof.
  intros Hin Hx. induction l as [ | y l IH]; [contradiction | ].
  destruct l as [ | z l].
  - destruct Hin as [-> | []]. cbn [join]. rewrite (split_nl_line x Hx). now left.
  - change (join nl (y :: z :: l)) with (y ++ nl ++ join nl (z :: l)).
    rewrite split_nl_app. apply in_or_app.
    destruct Hin as [-> | Hin].
    + left. rewrite (split_nl_line x Hx). now left.
    + right. now apply IH.
Qed.

(** The text of an item holds no newline when its path holds none. *)
Lemma listed_one_line (dir_icon file_icon : string) (entry : string * json) :
  contains nl dir_icon = false -> contains nl file_icon = false ->
  contains nl (fst entry) = false ->
  contains nl (App.listed dir_icon file_icon entry) = false.
Proof.
  intros Hd Hf Hpath. unfold App.listed.
  destruct (is_str "tree" (snd entry)); now apply contains_nl_append.
Qed.

(** The lines of a listing are the texts of its items, one each, when
    there is an item and no path holds a newline. *)
Lemma split_nl_listing (dir_icon file_icon : string) (kept : list (string * json)) :
  contains nl dir_icon = false -> contains nl file_icon = false ->
  kept <> [] ->
  Forall (fun entry => contains nl (fst entry) = false) kept ->
  split_nl (join nl (map (App.listed dir_icon file_icon) kept))
  = map (App.listed dir_icon file_icon) kept.
Proof.
  intros Hd Hf Hkept Hplain.
  destruct kept as [ | entry kept]; [contradiction | ].
  cbn [map]. apply split_nl_join.
  change (Forall (fun w => contains nl w = false)
            (map (App.listed dir_icon file_icon) (entry :: kept))).
  apply Forall_map. eapply Forall_impl; [ | exact Hplain].
  intros e He. now apply listed_one_line.
Qed.

(** C8, as the code has it.  For a well-formed URL and a 200 tree answer
    whose [tree] is a list of items with a string [path] and a [type],
    the string [get_repo_structure] returns is the texts of the kept
    items joined by newlines: one text (icon, then path) for each item
    whose path contains none of ".git/", "node_modules/",
    "__pycache__/", in the order of the answer, and nothing for the
    other items.  When an item is kept and no kept path holds a newline,
    the lines of the returned string are these texts, one line for each
    kept item; when no item is kept, the returned string is empty.  The
    copies in [github_agent.py] and [cli.py] do the same, the latter
    with its own icons. *)
Theorem C8_structure_lines
    (rt : Runtime) (deps : App.GitHubDeps)
    (github_url owner repo : string) (client : Client) (response : Response)
    (data : json) (items : list json) (entries : list (string * json)) :
  Re.parse_github_url github_url = Some (owner, repo) ->
  App.tree_answer client deps owner repo response ->
  body_json response = Some data ->
  subscript data "tree" = Ret (JArr items) ->
  Forall2 App.tree_item items entries ->
  let kept := filter (fun entry => negb (App.excluded (fst entry))) entries in
  let lines := map (App.listed App.dir_icon App.file_icon) kept in
  let cli_lines := map (App.listed Cli.dir_icon Cli.file_icon) kept in
  result (App.get_repo_structure rt deps github_url) client = Ret (join nl lines)
  /\ result (GithubAgent.get_repo_structure rt deps github_url) client
     = Ret (join nl lines)
  /\ result (Cli.get_repo_structure rt deps github_url) client
     = Ret (join nl cli_lines)
  /\ (kept <> [] ->
      Forall (fun entry => contains nl (fst entry) = false) kept ->
      split_nl (join nl lines) = lines
      /\ split_nl (join nl cli_lines) = cli_lines)
  /\ (kept = [] ->
      join nl lines = EmptyString /\ join nl cli_lines = EmptyString).
Proof.
  intros Hurl Hanswer Hbody Htree Hitems kept lines cli_lines.
  repeat apply conj;
    try apply (get_repo_structure_listing rt _ _ deps github_url owner repo client
                 response data items entries Hurl Hanswer Hbody Htree Hitems).
  - intros Hkept Hplain. split; now apply split_nl_listing.
  - intros Hkept. unfold lines, cli_lines. rewrite Hkept. split; reflexivity.
Qed.

Lemma C8_witness :
  Re.parse_github_url Sample.github_url = Some ("Zoyaaaaaaa", "DealDetective")
  /\ Forall2 App.tree_item
       [Sample.readme_item; Sample.src_item; Sample.cache_item]
       [("README.md", JStr "blob"); ("src", JStr "tree");
        ("src/__pycache__/app.pyc", JStr "blob")]
  /\ result (App.get_repo_structure Sample.rt Sample.deps Sample.github_url)
       Sample.with_full_tree
     = Ret (App.file_icon ++ "README.md" ++ nl ++ App.dir_icon ++ "src")
  /\ split_nl (App.file_icon ++ "README.md" ++ nl ++ App.dir_icon ++ "src")
     = [App.file_icon ++ "README.md"; App.dir_icon ++ "src"].
Proof.
  assert (Hurl : Re.parse_github_url Sample.github_url
                 = Some ("Zoyaaaaaaa", "DealDetective")) by (vm_compute; reflexivity).
  assert (Hitems : Forall2 App.tree_item
                     [Sample.readme_item; Sample.src_item; Sample.cache_item]
                     [("README.md", JStr "blob"); ("src", JStr "tree");
                      ("src/__pycache__/app.pyc", JStr "blob")])
    by (repeat constructor).
  split; [exact Hurl | split; [exact Hitems | ]].
  destruct (C8_structure_lines Sample.rt Sample.deps Sample.github_url
              "Zoyaaaaaaa" "DealDetective" Sample.with_full_tree
              Sample.full_tree _ _ _ Hurl
              (conj eq_refl (or_introl eq_refl)) eq_refl eq_refl Hitems)
    as [Hresult [_ [_ [Hlines _]]]].
  split; [exact Hresult | ].
  apply Hlines; [discriminate | repeat constructor].
Defined.

(** C8 as the claim words it fails: Git allows a newline in a file name,
    and for a 200 tree answer with one item, whose path holds a newline
    and none of the excluded parts, the returned string has two lines
    for the one item. *)
Lemma C8_counterexample :
  Re.parse_github_url Sample.github_url = Some ("Zoyaaaaaaa", "DealDetective")
  /\ status_code Sample.newline_tree = 200%Z
  /\ body_json Sample.newline_tree
     = Some (JObj [("sha", JStr "9fb037999f264ba9a7fc6274d15fa3ae2ab98312");
                   ("tree",
                    JArr [JObj [("path", JStr ("notes" ++ nl ++ "2024.md"));
                                ("mode", JStr "100644"); ("type", JStr "blob")]]);
                   ("truncated", JBool false)])
  /\ App.excluded ("notes" ++ nl ++ "2024.md") = false
  /\ invoke (App.get_repo_structure Sample.rt Sample.deps Sample.github_url)
       Sample.with_newline_tree
     = (Ret (App.file_icon ++ "notes" ++ nl ++ "2024.md"),
        [mkRequest Sample.main_url (App.auth_headers Sample.deps)])
  /\ split_nl (App.file_icon ++ "notes" ++ nl ++ "2024.md")
     = [App.file_icon ++ "notes"; "2024.md"].
Proof. repeat apply conj; vm_compute; reflexivity. Qed.

(** ** Issues and pull requests *)

Lemma str_in_object (k : string) (item : json) :
  App.is_object item -> str_in k item = Ret (App.has_key k item).
Proof. intros [fields ->]. reflexivity. Qed.

Section Issues.
Variable rt : Runtime.

(** The loop of [get_issues] appends the blocks of the items that have no
    [pull_request] key, in the order of the answer. *)
Lemma collect_issues_blocks (items : list json) :
  Forall App.is_object items ->
  forall blocks result,
  Forall2 (fun item block => App.summary_block rt item = Ret block)
    (filter (fun item => negb (App.has_key "pull_request" item)) items) blocks ->
  App.collect_issues rt items result = Ret (result ++ blocks)%list.
Proof.
  induction 1 as [ | item items Hobj _ IH]; intros blocks result Hblocks.
  - inversion Hblocks. simpl. now rewrite app_nil_r.
  - cbn [App.collect_issues]. rewrite (str_in_object _ _ Hobj). cbn [obind].
    cbn [filter] in Hblocks.
    destruct (App.has_key "pull_request" item); cbn [negb] in Hblocks.
    + apply IH. exact Hblocks.
    + inversion Hblocks as [ | ? block ? blocks' Hblock Hrest]; subst.
      rewrite Hblock. cbn [obind]. rewrite (IH blocks' _ Hrest), <- app_assoc.
      reflexivity.
Qed.

(** The loop of [get_pull_requests] appends a block for every item. *)
Lemma collect_prs_blocks (items : list json) :
  forall blocks result,
  Forall2 (fun item block => App.summary_block rt item = Ret block) items blocks ->
  App.collect_prs rt items result = Ret (result ++ blocks)%list.
Proof.
  induction items as [ | item items IH]; intros blocks result Hblocks;
    inversion Hblocks as [ | ? block ? blocks' Hblock Hrest]; subst.
  - simpl. now rewrite app_nil_r.
  - cbn [App.collect_prs]. rewrite Hblock. cbn [obind].
    rewrite (IH blocks' _ Hrest), <- app_assoc. reflexivity.
Qed.

(** [get_issues] on a 200 answer that is a list of objects. *)
Lemma get_issues_on_list (deps : App.GitHubDeps)
    (github_url owner repo state : string) (client : Client) (response : Response)
    (items : list json) (blocks : list string) :
  Re.parse_github_url github_url = Some (owner, repo) ->
  client (mkRequest ("https://api.github.com/repos/" ++ owner ++ "/" ++ repo
                     ++ "/issues?state=" ++ state ++ "&per_page=10")
            (App.auth_headers deps)) = Ret response ->
  status_code response = 200%Z ->
  body_json response = Some (JArr items) ->
  Forall App.is_object items ->
  Forall2 (fun item block => App.summary_block rt item = Ret block)
    (filter (fun item => negb (App.has_key "pull_request" item)) items) blocks ->
  result (App.get_issues rt deps github_url state) client
  = Ret (match items, blocks with
         | [], _ => "No " ++ state ++ " issues found."
         | _, [] => "No " ++ state ++ " issues found (excluding PRs)."
         | _, _ => join nl blocks
         end).
Proof.
  intros Hurl Hclient H200 Hbody Hobjects Hblocks.
  unfold App.get_issues, result. rewrite Hurl, invoke_get, Hclient, H200.
  cbn [Z.eqb Pos.eqb negb].
  rewrite (bind_lift_ret _ (JArr items))
    by (unfold response_json; now rewrite Hbody).
  destruct items as [ | item items]; [reflexivity | ].
  cbn [truthy negb].
  rewrite (bind_lift_ret _ (item :: items)) by reflexivity.
  rewrite (bind_lift_ret _ _ _ _ _
             (collect_issues_blocks (item :: items) Hobjects blocks [] Hblocks)).
  destruct blocks; reflexivity.
Qed.

(** [get_pull_requests] on a 200 answer that is a list. *)
Lemma get_pull_requests_on_list (deps : App.GitHubDeps)
    (github_url owner repo state : string) (client : Client) (response : Response)
    (items : list json) (blocks : list string) :
  Re.parse_github_url github_url = Some (owner, repo) ->
  client (mkRequest ("https://api.github.com/repos/" ++ owner ++ "/" ++ repo
                     ++ "/pulls?state=" ++ state ++ "&per_page=10")
            (App.auth_headers deps)) = Ret response ->
  status_code response = 200%Z ->
  body_json response = Some (JArr items) ->
  Forall2 (fun item block => App.summary_block rt item = Ret block) items blocks ->
  result (App.get_pull_requests rt deps github_url state) client
  = Ret (match items with
         | [] => "No " ++ state ++ " pull requests found."
         | _ => join nl blocks
         end).
Proof.
  intros Hurl Hclient H200 Hbody Hblocks.
  unfold App.get_pull_requests, result. rewrite Hurl, invoke_get, Hclient, H200.
  cbn [Z.eqb Pos.eqb negb].
  rewrite (bind_lift_ret _ (JArr items))
    by (unfold response_json; now rewrite Hbody).
  destruct items as [ | item items]; [reflexivity | ].
  cbn [truthy negb].
  rewrite (bind_lift_ret _ (item :: items)) by reflexivity.
  rewrite (bind_lift_ret _ _ _ _ _
             (collect_prs_blocks (item :: items) blocks [] Hblocks)).
  reflexivity.
Qed.

End Issues.

(** C9.  For a well-formed URL and a 200 answer to [get_issues] that is
    a non-empty list of objects, the output is made of the blocks of the
    items that have no [pull_request] key, in the order of the answer:
    every item with that key is left out.  When every item has the key,
    the function returns "No {state} issues found (excluding PRs)." for
    the given state. *)
Theorem C9_issues_omit_pull_requests
    (rt : Runtime) (deps : App.GitHubDeps)
    (github_url owner repo state : string) (client : Client) (response : Response)
    (items : list json) (blocks : list string) :
  Re.parse_github_url github_url = Some (owner, repo) ->
  client (mkRequest ("https://api.github.com/repos/" ++ owner ++ "/" ++ repo
                     ++ "/issues?state=" ++ state ++ "&per_page=10")
            (App.auth_headers deps)) = Ret response ->
  status_code response = 200%Z ->
  body_json response = Some (JArr items) ->
  items <> [] ->
  Forall App.is_object items ->
  Forall2 (fun item block => App.summary_block rt item = Ret block)
    (filter (fun item => negb (App.has_key "pull_request" item)) items) blocks ->
  result (App.get_issues rt deps github_url state) client
    = Ret (match blocks with
           | [] => "No " ++ state ++ " issues found (excluding PRs)."
           | _ => join nl blocks
           end)
  /\ (Forall (fun item => App.has_key "pull_request" item = true) items ->
      result (App.get_issues rt deps github_url state) client
      = Ret ("No " ++ state ++ " issues found (excluding PRs).")).
Proof.
  intros Hurl Hclient H200 Hbody Hnonempty Hobjects Hblocks.
  assert (Hres := get_issues_on_list rt deps github_url owner repo state client
                    response items blocks Hurl Hclient H200 Hbody Hobjects Hblocks).
  destruct items as [ | item items]; [contradiction | ].
  split.
  - rewrite Hres. destruct blocks; reflexivity.
  - intros Hall. rewrite Hres.
    assert (Hnone : filter (fun item => negb (App.has_key "pull_request" item))
                      (item :: items) = []).
    { clear -Hall. induction Hall as [ | x l Hx _ IH]; [reflexivity | ].
      cbn [filter]. rewrite Hx. exact IH. }
    rewrite Hnone in Hblocks. inversion Hblocks. reflexivity.
Qed.

Lemma C9_witness :
  Re.parse_github_url Sample.github_url = Some ("Zoyaaaaaaa", "DealDetective")
  /\ Forall App.is_object [JObj (Sample.pull 7 "Add tests"); JObj (Sample.pull 9 "Fix typo")]
  /\ result (App.get_issues Sample.rt Sample.deps Sample.github_url "open")
       Sample.with_only_pulls
     = Ret "No open issues found (excluding PRs).".
Proof.
  assert (Hurl : Re.parse_github_url Sample.github_url
                 = Some ("Zoyaaaaaaa", "DealDetective")) by (vm_compute; reflexivity).
  assert (Hobjects : Forall App.is_object
                       [JObj (Sample.pull 7 "Add tests"); JObj (Sample.pull 9 "Fix typo")])
    by (repeat constructor; eexists; reflexivity).
  split; [exact Hurl | split; [exact Hobjects | ]].
  refine (proj2 (C9_issues_omit_pull_requests Sample.rt Sample.deps Sample.github_url
                   "Zoyaaaaaaa" "DealDetective" "open" Sample.with_only_pulls
                   Sample.only_pulls _ [] Hurl eq_refl eq_refl eq_refl _ Hobjects _) _).
  - discriminate.
  - constructor.
  - repeat constructor.
Defined.

(** A mixed answer: the pull request is left out, the issue is shown. *)
Example get_issues_mixed_sample :
  result (App.get_issues Sample.rt Sample.deps Sample.github_url "open")
    Sample.with_mixed_issues
  = Ret ("#8 - Crash on start" ++ nl ++ "State: open" ++ nl
         ++ "Created: 2025-01-05T10:00:00Z" ++ nl
         ++ "URL: https://github.com/Zoyaaaaaaa/DealDetective/issues" ++ nl).
Proof. vm_compute. reflexivity. Qed.

(** ** Paths that are not files *)

(** On a 200 answer that is an object whose [type] is absent or is not
    "file", the fixed string comes back whatever the decoder of the
    runtime does, and whether or not there is a [content]: the content
    is neither read nor decoded. *)
Lemma get_file_content_not_a_file
    (rt : Runtime) (deps : App.GitHubDeps)
    (github_url owner repo file_path : string) (client : Client)
    (response : Response) (fields : list (string * json)) :
  Re.parse_github_url github_url = Some (owner, repo) ->
  client (mkRequest ("https://api.github.com/repos/" ++ owner ++ "/" ++ repo
                     ++ "/contents/" ++ file_path) (App.auth_headers deps))
    = Ret response ->
  status_code response = 200%Z ->
  body_json response = Some (JObj fields) ->
  lookup "type" fields <> Some (JStr "file") ->
  result (App.get_file_content rt deps github_url file_path) client
  = Ret "The path does not point to a file".
Proof.
  intros Hurl Hclient H200 Hbody Htype.
  unfold App.get_file_content, result. rewrite Hurl, invoke_get, Hclient, H200.
  cbn [Z.eqb Pos.eqb negb].
  rewrite (bind_lift_ret _ (JObj fields))
    by (unfold response_json; now rewrite Hbody).
  cbn [get].
  destruct (lookup "type" fields) as [type | ] eqn:Hlookup.
  - rewrite (bind_lift_ret _ type) by reflexivity.
    destruct type as [ | b | n | s | l | o]; try reflexivity.
    cbn [is_str]. destruct (String.eqb_spec "file" s) as [<- | Hne].
    + contradiction Htype. reflexivity.
    + reflexivity.
  - rewrite (bind_lift_ret _ JNull) by reflexivity. reflexivity.
Qed.

(** On a 200 answer that is a list, which is what the contents endpoint
    sends for a directory, [data.get] raises. *)
Lemma get_file_content_on_list
    (rt : Runtime) (deps : App.GitHubDeps)
    (github_url owner repo file_path : string) (client : Client)
    (response : Response) (items : list json) :
  Re.parse_github_url github_url = Some (owner, repo) ->
  client (mkRequest ("https://api.github.com/repos/" ++ owner ++ "/" ++ repo
                     ++ "/contents/" ++ file_path) (App.auth_headers deps))
    = Ret response ->
  status_code response = 200%Z ->
  body_json response = Some (JArr items) ->
  result (App.get_file_content rt deps github_url file_path) client
  = Raise AttributeError.
Proof.
  intros Hurl Hclient H200 Hbody.
  unfold App.get_file_content, result. rewrite Hurl, invoke_get, Hclient, H200.
  cbn [Z.eqb Pos.eqb negb].
  rewrite (bind_lift_ret _ (JArr items))
    by (unfold response_json; now rewrite Hbody).
  reflexivity.
Qed.

(** C10.  [get_file_content] is to return "The path does not point to a
    file" on every 200 answer whose JSON has no [type] equal to "file".
    The answer of the contents endpoint for a directory is a JSON list,
    which has no [type] at all; on it the function raises
    [AttributeError] and returns no string. *)
Theorem C10_directory_answer_raises :
  Re.parse_github_url Sample.github_url = Some ("Zoyaaaaaaa", "DealDetective")
  /\ status_code Sample.directory = 200%Z
  /\ invoke (App.get_file_content Sample.rt Sample.deps Sample.github_url "src")
       Sample.with_directory
     = (Raise AttributeError,
        [mkRequest "https://api.github.com/repos/Zoyaaaaaaa/DealDetective/contents/src"
           [("Authorization", "token t0ken")]])
  /\ result (App.get_file_content Sample.rt Sample.deps Sample.github_url "src")
       Sample.with_directory
     <> Ret "The path does not point to a file".
Proof.
  repeat apply conj; try (vm_compute; reflexivity).
  vm_compute. discriminate.
Qed.

(** A submodule is an object with another [type]: the fixed string. *)
Example get_file_content_submodule_sample :
  result (App.get_file_content Sample.rt Sample.deps Sample.github_url "vendor")
    (fun _ => Ret Sample.submodule)
  = Ret "The path does not point to a file".
Proof. vm_compute. reflexivity. Qed.

(** ** Summaries of 200 answers *)

Lemma append_nonempty_l (s t : string) : s <> EmptyString -> s ++ t <> EmptyString.
Proof. destruct s; [contradiction | discriminate]. Qed.

Lemma join_nonempty (sep x : string) (l : list string) :
  x <> EmptyString -> join sep (x :: l) <> EmptyString.
Proof.
  intros Hx. destruct l; simpl; [exact Hx | now apply append_nonempty_l].
Qed.

(** The quotient by 1024 fits a float for every integer below 2^1033. *)
Lemma truediv_1024_fits (a : Z) :
  (0 <= a < 2 ^ 1033)%Z -> exists num den, truediv_1024 a = Some (num, den).
Proof.
  intros [Hlo Hhi]. unfold truediv_1024.
  set (bits := if (a =? 0)%Z then 0%Z else (Z.log2 a + 1)%Z).
  destruct (bits <=? 53)%Z eqn:Hbits; [eauto | ].
  apply Z.leb_gt in Hbits.
  assert (Hpos : (0 < a)%Z).
  { destruct (Z.eqb_spec a 0) as [-> | Hne]; [subst bits; simpl in Hbits | ]; lia. }
  assert (Hbits' : bits = (Z.log2 a + 1)%Z).
  { subst bits. destruct (Z.eqb_spec a 0); lia. }
  assert (Hlog : (Z.log2 a < 1033)%Z) by (apply Z.log2_lt_pow2; lia).
  set (shift := (bits - 53)%Z).
  assert (Hshift : (0 < shift <= 980)%Z) by (subst shift; lia).
  assert (Hpow : (0 < 2 ^ shift <= 2 ^ 980)%Z).
  { split; [apply Z.pow_pos_nonneg; lia | apply Z.pow_le_mono_r; lia]. }
  assert (Hround : (round_half_even a (2 ^ shift) * 2 ^ shift <= a + 2 ^ shift)%Z).
  { unfold round_half_even.
    assert (Hq : (a / 2 ^ shift * 2 ^ shift <= a)%Z)
      by (rewrite Z.mul_comm; apply Z.mul_div_le; lia).
    destruct (2 * (a mod 2 ^ shift) >? 2 ^ shift)%Z; [lia | ].
    destruct (2 * (a mod 2 ^ shift) =? 2 ^ shift)%Z; [ | lia].
    destruct (Z.even (a / 2 ^ shift)); lia. }
  assert (Hsmall : (2 ^ 1033 + 2 ^ 980 < 2 ^ 1034)%Z) by (vm_compute; reflexivity).
  destruct (2 ^ 1034 <=? round_half_even a (2 ^ shift) * 2 ^ shift)%Z eqn:Hover;
    [ | eauto].
  apply Z.leb_le in Hover. lia.
Qed.

Lemma size_mb_1f_returns (n : Z) :
  (Z.abs n < 2 ^ 1033)%Z -> exists size_mb, size_mb_1f (JNum n) = Ret size_mb.
Proof.
  intros Hn. unfold size_mb_1f. cbn [as_int obind].
  destruct (truediv_1024_fits (Z.abs n)) as [num [den Hdiv]]; [lia | ].
  rewrite Hdiv. eauto.
Qed.

Lemma bind_lift_Ret {A B} (a : A) (k : A -> Tool B)
    (client : Client) (log : list Request) :
  Http.bind (lift (Ret a)) k client log = k a client log.
Proof. reflexivity. Qed.

Lemma all_str_strings (names : list string) :
  all_str (map JStr names) = Ret names.
Proof.
  induction names as [ | name names IH]; [reflexivity | ].
  cbn [map all_str]. rewrite IH. reflexivity.
Qed.

Lemma get_repo_info_on_document
    (rt : Runtime) (deps : App.GitHubDeps)
    (github_url owner repo : string) (client : Client)
    (response : Response) (data : json) :
  Re.parse_github_url github_url = Some (owner, repo) ->
  client (mkRequest ("https://api.github.com/repos/" ++ owner ++ "/" ++ repo)
            (App.auth_headers deps)) = Ret response ->
  status_code response = 200%Z ->
  body_json response = Some data ->
  App.repo_document data ->
  exists rest,
    result (App.get_repo_info rt deps github_url) client
    = Ret ("Repository: " ++ rest).
Proof.
  intros Hurl Hclient H200 Hbody
    [fields [-> [[n [Hsize Hn]] [[o [Howner [login Hlogin]]]
       [Hfields [Htopics Hlicense]]]]]].
  destruct (size_mb_1f_returns n Hn) as [size_mb Hsize_mb].
  repeat match goal with
         | H : Forall _ (_ :: _) |- _ =>
             let Hk := fresh "Hk" in
             inversion H as [ | ? ? [? Hk] ?]; subst; clear H
         end.
  unfold App.get_repo_info, result. rewrite Hurl, invoke_get, Hclient, H200.
  cbn [Z.eqb Pos.eqb negb].
  rewrite (bind_lift_ret _ (JObj fields))
    by (unfold response_json; now rewrite Hbody).
  cbn [subscript get str_in].
  rewrite Hsize, Howner, Hk, Hk0, Hk1, Hk2, Hk3, Hk4, Hk5, Hk6, Hk7, Hk8.
  rewrite bind_lift_Ret, Hsize_mb, !bind_lift_Ret.
  cbn [subscript]. rewrite Hlogin, !bind_lift_Ret.
  assert (Htopics' : exists topics,
             (if match lookup "topics" fields with Some _ => true | None => false end
              then obind match lookup "topics" fields with
                         | Some x => Ret x
                         | None => Ret (JArr [])
                         end (join_json ", ")
              else Ret "No topics") = Ret topics).
  { destruct Htopics as [-> | [names ->]]; [eauto | ].
    cbn [obind]. unfold join_json. cbn [iter obind].
    rewrite all_str_strings. cbn [obind]. eauto. }
  destruct Htopics' as [topics ->]. rewrite bind_lift_Ret.
  assert (Hlicense' : exists license_info,
             obind match lookup "license" fields with
                   | Some x => Ret x
                   | None => Ret JNull
                   end
               (fun license_info =>
                  if truthy license_info
                  then get license_info "name" (JStr "No license available")
                  else Ret (JStr "No license available")) = Ret license_info).
  { destruct Hlicense as [-> | [-> | [l ->]]]; cbn [obind truthy]; eauto.
    destruct l as [ | kv l]; [eauto | ].
    cbn [get]. destruct (lookup "name" (kv :: l)); eauto. }
  destruct Hlicense' as [license_info Hlic].
  destruct (match lookup "license" fields with
            | Some x => Ret x
            | None => Ret JNull
            end) as [lic | e]; [ | discriminate Hlic].
  cbn [obind] in Hlic. rewrite bind_lift_Ret, Hlic, !bind_lift_Ret.
  eexists. reflexivity.
Qed.

Lemma get_file_content_on_file
    (rt : Runtime) (deps : App.GitHubDeps)
    (github_url owner repo file_path : string) (client : Client)
    (response : Response) (fields : list (string * json))
    (encoded : json) (content : string) :
  Re.parse_github_url github_url = Some (owner, repo) ->
  client (mkRequest ("https://api.github.com/repos/" ++ owner ++ "/" ++ repo
                     ++ "/contents/" ++ file_path) (App.auth_headers deps))
    = Ret response ->
  status_code response = 200%Z ->
  body_json response = Some (JObj fields) ->
  lookup "type" fields = Some (JStr "file") ->
  lookup "content" fields = Some encoded ->
  b64decode_utf8 rt encoded = Ret content ->
  result (App.get_file_content rt deps github_url file_path) client
  = Ret ("File: " ++ file_path ++ nl ++ nl ++ content).
Proof.
  intros Hurl Hclient H200 Hbody Htype Hcontent Hdecode.
  unfold App.get_file_content, result. rewrite Hurl, invoke_get, Hclient, H200.
  cbn [Z.eqb Pos.eqb negb].
  rewrite (bind_lift_ret _ (JObj fields))
    by (unfold response_json; now rewrite Hbody).
  cbn [get subscript]. rewrite Htype, Hcontent, bind_lift_Ret.
  cbn [is_str]. rewrite String.eqb_refl. cbn [negb].
  rewrite bind_lift_Ret, Hdecode, bind_lift_Ret. reflexivity.
Qed.

Lemma summary_block_of_document (rt : Runtime) (item : json) :
  App.issue_document item ->
  exists block, App.summary_block rt item = Ret block /\ block <> EmptyString.
Proof.
  intros [fields [-> Hfields]].
  repeat match goal with
         | H : Forall _ (_ :: _) |- _ =>
             let Hk := fresh "Hk" in
             inversion H as [ | ? ? [? Hk] ?]; subst; clear H
         end.
  unfold App.summary_block. cbn [subscript].
  rewrite Hk, Hk0, Hk1, Hk2, Hk3. cbn [obind].
  eexists. split; [reflexivity | discriminate].
Qed.

Lemma issue_document_object (item : json) :
  App.issue_document item -> App.is_object item.
Proof. intros [fields [-> _]]. now exists fields. Qed.

(** Every document in a list has its block, and no block is empty. *)
Lemma blocks_of_documents (rt : Runtime) (keep : json -> bool) (items : list json) :
  Forall App.issue_document items ->
  exists blocks,
    Forall2 (fun item block => App.summary_block rt item = Ret block)
      (filter keep items) blocks
    /\ Forall (fun block => block <> EmptyString) blocks.
Proof.
  induction 1 as [ | item items Hdoc _ [blocks [Hblocks Hfull]]].
  - exists []. split; constructor.
  - cbn [filter]. destruct (keep item); [ | eauto].
    destruct (summary_block_of_document rt item Hdoc) as [block [Hblock Hne]].
    exists (block :: blocks). split; constructor; assumption.
Qed.

Lemma filter_true_all {A} (l : list A) : filter (fun _ => true) l = l.
Proof. induction l as [ | x l IH]; [reflexivity | ]. cbn [filter]. now rewrite IH. Qed.

Lemma listed_nonempty (dir_icon file_icon : string) (entry : string * json) :
  dir_icon <> EmptyString -> file_icon <> EmptyString ->
  App.listed dir_icon file_icon entry <> EmptyString.
Proof.
  intros Hd Hf. unfold App.listed.
  destruct (is_str "tree" (snd entry)); now apply append_nonempty_l.
Qed.

Lemma kept_exists (entries : list (string * json)) :
  Exists (fun entry => App.kept entry = true) entries ->
  exists entry rest, filter App.kept entries = entry :: rest.
Proof.
  induction 1 as [entry entries Hkept | entry entries _ [e [rest IH]]];
    cbn [filter].
  - rewrite Hkept. eauto.
  - destruct (App.kept entry); eauto.
Qed.

(** C4, as the code has it.  For a well-formed URL and a 200 answer of
    the shape GitHub documents, the tools return a string that is not
    empty: [get_repo_info] on a repository document; [get_issues] and
    [get_pull_requests] on a list of issue documents, the empty list
    included; [get_file_content] on an object, which is a file whose
    content decodes or a path of another type; [get_repo_structure] on a
    tree document in which the path of at least one item contains none
    of the excluded parts. *)
Theorem C4_summary_not_empty
    (rt : Runtime) (deps : App.GitHubDeps)
    (github_url owner repo file_path state : string) (client : Client) :
  Re.parse_github_url github_url = Some (owner, repo) ->
  let h := App.auth_headers deps in
  let api := fun rest => mkRequest ("https://api.github.com/repos/" ++ owner ++ "/"
                                    ++ repo ++ rest) h in
  (forall response data,
     client (mkRequest ("https://api.github.com/repos/" ++ owner ++ "/" ++ repo) h)
       = Ret response ->
     status_code response = 200%Z ->
     body_json response = Some data ->
     App.repo_document data ->
     exists summary,
       result (App.get_repo_info rt deps github_url) client = Ret summary
       /\ summary <> EmptyString)
  /\ (forall response data items entries,
     App.tree_answer client deps owner repo response ->
     body_json response = Some data ->
     subscript data "tree" = Ret (JArr items) ->
     Forall2 App.tree_item items entries ->
     Exists (fun entry => App.kept entry = true) entries ->
     exists summary,
       result (App.get_repo_structure rt deps github_url) client = Ret summary
       /\ summary <> EmptyString)
  /\ (forall response fields,
     client (api ("/contents/" ++ file_path)) = Ret response ->
     status_code response = 200%Z ->
     body_json response = Some (JObj fields) ->
     lookup "type" fields <> Some (JStr "file")
     \/ (lookup "type" fields = Some (JStr "file")
         /\ exists encoded content,
              lookup "content" fields = Some encoded
              /\ b64decode_utf8 rt encoded = Ret content) ->
     exists summary,
       result (App.get_file_content rt deps github_url file_path) client = Ret summary
       /\ summary <> EmptyString)
  /\ (forall response items,
     client (api ("/issues?state=" ++ state ++ "&per_page=10")) = Ret response ->
     status_code response = 200%Z ->
     body_json response = Some (JArr items) ->
     Forall App.issue_document items ->
     exists summary,
       result (App.get_issues rt deps github_url state) client = Ret summary
       /\ summary <> EmptyString)
  /\ (forall response items,
     client (api ("/pulls?state=" ++ state ++ "&per_page=10")) = Ret response ->
     status_code response = 200%Z ->
     body_json response = Some (JArr items) ->
     Forall App.issue_document items ->
     exists summary,
       result (App.get_pull_requests rt deps github_url state) client = Ret summary
       /\ summary <> EmptyString).
Proof.
  intros Hurl h api. repeat apply conj.
  - intros response data Hclient H200 Hbody Hdoc.
    destruct (get_repo_info_on_document rt deps github_url owner repo client
                response data Hurl Hclient H200 Hbody Hdoc) as [rest Hres].
    eexists. split; [exact Hres | discriminate].
  - intros response data items entries Hanswer Hbody Htree Hitems Hkept.
    eexists. split.
    + apply (get_repo_structure_listing rt _ _ deps github_url owner repo client
               response data items entries Hurl Hanswer Hbody Htree Hitems).
    + destruct (kept_exists entries Hkept) as [entry [rest ->]]. cbn [map].
      apply join_nonempty, listed_nonempty; discriminate.
  - intros response fields Hclient H200 Hbody
      [Hother | [Hfile [encoded [content [Hcontent Hdecode]]]]].
    + eexists. split.
      * apply (get_file_content_not_a_file rt deps github_url owner repo file_path
                 client response fields Hurl Hclient H200 Hbody Hother).
      * discriminate.
    + eexists. split.
      * apply (get_file_content_on_file rt deps github_url owner repo file_path
                 client response fields encoded content
                 Hurl Hclient H200 Hbody Hfile Hcontent Hdecode).
      * discriminate.
  - intros response items Hclient H200 Hbody Hdocs.
    destruct (blocks_of_documents rt
                (fun item => negb (App.has_key "pull_request" item)) items Hdocs)
      as [blocks [Hblocks Hfull]].
    eexists. split.
    + apply (get_issues_on_list rt deps github_url owner repo state client response
               items blocks Hurl Hclient H200 Hbody); [ | exact Hblocks].
      eapply Forall_impl; [ | exact Hdocs]. apply issue_document_object.
    + destruct items as [ | item items]; [discriminate | ].
      destruct blocks as [ | block blocks]; [discriminate | ].
      apply join_nonempty. now inversion Hfull.
  - intros response items Hclient H200 Hbody Hdocs.
    destruct (blocks_of_documents rt (fun _ => true) items Hdocs)
      as [blocks [Hblocks Hfull]].
    rewrite filter_true_all in Hblocks.
    eexists. split.
    + apply (get_pull_requests_on_list rt deps github_url owner repo state client
               response items blocks Hurl Hclient H200 Hbody Hblocks).
    + destruct items as [ | item items]; [discriminate | ].
      inversion Hblocks as [ | ? block ? blocks' Hblock Hrest]; subst.
      apply join_nonempty. now inversion Hfull.
Qed.

Lemma sample_repository_document : App.repo_document Sample.repository.
Proof.
  unfold App.repo_document, Sample.repository.
  eexists. split; [reflexivity | ].
  split; [exists 1536%Z; split; [reflexivity | vm_compute; reflexivity] | ].
  split; [eexists; split; [reflexivity | eexists; reflexivity] | ].
  split; [repeat constructor; eexists; reflexivity | ].
  split.
  - right. exists ["fastapi"; "agents"]. reflexivity.
  - right. right. eexists. reflexivity.
Qed.

Lemma C4_witness :
  Re.parse_github_url Sample.github_url = Some ("Zoyaaaaaaa", "DealDetective")
  /\ App.repo_document Sample.repository
  /\ exists summary,
       result (App.get_repo_info Sample.rt Sample.deps Sample.github_url)
         Sample.with_repository = Ret summary
       /\ summary <> EmptyString.
Proof.
  assert (Hurl : Re.parse_github_url Sample.github_url
                 = Some ("Zoyaaaaaaa", "DealDetective")) by (vm_compute; reflexivity).
  split; [exact Hurl | split; [exact sample_repository_document | ]].
  exact (proj1 (C4_summary_not_empty Sample.rt Sample.deps Sample.github_url
                  "Zoyaaaaaaa" "DealDetective" "README.md" "open"
                  Sample.with_repository Hurl)
           (Sample.respond 200 Sample.repository) Sample.repository
           eq_refl eq_refl eq_refl sample_repository_document).
Defined.

(** The summary of the sample repository, as the tool prints it. *)
Example get_repo_info_sample :
  result (App.get_repo_info Sample.rt Sample.deps Sample.github_url)
    Sample.with_repository
  = Ret ("Repository: Zoyaaaaaaa/DealDetective" ++ nl
         ++ "Owner: Zoyaaaaaaa" ++ nl
         ++ "Description: None" ++ nl
         ++ "Size: 1.5MB" ++ nl
         ++ "Stars: 3" ++ nl
         ++ "Forks: 1" ++ nl
         ++ "Open Issues: 0" ++ nl
         ++ "Pull Requests: https://github.com/Zoyaaaaaaa/DealDetective/pulls" ++ nl
         ++ "Language: Python" ++ nl
         ++ "Created: 2025-01-05T10:00:00Z" ++ nl
         ++ "Last Updated: 2025-02-01T08:30:00Z" ++ nl
         ++ "Default Branch: main" ++ nl
         ++ "Visibility: public" ++ nl
         ++ "Topics: fastapi, agents" ++ nl
         ++ "License: MIT License").
Proof. vm_compute. reflexivity. Qed.

(** C4 as the specification words it fails: with a well-formed URL and a
    200 answer that is a tree document with no item, [get_repo_structure]
    returns the empty string. *)
Lemma C4_counterexample :
  Re.parse_github_url Sample.github_url = Some ("Zoyaaaaaaa", "DealDetective")
  /\ status_code Sample.empty_tree = 200%Z
  /\ body_json Sample.empty_tree
     = Some (JObj [("sha", JStr "9fb037999f264ba9a7fc6274d15fa3ae2ab98312");
                   ("tree", JArr []); ("truncated", JBool false)])
  /\ invoke (App.get_repo_structure Sample.rt Sample.deps Sample.github_url)
       Sample.with_empty_tree
     = (Ret EmptyString,
        [mkRequest Sample.main_url (App.auth_headers Sample.deps)]).
Proof. repeat apply conj; vm_compute; reflexivity. Qed.

(** * Further properties of the code *)

(** ** Which URLs the tools accept, and how they read them *)

Lemma all_in_no_slash (w : string) :
  Re.all_in (Re.NoneOf "/") w = true <-> contains "/" w = false.
Proof.
  induction w as [ | a w IH]; [split; reflexivity | ].
  cbn [Re.all_in Re.in_cls memb contains startswith].
  rewrite (Ascii.eqb_sym "/"%char a).
  destruct (Ascii.eqb a "/"%char); cbn [negb andb orb]; [split; discriminate | ].
  exact IH.
Qed.

Lemma at_end_cases (s : string) :
  Re.at_end s = true <-> s = EmptyString \/ s = nl.
Proof.
  destruct s as [ | a [ | b s]]; cbn.
  - split; auto.
  - split.
    + intros H. apply Ascii.eqb_eq in H as ->. now right.
    + intros [H | H]; [discriminate | ]. now injection H as ->.
  - split; [discriminate | intros [H | H]; discriminate].
Qed.

Lemma separator_cases (sep : ascii) :
  Re.in_cls (Re.OneOf ":/") sep = true <-> sep = ":"%char \/ sep = "/"%char.
Proof.
  cbn [Re.in_cls memb]. rewrite orb_false_r, orb_true_iff, !Ascii.eqb_eq. tauto.
Qed.

(** X1.  When a tool accepts [github_url], the owner and the name it
    goes on with are not empty and hold no slash, and the URL is: some
    text, [github.com], a colon or a slash, the owner, a slash, the
    name, then nothing or [.git], then the end of the text or one last
    newline. *)
Theorem X1_accepted_url_reading (github_url owner repo : string) :
  Re.parse_github_url github_url = Some (owner, repo) ->
  exists (before : string) (sep : ascii) (git tail : string),
    github_url = before ++ "github.com" ++ String sep (owner ++ "/" ++ repo ++ git ++ tail)
    /\ (sep = ":"%char \/ sep = "/"%char)
    /\ owner <> EmptyString /\ contains "/" owner = false
    /\ repo <> EmptyString /\ contains "/" repo = false
    /\ (git = EmptyString \/ git = ".git")
    /\ (tail = EmptyString \/ tail = nl).
Proof.
  intros Hparse.
  destruct (ReFacts.parse_github_url_shape _ _ _ Hparse)
    as [before [sep [git [tail [Hurl [Hsep [Ho [Hoall [Hr [Hrall [Hgit Hend]]]]]]]]]]].
  exists before, sep, git, tail.
  repeat apply conj; try assumption.
  - now apply separator_cases.
  - now apply all_in_no_slash.
  - now apply all_in_no_slash.
  - now apply at_end_cases.
Qed.

Lemma X1_witness :
  Re.parse_github_url "git@github.com:Zoyaaaaaaa/DealDetective.git"
  = Some ("Zoyaaaaaaa", "DealDetective")
  /\ exists (before : string) (sep : ascii) (git tail : string),
       "git@github.com:Zoyaaaaaaa/DealDetective.git"
       = before ++ "github.com"
         ++ String sep ("Zoyaaaaaaa" ++ "/" ++ "DealDetective" ++ git ++ tail)
       /\ (sep = ":"%char \/ sep = "/"%char)
       /\ "Zoyaaaaaaa" <> EmptyString /\ contains "/" "Zoyaaaaaaa" = false
       /\ "DealDetective" <> EmptyString /\ contains "/" "DealDetective" = false
       /\ (git = EmptyString \/ git = ".git")
       /\ (tail = EmptyString \/ tail = nl).
Proof.
  assert (H : Re.parse_github_url "git@github.com:Zoyaaaaaaa/DealDetective.git"
              = Some ("Zoyaaaaaaa", "DealDetective")) by (vm_compute; reflexivity).
  split; [exact H | ].
  exact (X1_accepted_url_reading _ _ _ H).
Defined.

(** X2.  A URL is accepted exactly when it can be read that way for some
    owner and name: every text that ends in [github.com], a colon or a
    slash, an owner and a name without slash, an optional [.git] and an
    optional last newline is accepted, and no other text is. *)
Theorem X2_accepted_iff_shape (github_url : string) :
  (exists owner repo, Re.parse_github_url github_url = Some (owner, repo))
  <-> (exists owner repo, Re.github_url_shape github_url owner repo).
Proof.
  split.
  - intros [owner [repo H]]. exists owner, repo.
    now apply ReFacts.parse_github_url_shape.
  - intros [owner [repo H]].
    now apply (ReFacts.parse_github_url_accepts github_url owner repo).
Qed.

(** X3.  A clone URL is read without its [.git]: when [github.com] is
    followed by a colon or slash, an owner, a slash, a name and [.git]
    at the end of the text, and [github.com] does not start earlier in
    the text, the tools go on with exactly that owner and that name. *)
Theorem X3_clone_url_drops_git
    (before : string) (sep : ascii) (owner repo : string) :
  Re.no_earlier_start before = true ->
  sep = ":"%char \/ sep = "/"%char ->
  owner <> EmptyString -> contains "/" owner = false ->
  repo <> EmptyString -> contains "/" repo = false ->
  Re.parse_github_url
    (before ++ "github.com" ++ String sep (owner ++ "/" ++ repo ++ ".git"))
  = Some (owner, repo).
Proof.
  intros Hbefore Hsep Ho Hoall Hr Hrall.
  unfold Re.parse_github_url.
  rewrite ReFacts.search_skip by exact Hbefore.
  rewrite (ReFacts.run_github_url_re sep owner repo ".git"); [reflexivity | | | | | | | ].
  - now apply separator_cases.
  - exact Ho.
  - now apply all_in_no_slash.
  - exact Hr.
  - now apply all_in_no_slash.
  - reflexivity.
  - intros p1 p2 _ _ Hp2. now apply ReFacts.stops_before_git.
Qed.

Lemma X3_witness :
  Re.no_earlier_start "git@" = true
  /\ Re.parse_github_url
       ("git@" ++ "github.com" ++ String ":"%char ("Zoyaaaaaaa" ++ "/" ++ "GITHUB_HELPER" ++ ".git"))
     = Some ("Zoyaaaaaaa", "GITHUB_HELPER").
Proof.
  split; [reflexivity | ].
  apply (X3_clone_url_drops_git "git@" ":"%char "Zoyaaaaaaa" "GITHUB_HELPER");
    first [reflexivity | discriminate | now left].
Defined.

(** X4.  A URL that ends with the name is read with the whole name, as
    long as no shorter beginning of the name is followed by [.git], a
    newline, or [.git] and a newline up to the end of the name. *)
Theorem X4_plain_url_keeps_name
    (before : string) (sep : ascii) (owner repo : string) :
  Re.no_earlier_start before = true ->
  sep = ":"%char \/ sep = "/"%char ->
  owner <> EmptyString -> contains "/" owner = false ->
  repo <> EmptyString -> contains "/" repo = false ->
  Re.early_stop repo = false ->
  Re.parse_github_url (before ++ "github.com" ++ String sep (owner ++ "/" ++ repo))
  = Some (owner, repo).
Proof.
  intros Hbefore Hsep Ho Hoall Hr Hrall Hearly.
  unfold Re.parse_github_url.
  rewrite ReFacts.search_skip by exact Hbefore.
  assert (Hnil : repo = repo ++ EmptyString).
  { clear. induction repo as [ | a r IH]; [reflexivity | ]. cbn. now rewrite <- IH. }
  rewrite Hnil at 1.
  rewrite (ReFacts.run_github_url_re sep owner repo EmptyString);
    [reflexivity | | | | | | | ].
  - now apply separator_cases.
  - exact Ho.
  - now apply all_in_no_slash.
  - exact Hr.
  - now apply all_in_no_slash.
  - reflexivity.
  - intros p1 p2 Heq Hp1 Hp2.
    replace (p2 ++ EmptyString) with p2
      by (clear; induction p2 as [ | a r IH]; [reflexivity | cbn; now rewrite <- IH]).
    apply (ReFacts.early_stop_split p1 p2); [now rewrite <- Heq | exact Hp1 | exact Hp2].
Qed.

Lemma X4_witness :
  Re.no_earlier_start "https://" = true
  /\ Re.early_stop "next.js" = false
  /\ Re.parse_github_url
       ("https://" ++ "github.com" ++ String "/"%char ("vercel" ++ "/" ++ "next.js"))
     = Some ("vercel", "next.js").
Proof.
  split; [reflexivity | split; [reflexivity | ]].
  apply (X4_plain_url_keeps_name "https://" "/"%char "vercel" "next.js");
    first [reflexivity | discriminate | now right].
Defined.

(** ** What the tools send, and what they do not catch *)

Lemma startswith_append (p s : string) : startswith p (p ++ s) = true.
Proof.
  induction p as [ | a p IH]; [reflexivity | ].
  cbn [append startswith]. now rewrite Ascii.eqb_refl.
Qed.

(** X5.  Whatever the URL and the answers, every request a tool issues
    goes to [https://api.github.com/repos/...] and carries the headers
    of the configured token: the one header [Authorization: token t] for
    a token [t] that is not empty, and no header when there is no token
    or an empty one.  The second request of [get_repo_structure] carries
    the same headers as the first. *)
Theorem X5_requests_host_and_token
    (rt : Runtime) (deps : App.GitHubDeps)
    (github_url file_path state : string) (client : Client) :
  let sent := fun request =>
    headers request
    = match App.github_token deps with
      | Some t => if String.eqb t EmptyString then []
                  else [("Authorization", "token " ++ t)]
      | None => []
      end
    /\ startswith "https://api.github.com/repos/" (url request) = true in
  Forall sent (requests (App.get_repo_info rt deps github_url) client)
  /\ Forall sent (requests (App.get_repo_structure rt deps github_url) client)
  /\ Forall sent (requests (App.get_file_content rt deps github_url file_path) client)
  /\ Forall sent (requests (App.get_issues rt deps github_url state) client)
  /\ Forall sent (requests (App.get_pull_requests rt deps github_url state) client).
Proof.
  intros sent.
  assert (Hsent : forall rest,
             sent (mkRequest ("https://api.github.com/repos/" ++ rest)
                     (App.auth_headers deps))).
  { intros rest. split; [reflexivity | apply startswith_append]. }
  destruct (Re.parse_github_url github_url) as [[owner repo] | ] eqn:Hurl.
  - repeat apply conj.
    + unfold App.get_repo_info. rewrite Hurl.
      rewrite requests_get_silent by (intro; silent_tail).
      constructor; [apply Hsent | constructor].
    + unfold App.get_repo_structure.
      rewrite (get_repo_structure_requests rt _ _ deps github_url owner repo client Hurl).
      destruct (client _) as [response | e];
        [destruct (status_code response =? 200)%Z | ];
        repeat (constructor; [apply Hsent | ]); constructor.
    + unfold App.get_file_content. rewrite Hurl.
      rewrite requests_get_silent by (intro; silent_tail).
      constructor; [apply Hsent | constructor].
    + unfold App.get_issues. rewrite Hurl.
      rewrite requests_get_silent by (intro; silent_tail).
      constructor; [apply Hsent | constructor].
    + unfold App.get_pull_requests. rewrite Hurl.
      rewrite requests_get_silent by (intro; silent_tail).
      constructor; [apply Hsent | constructor].
  - unfold App.get_repo_info, App.get_repo_structure, App.get_repo_structure_with,
      App.get_file_content, App.get_issues, App.get_pull_requests.
    rewrite Hurl. repeat apply conj; constructor.
Qed.

(** X6.  A tool does not catch what the HTTP client raises: when the
    request fails in transport, the exception leaves the tool, after
    exactly the requests issued so far.  In [get_repo_structure] a
    failure of the first request is not followed by the request for
    [master]. *)
Theorem X6_transport_failure_leaves_the_tool
    (rt : Runtime) (deps : App.GitHubDeps)
    (github_url owner repo file_path state : string) (client : Client) (e : exn) :
  Re.parse_github_url github_url = Some (owner, repo) ->
  let h := App.auth_headers deps in
  let api := fun rest => mkRequest ("https://api.github.com/repos/" ++ owner ++ "/"
                                    ++ repo ++ rest) h in
  let info := mkRequest ("https://api.github.com/repos/" ++ owner ++ "/" ++ repo) h in
  (client info = Raise e ->
   invoke (App.get_repo_info rt deps github_url) client = (Raise e, [info]))
  /\ (client (api ("/contents/" ++ file_path)) = Raise e ->
      invoke (App.get_file_content rt deps github_url file_path) client
      = (Raise e, [api ("/contents/" ++ file_path)]))
  /\ (client (api ("/issues?state=" ++ state ++ "&per_page=10")) = Raise e ->
      invoke (App.get_issues rt deps github_url state) client
      = (Raise e, [api ("/issues?state=" ++ state ++ "&per_page=10")]))
  /\ (client (api ("/pulls?state=" ++ state ++ "&per_page=10")) = Raise e ->
      invoke (App.get_pull_requests rt deps github_url state) client
      = (Raise e, [api ("/pulls?state=" ++ state ++ "&per_page=10")]))
  /\ (client (api "/git/trees/main?recursive=1") = Raise e ->
      invoke (App.get_repo_structure rt deps github_url) client
      = (Raise e, [api "/git/trees/main?recursive=1"]))
  /\ (forall first,
      client (api "/git/trees/main?recursive=1") = Ret first ->
      status_code first <> 200%Z ->
      client (api "/git/trees/master?recursive=1") = Raise e ->
      invoke (App.get_repo_structure rt deps github_url) client
      = (Raise e, [api "/git/trees/main?recursive=1";
                   api "/git/trees/master?recursive=1"])).
Proof.
  intros Hurl h api info. repeat apply conj.
  - intros He. unfold App.get_repo_info. rewrite Hurl, invoke_get.
    fold h. fold info. now rewrite He.
  - intros He. unfold App.get_file_content. rewrite Hurl, invoke_get.
    fold h. unfold api in He. now rewrite He.
  - intros He. unfold App.get_issues. rewrite Hurl, invoke_get.
    fold h. unfold api in He. now rewrite He.
  - intros He. unfold App.get_pull_requests. rewrite Hurl, invoke_get.
    fold h. unfold api in He. now rewrite He.
  - intros He. unfold App.get_repo_structure, App.get_repo_structure_with.
    rewrite Hurl, invoke_get. fold h. unfold api in He. now rewrite He.
  - intros first Hfirst Hstatus He.
    unfold App.get_repo_structure, App.get_repo_structure_with.
    rewrite Hurl, invoke_get. fold h. unfold api in Hfirst, He.
    rewrite Hfirst, (not_200 first Hstatus).
    unfold Http.bind at 1, client_get at 1. now rewrite He.
Qed.

Lemma X6_witness :
  Re.parse_github_url Sample.github_url = Some ("Zoyaaaaaaa", "DealDetective")
  /\ invoke (App.get_repo_structure Sample.rt Sample.deps Sample.github_url)
       Sample.offline
     = (Raise TransportError,
        [mkRequest Sample.main_url [("Authorization", "token t0ken")]]).
Proof.
  assert (Hurl : Re.parse_github_url Sample.github_url
                 = Some ("Zoyaaaaaaa", "DealDetective")) by (vm_compute; reflexivity).
  split; [exact Hurl | ].
  exact (proj1 (proj2 (proj2 (proj2 (proj2
           (X6_transport_failure_leaves_the_tool Sample.rt Sample.deps
              Sample.github_url "Zoyaaaaaaa" "DealDetective" "README.md" "open"
              Sample.offline TransportError Hurl))))) eq_refl).
Defined.

(** X7.  A 200 answer whose body is not a JSON document makes every
    tool raise the decoding error of [response.json()]: no tool turns
    it into a returned string. *)
Theorem X7_undecodable_body_raises
    (rt : Runtime) (deps : App.GitHubDeps)
    (github_url owner repo file_path state : string) (client : Client) :
  Re.parse_github_url github_url = Some (owner, repo) ->
  let h := App.auth_headers deps in
  let api := fun rest => mkRequest ("https://api.github.com/repos/" ++ owner ++ "/"
                                    ++ repo ++ rest) h in
  (forall response,
     client (mkRequest ("https://api.github.com/repos/" ++ owner ++ "/" ++ repo) h)
       = Ret response ->
     status_code response = 200%Z -> body_json response = None ->
     result (App.get_repo_info rt deps github_url) client = Raise JSONDecodeError)
  /\ (forall response,
     App.tree_answer client deps owner repo response ->
     body_json response = None ->
     result (App.get_repo_structure rt deps github_url) client = Raise JSONDecodeError)
  /\ (forall response,
     client (api ("/contents/" ++ file_path)) = Ret response ->
     status_code response = 200%Z -> body_json response = None ->
     result (App.get_file_content rt deps github_url file_path) client
     = Raise JSONDecodeError)
  /\ (forall response,
     client (api ("/issues?state=" ++ state ++ "&per_page=10")) = Ret response ->
     status_code response = 200%Z -> body_json response = None ->
     result (App.get_issues rt deps github_url state) client = Raise JSONDecodeError)
  /\ (forall response,
     client (api ("/pulls?state=" ++ state ++ "&per_page=10")) = Ret response ->
     status_code response = 200%Z -> body_json response = None ->
     result (App.get_pull_requests rt deps github_url state) client
     = Raise JSONDecodeError).
Proof.
  intros Hurl h api.
  assert (Hjson : forall response, body_json response = None ->
                    response_json response = Raise JSONDecodeError)
    by (intros response Hnone; unfold response_json; now rewrite Hnone).
  repeat apply conj.
  - intros response Hclient H200 Hbody.
    unfold App.get_repo_info, result. rewrite Hurl, invoke_get.
    fold h. rewrite Hclient, H200. cbn [Z.eqb Pos.eqb negb].
    now rewrite (bind_lift_raise _ JSONDecodeError) by auto.
  - intros response Hanswer Hbody.
    apply (get_repo_structure_on_answer rt _ _ deps github_url owner repo client
             response _ Hurl Hanswer).
    intros log. now rewrite (bind_lift_raise _ JSONDecodeError) by auto.
  - intros response Hclient H200 Hbody.
    unfold App.get_file_content, result. rewrite Hurl, invoke_get.
    fold h. unfold api in Hclient. rewrite Hclient, H200. cbn [Z.eqb Pos.eqb negb].
    now rewrite (bind_lift_raise _ JSONDecodeError) by auto.
  - intros response Hclient H200 Hbody.
    unfold App.get_issues, result. rewrite Hurl, invoke_get.
    fold h. unfold api in Hclient. rewrite Hclient, H200. cbn [Z.eqb Pos.eqb negb].
    now rewrite (bind_lift_raise _ JSONDecodeError) by auto.
  - intros response Hclient H200 Hbody.
    unfold App.get_pull_requests, result. rewrite Hurl, invoke_get.
    fold h. unfold api in Hclient. rewrite Hclient, H200. cbn [Z.eqb Pos.eqb negb].
    now rewrite (bind_lift_raise _ JSONDecodeError) by auto.
Qed.

Lemma X7_witness :
  Re.parse_github_url Sample.github_url = Some ("Zoyaaaaaaa", "DealDetective")
  /\ result (App.get_issues Sample.rt Sample.deps Sample.github_url "open")
       (fun _ => Ret (mkResponse 200 "<html>busy</html>" None))
     = Raise JSONDecodeError.
Proof.
  assert (Hurl : Re.parse_github_url Sample.github_url
                 = Some ("Zoyaaaaaaa", "DealDetective")) by (vm_compute; reflexivity).
  split; [exact Hurl | ].
  exact (proj1 (proj2 (proj2 (proj2
           (X7_undecodable_body_raises Sample.rt Sample.deps Sample.github_url
              "Zoyaaaaaaa" "DealDetective" "README.md" "open"
              (fun _ => Ret (mkResponse 200 "<html>busy</html>" None)) Hurl))))
           (mkResponse 200 "<html>busy</html>" None) eq_refl eq_refl eq_refl).
Defined.

(** ** The summary of a repository *)

Lemma bind_lift_inv {A B} (c : outcome A) (k : A -> Tool B)
    (client : Client) (log : list Request) (b : B) :
  fst (Http.bind (lift c) k client log) = Ret b ->
  exists a, c = Ret a /\ fst (k a client log) = Ret b.
Proof.
  destruct c as [a | e]; [ | discriminate]. intros H. now exists a.
Qed.

Lemma subscript_inv (v : json) (k : string) (x : json) :
  subscript v k = Ret x -> exists fields, v = JObj fields /\ lookup k fields = Some x.
Proof.
  destruct v; try discriminate. cbn [subscript].
  destruct (lookup k fields) eqn:H; [ | discriminate].
  intros [= <-]. eauto.
Qed.

(** X8.  [get_repo_info] returns a string on a 200 answer only when the
    body is a JSON object that has every key the summary reads ([size],
    [owner] with its [login], the counters, the dates, [full_name],
    [description], [language], [default_branch], [visibility]); on any
    other 200 answer it raises.  What it returns starts with
    "Repository: ". *)
Theorem X8_repo_info_needs_every_key
    (rt : Runtime) (deps : App.GitHubDeps)
    (github_url owner repo : string) (client : Client)
    (response : Response) (summary : string) :
  Re.parse_github_url github_url = Some (owner, repo) ->
  client (mkRequest ("https://api.github.com/repos/" ++ owner ++ "/" ++ repo)
            (App.auth_headers deps)) = Ret response ->
  status_code response = 200%Z ->
  result (App.get_repo_info rt deps github_url) client = Ret summary ->
  exists fields,
    body_json response = Some (JObj fields)
    /\ Forall (fun k => App.present k fields)
         ["size"; "owner"; "forks_count"; "open_issues_count"; "default_branch";
          "visibility"; "full_name"; "description"; "stargazers_count"; "language";
          "created_at"; "updated_at"]
    /\ (exists o, lookup "owner" fields = Some (JObj o) /\ App.present "login" o)
    /\ exists rest, summary = "Repository: " ++ rest.
Proof.
  intros Hurl Hclient H200 Hres.
  unfold App.get_repo_info, result in Hres.
  rewrite Hurl, invoke_get, Hclient, H200 in Hres.
  cbn [Z.eqb Pos.eqb negb] in Hres.
  apply bind_lift_inv in Hres as [data [Hdata Hres]].
  apply bind_lift_inv in Hres as [size [Hsize Hres]].
  apply subscript_inv in Hsize as [fields [-> Hsize]].
  apply bind_lift_inv in Hres as [size_mb [_ Hres]].
  apply bind_lift_inv in Hres as [owner_obj [Howner Hres]].
  apply bind_lift_inv in Hres as [owner_name [Hlogin Hres]].
  apply subscript_inv in Hlogin as [o [-> Hlogin]].
  cbn [subscript] in Howner.
  repeat match type of Hres with
         | fst (Http.bind (lift (subscript (JObj fields) ?k)) _ _ _) = _ =>
             let v := fresh "v" in
             let Hv := fresh "Hv" in
             apply bind_lift_inv in Hres as [v [Hv Hres]];
             cbn [subscript] in Hv
         | fst (Http.bind (lift _) _ _ _) = _ =>
             let v := fresh "v" in
             apply bind_lift_inv in Hres as [v [_ Hres]]
         end.
  exists fields.
  assert (Hpresent : forall k x,
             match lookup k fields with
             | Some y => Ret y
             | None => Raise (KeyError k)
             end = Ret x -> App.present k fields).
  { intros k x H. unfold App.present.
    destruct (lookup k fields) as [y | ]; [now exists y | discriminate H]. }
  split.
  { unfold response_json in Hdata.
    destruct (body_json response); [now injection Hdata as -> | discriminate]. }
  split.
  { repeat constructor; try (eapply Hpresent; eassumption).
    now exists size. }
  split.
  { exists o. split; [ | now exists owner_name].
    destruct (lookup "owner" fields); [now injection Howner as -> | discriminate Howner]. }
  cbn [ret fst] in Hres. injection Hres as <-. eexists. reflexivity.
Qed.

Lemma X8_witness :
  exists summary,
    result (App.get_repo_info Sample.rt Sample.deps Sample.github_url)
      Sample.with_repository = Ret summary
    /\ exists fields,
         body_json (Sample.respond 200 Sample.repository) = Some (JObj fields)
         /\ Forall (fun k => App.present k fields)
              ["size"; "owner"; "forks_count"; "open_issues_count"; "default_branch";
               "visibility"; "full_name"; "description"; "stargazers_count";
               "language"; "created_at"; "updated_at"]
         /\ (exists o, lookup "owner" fields = Some (JObj o) /\ App.present "login" o)
         /\ exists rest, summary = "Repository: " ++ rest.
Proof.
  eexists. split.
  - vm_compute. reflexivity.
  - apply (X8_repo_info_needs_every_key Sample.rt Sample.deps Sample.github_url
             "Zoyaaaaaaa" "DealDetective" Sample.with_repository
             (Sample.respond 200 Sample.repository));
      vm_compute; reflexivity.
Defined.

(** ** The content of a file *)

(** X10.  On a 200 answer that is an object of [type] "file",
    [get_file_content] reads [content], decodes it and returns
    "File: {file_path}", an empty line and the decoded text.  Without a
    [content] key it raises [KeyError]; when the decoding raises, as for
    a file that is not UTF-8 text, the same exception leaves the tool. *)
Theorem X10_file_content_decoded
    (rt : Runtime) (deps : App.GitHubDeps)
    (github_url owner repo file_path : string) (client : Client)
    (response : Response) (fields : list (string * json)) :
  Re.parse_github_url github_url = Some (owner, repo) ->
  client (mkRequest ("https://api.github.com/repos/" ++ owner ++ "/" ++ repo
                     ++ "/contents/" ++ file_path) (App.auth_headers deps))
    = Ret response ->
  status_code response = 200%Z ->
  body_json response = Some (JObj fields) ->
  lookup "type" fields = Some (JStr "file") ->
  result (App.get_file_content rt deps github_url file_path) client
  = match lookup "content" fields with
    | None => Raise (KeyError "content")
    | Some encoded =>
        match b64decode_utf8 rt encoded with
        | Ret content => Ret ("File: " ++ file_path ++ nl ++ nl ++ content)
        | Raise e => Raise e
        end
    end.
Proof.
  intros Hurl Hclient H200 Hbody Htype.
  unfold App.get_file_content, result. rewrite Hurl, invoke_get, Hclient, H200.
  cbn [Z.eqb Pos.eqb negb].
  rewrite (bind_lift_ret _ (JObj fields))
    by (unfold response_json; now rewrite Hbody).
  cbn [get subscript]. rewrite Htype, bind_lift_Ret.
  cbn [is_str]. rewrite String.eqb_refl. cbn [negb].
  destruct (lookup "content" fields) as [encoded | ]; [ | reflexivity].
  rewrite bind_lift_Ret.
  destruct (b64decode_utf8 rt encoded) as [content | e]; reflexivity.
Qed.

Lemma X10_witness :
  Re.parse_github_url Sample.github_url = Some ("Zoyaaaaaaa", "DealDetective")
  /\ result (App.get_file_content Sample.rt_text Sample.deps Sample.github_url
               "src/app.py") (fun _ => Ret Sample.file)
     = Ret ("File: src/app.py" ++ nl ++ nl ++ "print(1)")
  /\ result (App.get_file_content Sample.rt Sample.deps Sample.github_url
               "src/app.py") (fun _ => Ret Sample.file)
     = Raise DecodeError.
Proof.
  assert (Hurl : Re.parse_github_url Sample.github_url
                 = Some ("Zoyaaaaaaa", "DealDetective")) by (vm_compute; reflexivity).
  split; [exact Hurl | split].
  - exact (X10_file_content_decoded Sample.rt_text Sample.deps Sample.github_url
             "Zoyaaaaaaa" "DealDetective" "src/app.py" (fun _ => Ret Sample.file)
             Sample.file _ Hurl eq_refl eq_refl eq_refl eq_refl).
  - exact (X10_file_content_decoded Sample.rt Sample.deps Sample.github_url
             "Zoyaaaaaaa" "DealDetective" "src/app.py" (fun _ => Ret Sample.file)
             Sample.file _ Hurl eq_refl eq_refl eq_refl eq_refl).
Defined.

(** ** Answers with nothing to list *)

(** X11.  On a 200 answer whose JSON is empty in the sense of [not
    issues] (the empty list, but also [null], an empty object, an empty
    string, zero or [false]), [get_issues] returns "No {state} issues
    found.", and on such an answer [get_pull_requests] returns "No
    {state} pull requests found.", each with the state as it was given
    and without looking at any item.  Each tool depends on the answer to
    its own request only. *)
Theorem X11_nothing_found
    (rt : Runtime) (deps : App.GitHubDeps)
    (github_url owner repo state : string) (client : Client) :
  Re.parse_github_url github_url = Some (owner, repo) ->
  (forall (answer : Response) (issues : json),
     client (mkRequest ("https://api.github.com/repos/" ++ owner ++ "/" ++ repo
                        ++ "/issues?state=" ++ state ++ "&per_page=10")
               (App.auth_headers deps)) = Ret answer ->
     status_code answer = 200%Z ->
     body_json answer = Some issues ->
     truthy issues = false ->
     result (App.get_issues rt deps github_url state) client
     = Ret ("No " ++ state ++ " issues found."))
  /\ (forall (answer : Response) (prs : json),
     client (mkRequest ("https://api.github.com/repos/" ++ owner ++ "/" ++ repo
                        ++ "/pulls?state=" ++ state ++ "&per_page=10")
               (App.auth_headers deps)) = Ret answer ->
     status_code answer = 200%Z ->
     body_json answer = Some prs ->
     truthy prs = false ->
     result (App.get_pull_requests rt deps github_url state) client
     = Ret ("No " ++ state ++ " pull requests found.")).
Proof.
  intros Hurl. split.
  - intros answer issues Hanswer H200 Hbody Hfalse.
    unfold App.get_issues, result. rewrite Hurl, invoke_get, Hanswer, H200.
    cbn [Z.eqb Pos.eqb negb].
    rewrite (bind_lift_ret _ issues) by (unfold response_json; now rewrite Hbody).
    rewrite Hfalse. reflexivity.
  - intros answer prs Hanswer H200 Hbody Hfalse.
    unfold App.get_pull_requests, result. rewrite Hurl, invoke_get, Hanswer, H200.
    cbn [Z.eqb Pos.eqb negb].
    rewrite (bind_lift_ret _ prs) by (unfold response_json; now rewrite Hbody).
    rewrite Hfalse. reflexivity.
Qed.

(** The issues request is answered with an empty list while the pulls
    request fails, and the other way round: each tool reads its own
    answer. *)
Lemma X11_witness :
  Re.parse_github_url Sample.github_url = Some ("Zoyaaaaaaa", "DealDetective")
  /\ result (App.get_issues Sample.rt Sample.deps Sample.github_url "closed")
       (fun request =>
          if contains "/issues?" (url request)
          then Ret (Sample.respond 200 (JArr [])) else Raise TransportError)
     = Ret "No closed issues found."
  /\ result (App.get_pull_requests Sample.rt Sample.deps Sample.github_url "closed")
       (fun request =>
          if contains "/pulls?" (url request)
          then Ret (Sample.respond 200 JNull) else Raise TransportError)
     = Ret "No closed pull requests found.".
Proof.
  assert (Hurl : Re.parse_github_url Sample.github_url
                 = Some ("Zoyaaaaaaa", "DealDetective")) by (vm_compute; reflexivity).
  split; [exact Hurl | split].
  - exact (proj1 (X11_nothing_found Sample.rt Sample.deps Sample.github_url
                    "Zoyaaaaaaa" "DealDetective" "closed" _ Hurl)
             (Sample.respond 200 (JArr [])) (JArr [])
             eq_refl eq_refl eq_refl eq_refl).
  - exact (proj2 (X11_nothing_found Sample.rt Sample.deps Sample.github_url
                    "Zoyaaaaaaa" "DealDetective" "closed" _ Hurl)
             (Sample.respond 200 JNull) JNull
             eq_refl eq_refl eq_refl eq_refl).
Defined.

(** ** The listing of a tree *)

Lemma startswith_sound (p s : string) :
  startswith p s = true -> exists t, s = p ++ t.
Proof.
  revert s. induction p as [ | a p IH]; intros s; [now exists s | ].
  destruct s as [ | b s]; [discriminate | ]. cbn [startswith].
  intros H. apply andb_prop in H as [Hab Hrest].
  apply Ascii.eqb_eq in Hab as <-. destruct (IH s Hrest) as [t ->]. now exists t.
Qed.

(** A text that holds [n1] holds [n2] when [n1] itself holds [n2]. *)
Lemma contains_weaken (n1 n2 : string) :
  (forall t, contains n2 (n1 ++ t) = true) ->
  forall s, contains n1 s = true -> contains n2 s = true.
Proof.
  intros Hpart s. induction s as [ | a s IH]; intros H.
  - cbn [contains] in H. rewrite orb_false_r in H.
    destruct (startswith_sound _ _ H) as [t Ht]. rewrite Ht. apply Hpart.
  - cbn [contains] in H. apply orb_true_iff in H as [H | H].
    + destruct (startswith_sound _ _ H) as [t Ht]. rewrite Ht. apply Hpart.
    + cbn [contains]. rewrite (IH H). apply orb_true_r.
Qed.

(** Only a path with a slash is left out. *)
Lemma excluded_has_slash (path : string) :
  App.excluded path = true -> contains "/" path = true.
Proof.
  unfold App.excluded, App.excluded_parts. cbn [existsb].
  rewrite orb_false_r, !orb_true_iff.
  intros [H | [H | H]]; revert H; apply contains_weaken; intros t; reflexivity.
Qed.

(** X13.  [get_repo_structure] never leaves out an entry at the top of
    the tree: the excluded parts all hold a slash, so an item whose path
    has no slash (a file or a directory of the root, be it [.git] or
    [node_modules] itself) is one of the kept items, whose texts (icon,
    then path) the returned string joins with newlines in the order of
    the tree; and when its path holds no newline, its text is one of the
    lines of the returned string, whatever the other paths hold. *)
Theorem X13_top_level_entries_listed
    (rt : Runtime) (deps : App.GitHubDeps)
    (github_url owner repo : string) (client : Client) (response : Response)
    (data : json) (items : list json) (entries : list (string * json))
    (entry : string * json) :
  Re.parse_github_url github_url = Some (owner, repo) ->
  App.tree_answer client deps owner repo response ->
  body_json response = Some data ->
  subscript data "tree" = Ret (JArr items) ->
  Forall2 App.tree_item items entries ->
  In entry entries ->
  contains "/" (fst entry) = false ->
  App.excluded (fst entry) = false
  /\ In entry (filter (fun entry => negb (App.excluded (fst entry))) entries)
  /\ result (App.get_repo_structure rt deps github_url) client
     = Ret (join nl
              (map (App.listed App.dir_icon App.file_icon)
                 (filter (fun entry => negb (App.excluded (fst entry))) entries)))
  /\ (contains nl (fst entry) = false ->
      In (App.listed App.dir_icon App.file_icon entry)
        (split_nl
           (join nl
              (map (App.listed App.dir_icon App.file_icon)
                 (filter (fun entry => negb (App.excluded (fst entry))) entries))))).
Proof.
  intros Hurl Hanswer Hbody Htree Hitems Hin Hslash.
  assert (Hkept : App.excluded (fst entry) = false).
  { destruct (App.excluded (fst entry)) eqn:Hex; [ | reflexivity].
    apply excluded_has_slash in Hex. congruence. }
  assert (Hlisted : In entry (filter App.kept entries)).
  { apply filter_In. split; [exact Hin | ]. unfold App.kept. now rewrite Hkept. }
  repeat apply conj.
  - exact Hkept.
  - exact Hlisted.
  - apply (get_repo_structure_listing rt _ _ deps github_url owner repo client
             response data items entries Hurl Hanswer Hbody Htree Hitems).
  - intros Hplain. apply split_nl_join_in.
    + apply in_map. exact Hlisted.
    + now apply listed_one_line.
Qed.

(** A tree with [node_modules], a file below it and a file whose name
    holds a newline: the line of [node_modules] is there. *)
Lemma X13_witness :
  Re.parse_github_url Sample.github_url = Some ("Zoyaaaaaaa", "DealDetective")
  /\ contains "/" "node_modules" = false
  /\ result (App.get_repo_structure Sample.rt Sample.deps Sample.github_url)
       Sample.with_modules_tree
     = Ret (App.file_icon ++ "notes" ++ nl ++ "2024.md" ++ nl
            ++ App.dir_icon ++ "node_modules")
  /\ In (App.dir_icon ++ "node_modules")
       (split_nl (App.file_icon ++ "notes" ++ nl ++ "2024.md" ++ nl
                  ++ App.dir_icon ++ "node_modules")).
Proof.
  assert (Hurl : Re.parse_github_url Sample.github_url
                 = Some ("Zoyaaaaaaa", "DealDetective")) by (vm_compute; reflexivity).
  split; [exact Hurl | split; [reflexivity | ]].
  assert (Hitems : Forall2 App.tree_item
            [Sample.newline_item; Sample.modules_item; Sample.left_pad_item]
            [(Sample.newline_path, JStr "blob");
             ("node_modules", JStr "tree");
             ("node_modules/left-pad/index.js", JStr "blob")])
    by (repeat constructor).
  destruct (X13_top_level_entries_listed Sample.rt Sample.deps Sample.github_url
              "Zoyaaaaaaa" "DealDetective" Sample.with_modules_tree
              Sample.modules_tree _ _ _
              ("node_modules", JStr "tree")
              Hurl (conj eq_refl (or_introl eq_refl)) eq_refl eq_refl Hitems
              (or_intror (or_introl eq_refl)) eq_refl)
    as [_ [_ [Hresult Hline]]].
  split; [exact Hresult | exact (Hline eq_refl)].
Defined.

(** The outcome of the listing is a function of the answer alone. *)
Lemma listing_outcome (rt : Runtime) (dir_icon file_icon : string)
    (response : Response) (client client' : Client) (log log' : list Request) :
  fst (Http.bind (lift (response_json response)) (fun data =>
       Http.bind (lift (subscript data "tree")) (fun tree =>
       Http.bind (lift (iter tree)) (fun items =>
       Http.bind (lift (App.build_structure rt dir_icon file_icon items []))
         (fun structure => ret (join nl structure))))) client log)
  = fst (Http.bind (lift (response_json response)) (fun data =>
         Http.bind (lift (subscript data "tree")) (fun tree =>
         Http.bind (lift (iter tree)) (fun items =>
         Http.bind (lift (App.build_structure rt dir_icon file_icon items []))
           (fun structure => ret (join nl structure))))) client' log').
Proof.
  destruct (response_json response) as [data | e]; [ | reflexivity].
  rewrite !bind_lift_Ret.
  destruct (subscript data "tree") as [tree | e]; [ | reflexivity].
  rewrite !bind_lift_Ret.
  destruct (iter tree) as [items | e]; [ | reflexivity].
  rewrite !bind_lift_Ret.
  destruct (App.build_structure rt dir_icon file_icon items []); reflexivity.
Qed.

(** X14.  The fallback is transparent: [get_repo_structure] gives the
    same outcome, string or exception, whether a 200 answer came for
    [main] at once or for [master] after a failed [main].  The outcome
    depends on the answering document only. *)
Theorem X14_fallback_same_outcome
    (rt : Runtime) (deps : App.GitHubDeps)
    (github_url owner repo : string) (client1 client2 : Client)
    (response : Response) :
  Re.parse_github_url github_url = Some (owner, repo) ->
  App.tree_answer client1 deps owner repo response ->
  App.tree_answer client2 deps owner repo response ->
  result (App.get_repo_structure rt deps github_url) client1
  = result (App.get_repo_structure rt deps github_url) client2.
Proof.
  intros Hurl H1 H2. unfold App.get_repo_structure.
  rewrite (get_repo_structure_on_answer rt _ _ deps github_url owner repo client2
             response _ Hurl H2 (fun log => listing_outcome rt _ _ response
                                              client2 client2 log [])).
  apply (get_repo_structure_on_answer rt _ _ deps github_url owner repo client1
           response _ Hurl H1).
  intros log. apply listing_outcome.
Qed.

Lemma X14_witness :
  Re.parse_github_url Sample.github_url = Some ("Zoyaaaaaaa", "DealDetective")
  /\ result (App.get_repo_structure Sample.rt Sample.deps Sample.github_url)
       Sample.only_master
     = result (App.get_repo_structure Sample.rt Sample.deps Sample.github_url)
         (fun _ => Ret Sample.master_tree).
Proof.
  assert (Hurl : Re.parse_github_url Sample.github_url
                 = Some ("Zoyaaaaaaa", "DealDetective")) by (vm_compute; reflexivity).
  split; [exact Hurl | ].
  apply (X14_fallback_same_outcome Sample.rt Sample.deps Sample.github_url
           "Zoyaaaaaaa" "DealDetective" Sample.only_master
           (fun _ => Ret Sample.master_tree) Sample.master_tree Hurl).
  - split; [reflexivity | right]. exists Sample.not_found.
    repeat split. vm_compute. discriminate.
  - split; [reflexivity | left; reflexivity].
Defined.

(** ** The chat endpoint beyond the token guard *)

Lemma entry_get_raises (k : string) (msg : Api.Entry) (e : exn) :
  Api.entry_get k msg = Raise e -> e = KeyError k.
Proof.
  induction msg as [ | [k' v] msg IH]; cbn [Api.entry_get].
  - now intros [= <-].
  - destruct (String.eqb k k'); [discriminate | exact IH].
Qed.

(** What the conversion loop needs of an entry. *)
Lemma convert_history_step (msg : Api.Entry) (history : list Api.Entry)
    (acc : list Agent.ModelMessage) :
  (exists role,
     Api.entry_get "role" msg = Ret role
     /\ (role = "user" \/ role = "assistant" ->
         exists c, Api.entry_get "content" msg = Ret c)
     /\ exists acc', Api.convert_history (msg :: history) acc
                     = Api.convert_history history acc')
  \/ (exists k, (k = "role" \/ k = "content")
                /\ Api.convert_history (msg :: history) acc = Raise (KeyError k)
                /\ ~ (exists role,
                        Api.entry_get "role" msg = Ret role
                        /\ (role = "user" \/ role = "assistant" ->
                            exists c, Api.entry_get "content" msg = Ret c))).
Proof.
  cbn [Api.convert_history].
  destruct (Api.entry_get "role" msg) as [role | e] eqn:Hrole; cbn [obind].
  - destruct (String.eqb_spec role "user") as [Huser | Hnot_user].
    + destruct (Api.entry_get "content" msg) as [c | e] eqn:Hc; cbn [obind].
      * left. exists role. repeat split; eauto.
      * right. exists "content". rewrite (entry_get_raises _ _ _ Hc).
        repeat split; [now right | ].
        intros [role' [[= <-] Hneed]]. destruct (Hneed (or_introl Huser)). discriminate.
    + destruct (String.eqb_spec role "assistant") as [Hassistant | Hnot_assistant].
      * destruct (Api.entry_get "content" msg) as [c | e] eqn:Hc; cbn [obind].
        -- left. exists role. repeat split; eauto.
        -- right. exists "content". rewrite (entry_get_raises _ _ _ Hc).
           repeat split; [now right | ].
           intros [role' [[= <-] Hneed]].
           destruct (Hneed (or_intror Hassistant)). discriminate.
      * left. exists role. repeat split; eauto.
        intros [H | H]; contradiction.
  - right. exists "role". rewrite (entry_get_raises _ _ _ Hrole).
    repeat split; [now left | ].
    intros [role' [H _]]. discriminate H.
Qed.

(** X15.  The handler's conversion of [request.history] succeeds exactly
    when every entry has a [role] and every entry whose role is [user]
    or [assistant] has a [content]; an entry with another role needs no
    content.  When the conversion fails it raises [KeyError] for
    [role] or for [content]. *)
Theorem X15_history_converts_iff (entries : list Api.Entry) :
  ((exists out, Api.convert_history entries [] = Ret out)
   <-> Forall (fun msg =>
         exists role,
           Api.entry_get "role" msg = Ret role
           /\ (role = "user" \/ role = "assistant" ->
               exists c, Api.entry_get "content" msg = Ret c)) entries)
  /\ (forall e, Api.convert_history entries [] = Raise e ->
                e = KeyError "role" \/ e = KeyError "content").
Proof.
  generalize (@nil Agent.ModelMessage) as acc.
  induction entries as [ | msg entries IH]; intros acc.
  - split; [split; [constructor | intros _; eexists; reflexivity] | discriminate].
  - destruct (convert_history_step msg entries acc)
      as [[role [Hrole [Hneed [acc' Hstep]]]] | [k [Hk [Hraise Hbad]]]].
    + rewrite Hstep. destruct (IH acc') as [[Hto Hfrom] Hexn].
      split; [split | exact Hexn].
      * intros Hout. constructor; [eauto | now apply Hto].
      * intros Hall. inversion Hall; subst. now apply Hfrom.
    + rewrite Hraise. split; [split | ].
      * intros [out H]. discriminate H.
      * intros Hall. inversion Hall; subst. contradiction.
      * intros e [= <-]. destruct Hk as [-> | ->]; auto.
Qed.

(** X16.  POST /api/chat is answered 200 exactly when the body is a
    [ChatRequest], its token is not empty, its history converts and the
    agent returns; the answer then carries the agent's text and the
    tool calls found in the new messages.  The agent is given the
    message, the GitHub token and the converted history of the
    request. *)
Theorem X16_chat_success
    (get_github_agent : string -> Agent.Agent) (str_exn : exn -> string)
    (body : json) :
  (Api.http_status (Api.post_api_chat get_github_agent str_exn body) = 200%Z
   <-> exists request message_history result,
         Api.validate body = Some request
         /\ Api.groq_token request <> EmptyString
         /\ Api.message_history_of (Api.history request) = Ret message_history
         /\ get_github_agent (Api.groq_token request) (Api.message request)
              (App.mkDeps (Api.github_token request)) message_history = Ret result)
  /\ (forall request message_history result,
        Api.validate body = Some request ->
        Api.groq_token request <> EmptyString ->
        Api.message_history_of (Api.history request) = Ret message_history ->
        get_github_agent (Api.groq_token request) (Api.message request)
          (App.mkDeps (Api.github_token request)) message_history = Ret result ->
        Api.post_api_chat get_github_agent str_exn body
        = Api.Success (Api.mkChatResponse (Agent.data result)
                         (Api.extract_tool_calls (Agent.new_messages result)))).
Proof.
  assert (Hsuccess : forall request message_history result,
             Api.validate body = Some request ->
             Api.groq_token request <> EmptyString ->
             Api.message_history_of (Api.history request) = Ret message_history ->
             get_github_agent (Api.groq_token request) (Api.message request)
               (App.mkDeps (Api.github_token request)) message_history = Ret result ->
             Api.post_api_chat get_github_agent str_exn body
             = Api.Success (Api.mkChatResponse (Agent.data result)
                              (Api.extract_tool_calls (Agent.new_messages result)))).
  { intros request mh result Hvalid Htoken Hmh Hrun.
    unfold Api.post_api_chat, Api.chat. rewrite Hvalid.
    apply String.eqb_neq in Htoken. now rewrite Htoken, Hmh, Hrun. }
  split; [split | exact Hsuccess].
  - unfold Api.post_api_chat, Api.chat.
    destruct (Api.validate body) as [request | ] eqn:Hvalid; [ | discriminate].
    destruct (String.eqb (Api.groq_token request) EmptyString) eqn:Htoken;
      [discriminate | ].
    destruct (Api.message_history_of (Api.history request)) as [mh | e] eqn:Hmh;
      [ | discriminate].
    destruct (get_github_agent (Api.groq_token request) (Api.message request)
                (App.mkDeps (Api.github_token request)) mh) as [result | e] eqn:Hrun;
      [ | discriminate].
    intros _. exists request, mh, result.
    apply String.eqb_neq in Htoken. repeat apply conj; auto.
  - intros [request [mh [result [Hvalid [Htoken [Hmh Hrun]]]]]].
    now rewrite (Hsuccess request mh result Hvalid Htoken Hmh Hrun).
Qed.

(** X17.  A body whose [history] is [null] is a valid [ChatRequest], and
    with a token that is not empty the handler fails on it: the loop
    over the history raises [TypeError] outside the [try], the agent is
    not run and the request ends in a 500. *)
Theorem X17_null_history_fails
    (get_github_agent : string -> Agent.Agent) (str_exn : exn -> string)
    (fields : list (string * json)) (message token : string)
    (github_token : option string) :
  lookup "message" fields = Some (JStr message) ->
  lookup "groq_token" fields = Some (JStr token) ->
  token <> EmptyString ->
  Api.optional_str "github_token" fields = Some github_token ->
  lookup "history" fields = Some JNull ->
  Api.validate (JObj fields)
    = Some (Api.mkChatRequest message github_token token None)
  /\ Api.post_api_chat get_github_agent str_exn (JObj fields)
     = Api.Unhandled TypeError
  /\ Api.http_status (Api.post_api_chat get_github_agent str_exn (JObj fields))
     = 500%Z.
Proof.
  intros Hmessage Htoken Hne Hgithub Hhistory.
  assert (Hvalid : Api.validate (JObj fields)
                   = Some (Api.mkChatRequest message github_token token None)).
  { unfold Api.validate, Api.required_str, Api.optional_history.
    now rewrite Hmessage, Htoken, Hgithub, Hhistory. }
  assert (Hrun : Api.post_api_chat get_github_agent str_exn (JObj fields)
                 = Api.Unhandled TypeError).
  { unfold Api.post_api_chat, Api.chat. rewrite Hvalid. cbn.
    apply String.eqb_neq in Hne. now rewrite Hne. }
  rewrite Hrun. repeat split. exact Hvalid.
Qed.

Lemma X17_witness :
  Api.http_status
    (Api.post_api_chat (fun _ => Sample.echo) Sample.exn_text
       (JObj [("message", JStr "hello"); ("groq_token", JStr "gsk_123");
              ("history", JNull)])) = 500%Z.
Proof.
  refine (proj2 (proj2 (X17_null_history_fails (fun _ => Sample.echo) Sample.exn_text
            [("message", JStr "hello"); ("groq_token", JStr "gsk_123");
             ("history", JNull)] "hello" "gsk_123" None
            eq_refl eq_refl _ eq_refl eq_refl))).
  discriminate.
Defined.

Lemma X15_witness :
  exists out, Api.convert_history Sample.history [] = Ret out.
Proof.
  apply (proj2 (proj1 (X15_history_converts_iff Sample.history))).
  repeat constructor; eexists; (split; [reflexivity | ]);
    first [ intros _; eexists; reflexivity
          | intros [H | H]; discriminate H ].
Defined.

Lemma X16_witness :
  Api.post_api_chat (fun _ => Sample.echo) Sample.exn_text
    (JObj [("message", JStr "hello"); ("groq_token", JStr "gsk_123")])
  = Api.Success (Api.mkChatResponse "You said hello" [("get_repo_info", "{}")]).
Proof.
  refine (proj2 (X16_chat_success (fun _ => Sample.echo) Sample.exn_text
                   (JObj [("message", JStr "hello"); ("groq_token", JStr "gsk_123")]))
            (Api.mkChatRequest "hello" None "gsk_123" (Some [])) []
            (Agent.mkRunResult _ "You said hello") eq_refl _ eq_refl eq_refl).
  discriminate.
Defined.

(** ** The CLI loop beyond the sentinel *)

Section CliRuns.
Variable github_agent : Agent.Agent.
Variable deps : App.GitHubDeps.

Local Abbreviation chat_loop := (Cli.chat_loop github_agent deps).
Local Abbreviation not_quit := (fun line => Cli.is_quit (strip line) = false).

(** How a run of the loop ends, and what it has read and asked by
    then. *)
Lemma chat_loop_ends (stdin : list string) :
  forall self self' unread exit,
  chat_loop stdin self = (self', unread, exit) ->
  exists read,
    stdin = (read ++ unread)%list
    /\ match exit with
       | Cli.Break =>
           exists pre q,
             read = (pre ++ [q])%list
             /\ Cli.is_quit (strip q) = true
             /\ Forall not_quit pre
             /\ map fst (Cli.calls self')
                = (map fst (Cli.calls self) ++ map strip pre)%list
       | Cli.Raised _ =>
           Forall not_quit read
           /\ map fst (Cli.calls self')
              = (map fst (Cli.calls self) ++ map strip read)%list
       end.
Proof.
  induction stdin as [ | line rest IH]; intros self self' unread exit Hrun.
  - injection Hrun as <- <- <-. exists []. repeat split; [constructor | ].
    simpl. now rewrite app_nil_r.
  - destruct (Cli.is_quit (strip line)) eqn:Hline.
    + rewrite chat_loop_quit in Hrun by assumption. injection Hrun as <- <- <-.
      exists [line]. split; [reflexivity | ].
      exists [], line. repeat split; [assumption | constructor | ].
      simpl. now rewrite app_nil_r.
    + destruct (github_agent (strip line) deps (Cli.messages self))
        as [result | e] eqn:Hagent.
      * rewrite (chat_loop_turn github_agent deps line rest self result Hline Hagent)
          in Hrun.
        destruct (IH _ _ _ _ Hrun) as [read [-> Hexit]].
        exists (line :: read). split; [reflexivity | ].
        destruct exit as [ | e].
        -- destruct Hexit as [pre [q [-> [Hq [Hpre Hcalls]]]]].
           exists (line :: pre), q. repeat split; [assumption | now constructor | ].
           rewrite Hcalls. simpl Cli.calls. rewrite map_app, <- app_assoc. reflexivity.
        -- destruct Hexit as [Hread Hcalls]. split; [now constructor | ].
           rewrite Hcalls. simpl Cli.calls. rewrite map_app, <- app_assoc. reflexivity.
      * rewrite (chat_loop_raise github_agent deps line rest self e Hline Hagent)
          in Hrun.
        injection Hrun as <- <- <-. exists [line]. split; [reflexivity | ].
        split; [repeat constructor; assumption | ].
        simpl. rewrite map_app. reflexivity.
Qed.

(** The intermediate messages the loop stores hold no user prompt and
    no text. *)
Lemma stored_without_prompt_or_text (l : list Agent.ModelMessage) :
  filter Cli.is_prompt_or_text
    (filter (fun msg => negb (Cli.is_prompt_or_text msg)) l) = [].
Proof.
  induction l as [ | m l IH]; [reflexivity | ].
  cbn [filter]. destruct (Cli.is_prompt_or_text m) eqn:Hm; cbn [negb].
  - exact IH.
  - cbn [filter]. now rewrite Hm.
Qed.

(** One answer is printed for each completed turn, and each turn stores
    exactly two messages that hold a user prompt or a text. *)
Lemma chat_loop_counts (stdin : list string) :
  forall self self' unread exit,
  chat_loop stdin self = (self', unread, exit) ->
  exists turns failed,
    length (Cli.printed self') = (length (Cli.printed self) + turns)%nat
    /\ length (filter Cli.is_prompt_or_text (Cli.messages self'))
       = (length (filter Cli.is_prompt_or_text (Cli.messages self)) + 2 * turns)%nat
    /\ length (Cli.calls self') = (length (Cli.calls self) + turns + failed)%nat
    /\ (failed <= 1)%nat.
Proof.
  induction stdin as [ | line rest IH]; intros self self' unread exit Hrun.
  - injection Hrun as <- <- <-. exists 0%nat, 0%nat. lia.
  - destruct (Cli.is_quit (strip line)) eqn:Hline.
    + rewrite chat_loop_quit in Hrun by assumption. injection Hrun as <- <- <-.
      exists 0%nat, 0%nat. lia.
    + destruct (github_agent (strip line) deps (Cli.messages self))
        as [result | e] eqn:Hagent.
      * rewrite (chat_loop_turn github_agent deps line rest self result Hline Hagent)
          in Hrun.
        destruct (IH _ _ _ _ Hrun) as [turns [failed [Hprinted [Hstored [Hcalls Hfailed]]]]].
        exists (S turns), failed. rewrite Hprinted, Hstored, Hcalls.
        cbn [Cli.printed Cli.messages Cli.calls].
        rewrite !filter_app, !length_app.
        rewrite stored_without_prompt_or_text. cbn. lia.
      * rewrite (chat_loop_raise github_agent deps line rest self e Hline Hagent)
          in Hrun.
        injection Hrun as <- <- <-. exists 0%nat, 1%nat.
        cbn [Cli.printed Cli.messages Cli.calls]. rewrite length_app. cbn. lia.
Qed.

(** The calls of a run, one after the other: each is given the history
    stored at the start followed by what the calls before it stored, and
    the history stored at the end is what all of them stored. *)
Lemma chat_loop_calls (stdin : list string) :
  forall self self' unread exit,
  chat_loop stdin self = (self', unread, exit) ->
  exists new,
    Cli.calls self' = (Cli.calls self ++ new)%list
    /\ Cli.messages self'
       = (Cli.messages self ++ flat_map (Cli.stored_by github_agent deps) new)%list
    /\ forall before call after,
         new = (before ++ call :: after)%list ->
         snd call
         = (Cli.messages self
            ++ flat_map (Cli.stored_by github_agent deps) before)%list.
Proof.
  induction stdin as [ | line rest IH]; intros self self' unread exit Hrun.
  - injection Hrun as <- <- <-. exists []. rewrite !app_nil_r.
    repeat split. intros [ | ? ?] ? ? H; discriminate H.
  - destruct (Cli.is_quit (strip line)) eqn:Hline.
    + rewrite chat_loop_quit in Hrun by assumption. injection Hrun as <- <- <-.
      exists []. rewrite !app_nil_r.
      repeat split. intros [ | ? ?] ? ? H; discriminate H.
    + destruct (github_agent (strip line) deps (Cli.messages self))
        as [result | e] eqn:Hagent.
      * rewrite (chat_loop_turn github_agent deps line rest self result Hline Hagent)
          in Hrun.
        destruct (IH _ _ _ _ Hrun) as [new [Hcalls [Hstored Hgiven]]].
        cbn [Cli.calls Cli.messages] in Hcalls, Hstored, Hgiven.
        assert (Hturn : Cli.stored_by github_agent deps (strip line, Cli.messages self)
                        = ([Agent.ModelRequest [Agent.UserPromptPart (strip line)]]
                           ++ filter (fun msg => negb (Cli.is_prompt_or_text msg))
                                (Agent.new_messages result)
                           ++ [Agent.ModelResponse [Agent.TextPart (Agent.data result)]])%list).
        { unfold Cli.stored_by. cbn [fst snd]. now rewrite Hagent. }
        exists ((strip line, Cli.messages self) :: new). repeat apply conj.
        -- rewrite Hcalls, <- app_assoc. reflexivity.
        -- rewrite Hstored. cbn [flat_map]. rewrite Hturn, <- !app_assoc. reflexivity.
        -- intros [ | first before] call after Hsplit.
           ++ injection Hsplit as <- _. cbn [snd flat_map]. now rewrite app_nil_r.
           ++ injection Hsplit as <- Hsplit.
              rewrite (Hgiven before call after Hsplit).
              cbn [flat_map]. rewrite Hturn, <- !app_assoc. reflexivity.
      * rewrite (chat_loop_raise github_agent deps line rest self e Hline Hagent)
          in Hrun.
        injection Hrun as <- <- <-. cbn [Cli.calls Cli.messages].
        exists [(strip line, Cli.messages self)]. repeat apply conj.
        -- reflexivity.
        -- cbn [flat_map]. unfold Cli.stored_by. cbn [fst snd].
           rewrite Hagent. now rewrite !app_nil_r.
        -- intros [ | first [ | ? ?]] call after Hsplit; try discriminate Hsplit.
           injection Hsplit as <- _. cbn [snd flat_map]. now rewrite app_nil_r.
Qed.

End CliRuns.

(** X18.  When the input ends before any sentinel and the agent answers
    every prompt, the loop asks the agent once for each line, in order
    and with the stripped text, prints one answer per line, and is then
    left by the [EOFError] of [input()]: without a "quit" line the loop
    never ends by [break]. *)
Theorem X18_input_ends_without_quit
    (github_agent : Agent.Agent) (deps : App.GitHubDeps)
    (stdin : list string) (self : Cli.CLI) :
  Forall (fun line => Cli.is_quit (strip line) = false) stdin ->
  (forall prompt history, exists result, github_agent prompt deps history = Ret result) ->
  exists self',
    Cli.chat_loop github_agent deps stdin self = (self', [], Cli.Raised EOFError)
    /\ map fst (Cli.calls self') = (map fst (Cli.calls self) ++ map strip stdin)%list
    /\ length (Cli.printed self') = (length (Cli.printed self) + length stdin)%nat.
Proof.
  intros Hlines Hagent. revert self.
  induction Hlines as [ | line rest Hline _ IH]; intros self.
  - exists self. repeat split; simpl; [now rewrite app_nil_r | lia].
  - destruct (Hagent (strip line) (Cli.messages self)) as [result Hresult].
    rewrite (chat_loop_turn github_agent deps line rest self result Hline Hresult).
    match goal with
    | |- context [Cli.chat_loop _ _ rest ?s] => destruct (IH s) as [self' [Hrun [Hcalls Hprinted]]]
    end.
    exists self'. split; [exact Hrun | split].
    + rewrite Hcalls. simpl Cli.calls. rewrite map_app, <- app_assoc. reflexivity.
    + rewrite Hprinted. simpl Cli.printed. rewrite length_app. simpl. lia.
Qed.

Lemma X18_witness :
  Forall (fun line => Cli.is_quit (strip line) = false)
    ["hi"; Sample.nbsp ++ "quit now" ++ Sample.wide_space]
  /\ exists self',
       Cli.chat_loop (fun prompt _ _ => Ret (Agent.mkRunResult [] prompt))
         Sample.deps ["hi"; Sample.nbsp ++ "quit now" ++ Sample.wide_space]
         (Cli.mkCLI [] [] [])
       = (self', [], Cli.Raised EOFError)
       /\ map fst (Cli.calls self') = ["hi"; "quit now"]
       /\ length (Cli.printed self') = 2%nat.
Proof.
  assert (Hlines : Forall (fun line => Cli.is_quit (strip line) = false)
                     ["hi"; Sample.nbsp ++ "quit now" ++ Sample.wide_space])
    by (repeat constructor).
  split; [exact Hlines | ].
  apply (X18_input_ends_without_quit
           (fun prompt _ _ => Ret (Agent.mkRunResult [] prompt)) Sample.deps
           ["hi"; Sample.nbsp ++ "quit now" ++ Sample.wide_space]
           (Cli.mkCLI [] [] []) Hlines).
  intros prompt history. eexists. reflexivity.
Defined.

(** X19.  However a run of the loop ends, the lines it has read are a
    beginning of the input and the rest is untouched.  It ends by
    [break] only right after reading a sentinel, with one agent call for
    each line before it; otherwise it ends by an exception, no line read
    is a sentinel, and the agent was called for every line read, the
    last one included. *)
Theorem X19_how_the_loop_ends
    (github_agent : Agent.Agent) (deps : App.GitHubDeps)
    (stdin : list string) (self self' : Cli.CLI) (unread : list string)
    (exit : Cli.Exit) :
  Cli.chat_loop github_agent deps stdin self = (self', unread, exit) ->
  exists read,
    stdin = (read ++ unread)%list
    /\ match exit with
       | Cli.Break =>
           exists pre q,
             read = (pre ++ [q])%list
             /\ Cli.is_quit (strip q) = true
             /\ Forall (fun line => Cli.is_quit (strip line) = false) pre
             /\ map fst (Cli.calls self')
                = (map fst (Cli.calls self) ++ map strip pre)%list
       | Cli.Raised _ =>
           Forall (fun line => Cli.is_quit (strip line) = false) read
           /\ map fst (Cli.calls self')
              = (map fst (Cli.calls self) ++ map strip read)%list
       end.
Proof. apply chat_loop_ends. Qed.

(** The loop stops at a sentinel between no-break spaces. *)
Lemma X19_witness :
  exists pre q,
    ["hi "; "quit?"; Sample.nbsp ++ "Quit" ++ Sample.nbsp; "late"]
    = ((pre ++ [q]) ++ ["late"])%list
    /\ Cli.is_quit (strip q) = true
    /\ Forall (fun line => Cli.is_quit (strip line) = false) pre.
Proof.
  destruct (X19_how_the_loop_ends Sample.echo Sample.deps
              ["hi "; "quit?"; Sample.nbsp ++ "Quit" ++ Sample.nbsp; "late"]
              (Cli.mkCLI [] [] []) _ ["late"] Cli.Break eq_refl)
    as [read [Hread [pre [q [-> [Hq [Hpre _]]]]]]].
  exists pre, q. repeat split; assumption.
Defined.

(** X20.  In any run of the loop, every completed turn prints one answer
    and stores exactly two messages that hold a user prompt or a text,
    the user message and the final response: the intermediate messages
    kept from the agent hold neither.  The agent is called once per
    printed answer, and at most once more, for the turn it failed. *)
Theorem X20_two_messages_per_turn
    (github_agent : Agent.Agent) (deps : App.GitHubDeps)
    (stdin : list string) (self self' : Cli.CLI) (unread : list string)
    (exit : Cli.Exit) :
  Cli.chat_loop github_agent deps stdin self = (self', unread, exit) ->
  exists turns failed,
    length (Cli.printed self') = (length (Cli.printed self) + turns)%nat
    /\ length (filter Cli.is_prompt_or_text (Cli.messages self'))
       = (length (filter Cli.is_prompt_or_text (Cli.messages self)) + 2 * turns)%nat
    /\ length (Cli.calls self') = (length (Cli.calls self) + turns + failed)%nat
    /\ (failed <= 1)%nat.
Proof. apply chat_loop_counts. Qed.

Lemma X20_witness :
  exists self' turns failed,
    Cli.chat Sample.echo Sample.deps ["hi "; "quit?"; "boom"; "quit"; "late"]
    = (self', ["quit"; "late"], Cli.Raised (AgentError "boom"))
    /\ length (Cli.printed self') = (2 + turns)%nat
    /\ length (filter Cli.is_prompt_or_text (Cli.messages self')) = (0 + 2 * turns)%nat
    /\ length (Cli.calls self') = (0 + turns + failed)%nat
    /\ (failed <= 1)%nat.
Proof.
  eexists.
  destruct (X20_two_messages_per_turn Sample.echo Sample.deps
              ["hi "; "quit?"; "boom"; "quit"; "late"]
              (Cli.mkCLI [] ["GitHub Agent CLI (type 'quit' to exit)";
                             "Enter your message:"] [])
              _ ["quit"; "late"] (Cli.Raised (AgentError "boom")) eq_refl)
    as [turns [failed H]].
  exists turns, failed. split; [reflexivity | exact H].
Defined.

(** X21.  Every call of the agent is given the history as it is stored
    at that moment.  The calls of a run come after the calls recorded
    before it; the history given to each of them is the history stored
    at the start of the run followed by what the earlier calls of the
    run stored, where an answered call stores the user message, the
    intermediate messages kept from the agent's answer to this very
    prompt and history, and the final response, and a failed call stores
    nothing; and the history stored at the end is the one of the start
    followed by what all the calls stored: the stored history is only
    ever appended to. *)
Theorem X21_calls_see_stored_history
    (github_agent : Agent.Agent) (deps : App.GitHubDeps)
    (stdin : list string) (self self' : Cli.CLI) (unread : list string)
    (exit : Cli.Exit) :
  Cli.chat_loop github_agent deps stdin self = (self', unread, exit) ->
  exists new,
    Cli.calls self' = (Cli.calls self ++ new)%list
    /\ Cli.messages self'
       = (Cli.messages self ++ flat_map (Cli.stored_by github_agent deps) new)%list
    /\ forall before call after,
         new = (before ++ call :: after)%list ->
         snd call
         = (Cli.messages self
            ++ flat_map (Cli.stored_by github_agent deps) before)%list.
Proof. apply chat_loop_calls. Qed.

Lemma run_eta {A B C} (run : A * B * C) :
  run = (fst (fst run), snd (fst run), snd run).
Proof. destruct run as [[a b] c]. reflexivity. Qed.

(** An agent that answers with the number of messages it was given: it
    is given none, then the two messages of the first turn, then the
    four of both turns. *)
Lemma X21_witness :
  snd Sample.counting_run = Cli.Raised (AgentError "boom")
  /\ Cli.printed (fst (fst Sample.counting_run))
     = ["GitHub Agent CLI (type 'quit' to exit)"; "Enter your message:"; "0"; "2"]
  /\ exists new,
       Cli.calls (fst (fst Sample.counting_run)) = new
       /\ map (fun call => (fst call, length (snd call))) new
          = [("hi", 0%nat); ("more", 2%nat); ("boom", 4%nat)]
       /\ Cli.messages (fst (fst Sample.counting_run))
          = flat_map (Cli.stored_by Sample.counting Sample.deps) new
       /\ forall before call after,
            new = (before ++ call :: after)%list ->
            snd call = flat_map (Cli.stored_by Sample.counting Sample.deps) before.
Proof.
  split; [vm_compute; reflexivity | ]. split; [vm_compute; reflexivity | ].
  destruct (X21_calls_see_stored_history Sample.counting Sample.deps
              ["hi "; "more"; "boom"; "late"]
              (Cli.mkCLI [] ["GitHub Agent CLI (type 'quit' to exit)";
                             "Enter your message:"] [])
              _ _ _ (run_eta Sample.counting_run))
    as [new [Hcalls [Hstored Hgiven]]].
  exists new. cbn [Cli.calls Cli.messages app] in Hcalls, Hstored, Hgiven.
  split; [exact Hcalls | ].
  split; [rewrite <- Hcalls; vm_compute; reflexivity | ].
  split; [exact Hstored | exact Hgiven].
Defined.

(** ** The last lines of the summary *)

Lemma append_tail (a b t : string) :
  (exists h, b = h ++ t) -> exists h, a ++ b = h ++ t.
Proof.
  intros [h ->]. exists (a ++ h).
  induction a as [ | c a IH]; [reflexivity | ]. cbn [append]. now rewrite IH.
Qed.

(** X9.  On a repository document the summary ends with the lines
    "Topics: ..." and "License: ...".  The topics are joined with ", ";
    "No topics" appears only when the document has no [topics] key, and
    an empty list gives an empty text.  The license is the [name] of the
    license object, and "No license available" when the document has no
    license, a null one, or a license object without a name. *)
Theorem X9_topics_and_license_lines
    (rt : Runtime) (deps : App.GitHubDeps)
    (github_url owner repo : string) (client : Client)
    (response : Response) (fields : list (string * json)) :
  Re.parse_github_url github_url = Some (owner, repo) ->
  client (mkRequest ("https://api.github.com/repos/" ++ owner ++ "/" ++ repo)
            (App.auth_headers deps)) = Ret response ->
  status_code response = 200%Z ->
  body_json response = Some (JObj fields) ->
  App.repo_document (JObj fields) ->
  exists head topics license,
    result (App.get_repo_info rt deps github_url) client
    = Ret (head ++ "Topics: " ++ topics ++ nl ++ "License: " ++ license)
    /\ (lookup "topics" fields = None -> topics = "No topics")
    /\ (forall names, lookup "topics" fields = Some (JArr (map JStr names)) ->
        topics = join ", " names)
    /\ (lookup "license" fields = None \/ lookup "license" fields = Some JNull ->
        license = "No license available")
    /\ (forall l, lookup "license" fields = Some (JObj l) ->
        license = match lookup "name" l with
                  | Some name => App.fmt rt name
                  | None => "No license available"
                  end).
Proof.
  intros Hurl Hclient H200 Hbody
    [fields' [Heq [[n [Hsize Hn]] [[o [Howner [login Hlogin]]]
       [Hfields [Htopics Hlicense]]]]]].
  injection Heq as <-.
  destruct (size_mb_1f_returns n Hn) as [size_mb Hsize_mb].
  repeat match goal with
         | H : Forall _ (_ :: _) |- _ =>
             let Hk := fresh "Hk" in
             inversion H as [ | ? ? [? Hk] ?]; subst; clear H
         end.
  unfold App.get_repo_info, result. rewrite Hurl, invoke_get, Hclient, H200.
  cbn [Z.eqb Pos.eqb negb].
  rewrite (bind_lift_ret _ (JObj fields))
    by (unfold response_json; now rewrite Hbody).
  cbn [subscript get str_in].
  rewrite Hsize, Howner, Hk, Hk0, Hk1, Hk2, Hk3, Hk4, Hk5, Hk6, Hk7, Hk8.
  rewrite bind_lift_Ret, Hsize_mb, !bind_lift_Ret.
  cbn [subscript]. rewrite Hlogin, !bind_lift_Ret.
  assert (Htopics' : exists topics,
             (if match lookup "topics" fields with Some _ => true | None => false end
              then obind match lookup "topics" fields with
                         | Some x => Ret x
                         | None => Ret (JArr [])
                         end (join_json ", ")
              else Ret "No topics") = Ret topics
             /\ (lookup "topics" fields = None -> topics = "No topics")
             /\ (forall names, lookup "topics" fields = Some (JArr (map JStr names)) ->
                 topics = join ", " names)).
  { destruct Htopics as [Hnone | [names Hsome]].
    - rewrite Hnone. exists "No topics". repeat split. discriminate.
    - rewrite Hsome. cbn [obind]. unfold join_json. cbn [iter obind].
      rewrite all_str_strings. cbn [obind]. exists (join ", " names).
      repeat split; [discriminate | ].
      intros names' [= Hsame].
      assert (Hnames : names = names').
      { clear -Hsame. revert names' Hsame.
        induction names as [ | x l IH]; intros [ | y l'] H; try discriminate;
          [reflexivity | ].
        injection H as -> Hl. now rewrite (IH l' Hl). }
      now subst names'. }
  destruct Htopics' as [topics [-> [Htnone Htsome]]]. rewrite bind_lift_Ret.
  assert (Hlicense' : exists license_info,
             obind match lookup "license" fields with
                   | Some x => Ret x
                   | None => Ret JNull
                   end
               (fun license_info =>
                  if truthy license_info
                  then get license_info "name" (JStr "No license available")
                  else Ret (JStr "No license available")) = Ret license_info
             /\ (lookup "license" fields = None \/ lookup "license" fields = Some JNull ->
                 App.fmt rt license_info = "No license available")
             /\ (forall l, lookup "license" fields = Some (JObj l) ->
                 App.fmt rt license_info
                 = match lookup "name" l with
                   | Some name => App.fmt rt name
                   | None => "No license available"
                   end)).
  { destruct Hlicense as [Hnone | [Hnull | [l Hobj]]].
    - rewrite Hnone. eexists. repeat split. discriminate.
    - rewrite Hnull. eexists. repeat split. discriminate.
    - rewrite Hobj. cbn [obind truthy].
      destruct l as [ | kv l].
      + eexists. split; [reflexivity | ]. split.
        * intros [H | H]; discriminate H.
        * now intros l' [= <-].
      + cbn [get]. destruct (lookup "name" (kv :: l)) as [name | ] eqn:Hname.
        * exists name. split; [reflexivity | ]. split.
          -- intros [H | H]; discriminate H.
          -- intros l' [= <-]. now rewrite Hname.
        * eexists. split; [reflexivity | ]. split.
          -- intros [H | H]; discriminate H.
          -- intros l' [= <-]. now rewrite Hname. }
  destruct Hlicense' as [license_info [Hlic [Hlnone Hlobj]]].
  destruct (match lookup "license" fields with
            | Some x => Ret x
            | None => Ret JNull
            end) as [lic | e]; [ | discriminate Hlic].
  cbn [obind] in Hlic. rewrite bind_lift_Ret, Hlic, !bind_lift_Ret.
  cbn [ret fst].
  assert (Hhead : forall s,
             (exists head, s = head ++ "Topics: " ++ topics ++ nl ++ "License: "
                                ++ App.fmt rt license_info) ->
             exists head topics0 license,
               Ret s = Ret (head ++ "Topics: " ++ topics0 ++ nl ++ "License: " ++ license)
               /\ (lookup "topics" fields = None -> topics0 = "No topics")
               /\ (forall names, lookup "topics" fields = Some (JArr (map JStr names)) ->
                   topics0 = join ", " names)
               /\ (lookup "license" fields = None \/ lookup "license" fields = Some JNull ->
                   license = "No license available")
               /\ (forall l, lookup "license" fields = Some (JObj l) ->
                   license = match lookup "name" l with
                             | Some name => App.fmt rt name
                             | None => "No license available"
                             end)).
  { intros s [head ->]. exists head, topics, (App.fmt rt license_info).
    repeat apply conj; auto. }
  apply Hhead.
  do 40 apply append_tail.
  exists EmptyString. reflexivity.
Qed.

Lemma X9_witness :
  App.repo_document Sample.repository
  /\ exists head,
       result (App.get_repo_info Sample.rt Sample.deps Sample.github_url)
         Sample.with_repository
       = Ret (head ++ "Topics: " ++ "fastapi, agents" ++ nl
              ++ "License: " ++ "MIT License").
Proof.
  split; [exact sample_repository_document | ].
  destruct (X9_topics_and_license_lines Sample.rt Sample.deps Sample.github_url
              "Zoyaaaaaaa" "DealDetective" Sample.with_repository
              (Sample.respond 200 Sample.repository) _
              ltac:(vm_compute; reflexivity) eq_refl eq_refl eq_refl
              sample_repository_document)
    as [head [topics [license [Hres [_ [Htopics [_ Hlicense]]]]]]].
  rewrite (Htopics ["fastapi"; "agents"] eq_refl) in Hres.
  rewrite (Hlicense _ eq_refl) in Hres.
  exists head. exact Hres.
Defined.

(** ** The size in the summary *)

Lemma round_half_even_near (num den : Z) :
  (0 < den)%Z ->
  (Z.abs (2 * (den * round_half_even num den - num)) <= den)%Z.
Proof.
  intros Hden. unfold round_half_even.
  assert (Hdiv := Z.div_mod num den ltac:(lia)).
  assert (Hmod := Z.mod_pos_bound num den Hden).
  destruct (2 * (num mod den) >? den)%Z eqn:Hgt.
  - apply Z.gtb_lt in Hgt. nia.
  - assert (Hle : (2 * (num mod den) <= den)%Z).
    { destruct (Z.gtb_spec (2 * (num mod den)) den); [discriminate | lia]. }
    destruct (2 * (num mod den) =? den)%Z eqn:Heq.
    + apply Z.eqb_eq in Heq. destruct (Z.even (num / den)); nia.
    + nia.
Qed.

(** X12.  For a [size] of [n] kilobytes, [0 <= n < 2^53], the summary
    shows [n / 1024] with one decimal: the digits printed are those of
    the number of tenths nearest to [10 n / 1024], so the text is within
    0.05 of the exact quotient, and the division loses nothing. *)
Theorem X12_size_within_half_a_tenth (n : Z) :
  (0 <= n < 2 ^ 53)%Z ->
  exists tenths,
    size_mb_1f (JNum n)
    = Ret (decimal_nat (tenths / 10) ++ "." ++ decimal_nat (tenths mod 10))
    /\ (0 <= tenths)%Z
    /\ (Z.abs (2 * (1024 * tenths - 10 * n)) <= 1024)%Z.
Proof.
  intros [Hlo Hhi].
  exists (round_half_even (n * 10) 1024).
  assert (Hnear := round_half_even_near (n * 10) 1024 ltac:(lia)).
  split; [ | split; [ | lia]].
  - unfold size_mb_1f. cbn [as_int obind]. rewrite Z.abs_eq by lia.
    unfold truediv_1024.
    assert (Hbits : ((if (n =? 0)%Z then 0 else Z.log2 n + 1) <=? 53)%Z = true).
    { apply Z.leb_le. destruct (Z.eqb_spec n 0); [lia | ].
      assert (Z.log2 n < 53)%Z by (apply Z.log2_lt_pow2; lia). lia. }
    rewrite Hbits. unfold format_1f.
    replace (n <? 0)%Z with false by (symmetry; apply Z.ltb_ge; lia).
    reflexivity.
  - unfold round_half_even.
    assert (0 <= n * 10 / 1024)%Z by (apply Z.div_pos; lia).
    destruct (2 * (n * 10 mod 1024) >? 1024)%Z; [lia | ].
    destruct (2 * (n * 10 mod 1024) =? 1024)%Z; [ | lia].
    destruct (Z.even (n * 10 / 1024)); lia.
Qed.

Lemma X12_witness :
  (0 <= 1536 < 2 ^ 53)%Z
  /\ exists tenths,
       size_mb_1f (JNum 1536)
       = Ret (decimal_nat (tenths / 10) ++ "." ++ decimal_nat (tenths mod 10))
       /\ (0 <= tenths)%Z
       /\ (Z.abs (2 * (1024 * tenths - 10 * 1536)) <= 1024)%Z.
Proof.
  assert (H : (0 <= 1536 < 2 ^ 53)%Z) by (split; [lia | reflexivity]).
  split; [exact H | exact (X12_size_within_half_a_tenth 1536 H)].
Defined.
